(** * The [prtg] Ansible module (plugins/modules/prtg.py)

    A shallow embedding of the module's helper functions ([api_call],
    [validate_response], [pause_device]) and of [main], followed by the
    properties of the reconciliation flow.

    Conventions of the embedding.
    - Python values that the module tests for truthiness are of type [pyval].
    - Text is [string].  [lower] is [str.lower] on ASCII text, where it
      lowers the letters A..Z and nothing else; on other text [str.lower]
      does more, so every statement that depends on how names compare is
      made for ASCII text ([ascii_text], [ascii_listing]).
    - [json.loads] and [ET.fromstring] are primitives: a response body is
      given in parsed form ([body]); handing a body of the wrong kind to a
      parser raises, as the parser does on text it cannot read.
    - [module.fail_json] and [module.exit_json] end the process; so does an
      exception nobody catches.  The three are the abrupt cases of [result].
    - Every remote call is recorded in a trace together with the response it
      received; so is every [read()] of a response body.  [close()] has no
      observable effect and is left out. *)

From Stdlib Require Import ZArith List String Ascii Bool Lia.
From Stdlib Require Import DecimalString DecimalN.
Import ListNotations.

Local Open Scope string_scope.
Local Open Scope Z_scope.

(* ================================================================= *)
(** ** Text primitives *)

Definition lower_ascii (c : ascii) : ascii :=
  let n := nat_of_ascii c in
  if (Nat.leb 65 n && Nat.leb n 90)%bool then ascii_of_nat (n + 32) else c.

(** [s.lower()], for ASCII text *)
Fixpoint lower (s : string) : string :=
  match s with
  | EmptyString => EmptyString
  | String c r => String (lower_ascii c) (lower r)
  end.

(** The text on which [lower] is [str.lower]: every character is below 128. *)
Definition is_ascii (c : ascii) : bool := Nat.ltb (nat_of_ascii c) 128.

Fixpoint ascii_text (s : string) : bool :=
  match s with
  | EmptyString => true
  | String c r => (is_ascii c && ascii_text r)%bool
  end.

(** [needle in hay] on Python strings *)
Fixpoint contains (needle hay : string) : bool :=
  if String.prefix needle hay then true
  else match hay with
       | EmptyString => false
       | String _ r => contains needle r
       end.

(** [s.endswith('/')] *)
Fixpoint endswith_slash (s : string) : bool :=
  match s with
  | EmptyString => false
  | String c EmptyString => Ascii.eqb c "/"
  | String _ r => endswith_slash r
  end.

(** [s.rstrip('/')] *)
Fixpoint rstrip_slash (s : string) : string :=
  match s with
  | EmptyString => EmptyString
  | String c r =>
      match rstrip_slash r with
      | EmptyString => if Ascii.eqb c "/" then EmptyString else String c EmptyString
      | r' => String c r'
      end
  end.

Definition is_digit (c : ascii) : bool :=
  let n := nat_of_ascii c in (Nat.leb 48 n && Nat.leb n 57)%bool.

(** The longest run of digits at the head of [s]: what [[0-9]+] consumes. *)
Fixpoint take_digits (s : string) : string :=
  match s with
  | EmptyString => EmptyString
  | String c r => if is_digit c then String c (take_digits r) else EmptyString
  end.

(** Every character of [s] is one of 0..9. *)
Fixpoint all_digits (s : string) : bool :=
  match s with
  | EmptyString => true
  | String c r => (is_digit c && all_digits r)%bool
  end.

Fixpoint drop (n : nat) (s : string) : string :=
  match n, s with
  | O, _ => s
  | S n', String _ r => drop n' r
  | S _, EmptyString => EmptyString
  end.

(** The pattern of [new_dev_re] anchored at the head of [s]; the result is
    [group(1)]. *)
Definition new_dev_re_match_here (s : string) : option string :=
  if String.prefix "id%3D" s then
    match take_digits (drop 5 s) with
    | EmptyString => None
    | ds => Some ds
    end
  else None.

(** [new_dev_re.search(s)]: the leftmost match, [None] when there is none. *)
Fixpoint new_dev_re_search (s : string) : option string :=
  match new_dev_re_match_here s with
  | Some ds => Some ds
  | None => match s with
            | EmptyString => None
            | String _ r => new_dev_re_search r
            end
  end.

(* ================================================================= *)
(** ** Python values *)

Inductive pyval : Type :=
| PNone
| PInt (z : Z)
| PStr (s : string).

(** [bool(v)] *)
Definition truthy (v : pyval) : bool :=
  match v with
  | PNone => false
  | PInt z => negb (z =? 0)
  | PStr s => negb (s =? EmptyString)%string
  end.

(** A module parameter without a declared type is a string, or [None] when
    the playbook does not set it. *)
Definition param_val (o : option string) : pyval :=
  match o with
  | None => PNone
  | Some s => PStr s
  end.

(** A [dict] with string keys, in insertion order. *)
Definition dict := list (string * pyval).

(** [d[k] = v] *)
Fixpoint dict_set (d : dict) (k : string) (v : pyval) : dict :=
  match d with
  | [] => [(k, v)]
  | (k', v') :: r => if (k' =? k)%string then (k, v) :: r else (k', v') :: dict_set r k v
  end.

Fixpoint dict_get (d : dict) (k : string) : option pyval :=
  match d with
  | [] => None
  | (k', v) :: r => if (k' =? k)%string then Some v else dict_get r k
  end.

(* ================================================================= *)
(** ** Data model *)

(** An entry of the [devices] array of [/api/table.json]. *)
Record device : Type := mkDevice {
  objid : Z;
  device_ : string;       (* the entry's 'device' field: the device name *)
  host : string;
  group : string;
  active_raw : Z
}.

(** An [xml.etree.ElementTree.Element]. *)
#[warnings="-register-all"]
Inductive xml : Type :=
| Element (tag : string) (attrib : list (string * string)) (children : list xml).

Definition xml_tag (x : xml) : string := let 'Element t _ _ := x in t.
Definition xml_attrib (x : xml) : list (string * string) := let 'Element _ a _ := x in a.
Definition xml_children (x : xml) : list xml := let 'Element _ _ c := x in c.

Fixpoint attrib_get (a : list (string * string)) (k : string) : option string :=
  match a with
  | [] => None
  | (k', v) :: r => if (k' =? k)%string then Some v else attrib_get r k
  end.

Inductive body : Type :=
| BJson (devices : list device)   (* a JSON document with a 'devices' array *)
| BXml (root : xml)               (* an XML document *)
| BText (s : string).             (* anything else *)

(** What [fetch_url] returns: the body stream and the [info] dictionary's
    'status' and 'url'.  [status = None] when no status was received. *)
Record response : Type := mkResponse {
  status : option Z;
  url : string;
  resp_body : body
}.

(** A GET request: the URL is [req_base ++ req_path ++ "?" ++ urlencode req_query]. *)
Record request : Type := mkRequest {
  req_base : string;
  req_path : string;
  req_query : dict
}.

Inductive state_choice : Type := present | absent.

(** [module.params], after the argument specification has been applied. *)
Record params : Type := mkParams {
  api_user : string;
  api_passhash : string;
  prtg_url : string;
  device_id : option string;
  device_name : option string;
  state : state_choice;
  enabled : bool;
  clone_from : option string;
  dest_group : option string;
  validate_certs : bool
}.

(* ================================================================= *)
(** ** Effects *)

Inductive exn : Type :=
| IndexError | KeyError | UnboundLocalError | AttributeError | ValueError | ParseError.

Inductive result (A : Type) : Type :=
| Ret (a : A)
| ExitJson (changed : bool)     (* module.exit_json(changed=...) *)
| FailJson (msg : string)       (* module.fail_json(msg=...) *)
| Uncaught (e : exn).           (* an exception that ends the process *)
Arguments Ret {A} a.
Arguments ExitJson {A} changed.
Arguments FailJson {A} msg.
Arguments Uncaught {A} e.

Inductive event : Type :=
| EvCall (req : request) (resp : response)
| EvRead (resp : response).

(** A computation over a remote system in state [W]: its result, the state
    it leaves the remote system in, and what it did, in order. *)
Definition M (W A : Type) : Type := W -> result A * W * list event.

(** The three components of a finished run. *)
Definition outcome {W A} (x : result A * W * list event) : result A := fst (fst x).
Definition final_state {W A} (x : result A * W * list event) : W := snd (fst x).
Definition trace {W A} (x : result A * W * list event) : list event := snd x.

Definition ret {W A} (a : A) : M W A := fun w => (Ret a, w, []).

Definition bind {W A B} (m : M W A) (k : A -> M W B) : M W B :=
  fun w =>
    match m w with
    | (Ret a, w1, t1) =>
        let x := k a w1 in (outcome x, final_state x, (t1 ++ trace x)%list)
    | (ExitJson c, w1, t1) => (ExitJson c, w1, t1)
    | (FailJson s, w1, t1) => (FailJson s, w1, t1)
    | (Uncaught e, w1, t1) => (Uncaught e, w1, t1)
    end.

Definition lift {W A} (r : result A) : M W A := fun w => (r, w, []).
Definition fail_json {W A} (msg : string) : M W A := lift (FailJson msg).
Definition exit_json {W A} (changed : bool) : M W A := lift (ExitJson changed).
Definition raise {W A} (e : exn) : M W A := lift (Uncaught e).

Notation "x <- m ;; k" := (bind m (fun x => k))
  (at level 61, m at next level, right associativity).
Notation "m ;;; k" := (bind m (fun _ => k))
  (at level 61, right associativity).

(** [resp.read()] *)
Definition read {W} (resp : response) : M W body :=
  fun w => (Ret (resp_body resp), w, [EvRead resp]).

(** [json.loads(text)['devices']].  A body that is not a JSON document with
    a ['devices'] array makes the expression raise: a [ValueError] for text
    that is not JSON, a [KeyError] or a [TypeError] for JSON of another
    shape.  The three are not told apart here, and all read [ValueError]. *)
Definition json_loads_devices {W} (b : body) : M W (list device) :=
  match b with
  | BJson ds => ret ds
  | _ => raise ValueError
  end.

(** [ET.fromstring(text)] *)
Definition ET_fromstring {W} (b : body) : M W xml :=
  match b with
  | BXml x => ret x
  | _ => raise ParseError
  end.

(** Reading a local variable: [UnboundLocalError] when no assignment to it
    has been executed. *)
Definition read_var {W A} (v : option A) : M W A :=
  match v with
  | Some a => ret a
  | None => raise UnboundLocalError
  end.

(** [seq[i]] *)
Definition index {W A} (l : list A) (i : nat) : M W A :=
  match nth_error l i with
  | Some a => ret a
  | None => raise IndexError
  end.

(** [x.attrib[k]] *)
Definition attrib_index {W} (x : xml) (k : string) : M W string :=
  match attrib_get (xml_attrib x) k with
  | Some v => ret v
  | None => raise KeyError
  end.

(** [a and b], with [b] evaluated only when [a] holds *)
Definition and_then {W} (a : bool) (b : M W bool) : M W bool :=
  if a then b else ret false.

(** [if c: module.fail_json(msg=msg)] *)
Definition fail_if {W} (c : bool) (msg : string) : M W unit :=
  if c then fail_json msg else ret tt.

(** [if c: m] *)
Definition when {W} (c : bool) (m : M W unit) : M W unit :=
  if c then m else ret tt.

(* ================================================================= *)
(** ** The module's functions *)

Definition state_eqb (a b : state_choice) : bool :=
  match a, b with
  | present, present | absent, absent => true
  | _, _ => false
  end.

(** [bool(resp_info['status'])] *)
Definition status_truthy (s : option Z) : bool :=
  match s with
  | None => false
  | Some z => negb (z =? 0)
  end.

(** [resp_info['status'] == n] for a non-zero literal [n] *)
Definition status_is (s : option Z) (n : Z) : bool :=
  match s with
  | None => false
  | Some z => z =? n
  end.

(** [validate_response], lines 116-132 *)
Definition validate_response {W} (resp_info : response) : M W Z :=
  if status_truthy (status resp_info) then
    if status_is (status resp_info) 401 then
      fail_json "Invalid API credentials"
    else if status_is (status resp_info) 404 then
      fail_json "Invalid API URL"
    else if status_is (status resp_info) 400 then
      fail_json "The API call could not be completed successfully"
    else if status_is (status resp_info) 200 then
      ret 200
    else if status_is (status resp_info) 302 then
      ret 302
    else ret 0
  else
    fail_json "Unable to reach API server".

(** The for loop of lines 188-197.  [device_id] and [dev] are the values of
    the two local variables when the loop is entered ([dev = None]: not yet
    assigned); the result is their values when it is left. *)
Fixpoint for_dev {W} (device_name : option string) (device_id : pyval)
    (dev : option device) (devices : list device) : M W (pyval * option device) :=
  match devices with
  | [] => ret (device_id, dev)
  | d :: rest =>
      match device_name with
      | None => raise AttributeError        (* None.lower() *)
      | Some name =>
          if contains (lower name) (lower (device_ d)) then
            ret (PInt (objid d), Some d)
          else if (lower name =? lower (host d))%string then
            ret (PInt (objid d), Some d)
          else for_dev device_name device_id (Some d) rest
      end
  end.

Definition nonempty {A} (l : list A) : bool :=
  match l with
  | [] => false
  | _ :: _ => true
  end.

Section Remote.

(** The remote system: how it answers a request in a given state, and the
    state it is in afterwards. *)
Context {W : Type} (serve : W -> request -> W * response).

(** [api_call], lines 97-113: [fetch_url] is the one step that reaches the
    remote system. *)
Definition api_call (p : params) (path : string) (query : dict) : M W response :=
  let base :=
    if endswith_slash (prtg_url p) then rstrip_slash (prtg_url p) else prtg_url p in
  let query := dict_set query "username" (PStr (api_user p)) in
  let query := dict_set query "passhash" (PStr (api_passhash p)) in
  let req := mkRequest base path query in
  fun w => let '(w', resp) := serve w req in (Ret resp, w', [EvCall req resp]).

(** [pause_device], lines 134-147 *)
Definition pause_device (p : params) (device_id : pyval) (paused : bool) : M W bool :=
  let pause_action := if paused then 0 else 1 in
  info <- api_call p "/api/pause.htm"
            [("id", device_id); ("pausemsg", PStr "paused by ansible");
             ("action", PInt pause_action)] ;;
  v <- validate_response info ;;
  fail_if (negb (v =? 200)) "Failed to pause device" ;;;
  ret true.

Definition table_columns : pyval := PStr "objid,device,host,group,active".

(** [main], lines 173-208: the values of [device_id] and [dev] once the
    existence check is done. *)
Definition check_device (p : params) : M W (pyval * option device) :=
  let device_id := param_val (device_id p) in
  let dev : option device := None in
  if negb (truthy device_id) then
    check_info <- api_call p "/api/table.json"
                    [("content", PStr "devices"); ("output", PStr "json");
                     ("columns", table_columns); ("count", PInt 10000)] ;;
    v <- validate_response check_info ;;
    fail_if (negb (v =? 200)) "API request failed" ;;;
    text <- read check_info ;;
    devices <- json_loads_devices text ;;
    for_dev (device_name p) device_id dev devices
  else
    check_info <- api_call p "/api/table.json"
                    [("content", PStr "devices"); ("output", PStr "json");
                     ("columns", table_columns); ("filter_objid", device_id)] ;;
    v <- validate_response check_info ;;
    fail_if (negb (v =? 200)) "API request failed" ;;;
    text <- read check_info ;;
    devices <- json_loads_devices text ;;
    if nonempty devices then
      d <- read_var dev ;;
      ret (PInt (objid d), dev)
    else ret (device_id, dev).

(** Lines 227-239: the group the new device goes to. *)
Definition determine_parent_group (p : params) : M W pyval :=
  if truthy (param_val (dest_group p)) then ret (param_val (dest_group p))
  else
    group_info <- api_call p "/api/getobjectstatus.htm"
                    [("id", param_val (clone_from p)); ("name", PStr "group");
                     ("show", PStr "text")] ;;
    v <- validate_response group_info ;;
    fail_if (negb (v =? 200)) "API request failed" ;;;
    text <- read group_info ;;
    group_result <- ET_fromstring text ;;
    g1 <- index (xml_children group_result) 1 ;;
    if (xml_tag g1 =? "result")%string then
      g10 <- index (xml_children g1) 0 ;;
      thisid <- attrib_index g10 "thisid" ;;
      ret (PStr thisid)
    else fail_json "Unable to find parent group of clone_from".

(** Lines 226-257: what the creation branch does outside check mode. *)
Definition create_device (p : params) : M W unit :=
  dest_group <- determine_parent_group p ;;
  create_info <- api_call p "/api/duplicateobject.htm"
                   [("id", param_val (clone_from p));
                    ("name", param_val (device_name p));
                    ("host", param_val (device_name p));
                    ("targetid", dest_group)] ;;
  v <- validate_response create_info ;;
  fail_if (negb (v =? 200)) "API request failed" ;;;
  match new_dev_re_search (url create_info) with
  | Some new_dev_id =>
      when (enabled p) (pause_device p (PStr new_dev_id) false ;;; ret tt)
  | None => fail_json "Unable to parse new device ID from return request"
  end.

(** [main], lines 212-296: the cases, then [module.exit_json]. *)
Definition converge (p : params) (check_mode : bool)
    (device_id : pyval) (dev : option device) : M W unit :=
  dev_changed <-
    (if (state_eqb (state p) present && negb (truthy device_id))%bool then
       fail_if (negb (truthy (param_val (clone_from p))))
         "Unable to create new device because: clone_from parameter not specified" ;;;
       when (negb check_mode) (create_device p) ;;;
       ret true
     else if (state_eqb (state p) present && truthy device_id)%bool then
       c1 <- and_then (Bool.eqb (enabled p) true)
               (d <- read_var dev ;; ret (active_raw d =? 0)) ;;
       if c1 then
         when (negb check_mode) (pause_device p device_id false ;;; ret tt) ;;;
         ret true
       else
         c2 <- and_then (Bool.eqb (enabled p) false)
                 (d <- read_var dev ;; ret (active_raw d =? -1)) ;;
         if c2 then
           when (negb check_mode) (pause_device p device_id true ;;; ret tt) ;;;
           ret true
         else ret false
     else if (state_eqb (state p) absent && truthy device_id)%bool then
       when (negb check_mode)
         (del_info <- api_call p "/api/deleteobject.htm"
                        [("id", device_id); ("approve", PStr "1")] ;;
          v <- validate_response del_info ;;
          fail_if (negb (v =? 200)) "Failed to delete device") ;;;
       ret true
     else if (state_eqb (state p) absent && negb (truthy device_id))%bool then
       ret false
     else ret false) ;;
  exit_json dev_changed.

(** [main] *)
Definition main (p : params) (check_mode : bool) : M W unit :=
  found <- check_device p ;;
  converge p check_mode (fst found) (snd found).

End Remote.

Arguments api_call {W} serve p path query.
Arguments pause_device {W} serve p device_id paused.
Arguments check_device {W} serve p.
Arguments determine_parent_group {W} serve p.
Arguments create_device {W} serve p.
Arguments converge {W} serve p check_mode device_id dev.
Arguments main {W} serve p check_mode.

(* ================================================================= *)
(** ** Observing a run *)

(** The requests of a trace, in the order they were issued. *)
Fixpoint calls (t : list event) : list request :=
  match t with
  | [] => []
  | EvCall req _ :: r => req :: calls r
  | EvRead _ :: r => calls r
  end.

(** What a request asks the remote system to change, if anything: the three
    endpoints that change it are duplicateobject.htm, pause.htm and
    deleteobject.htm.  A parameter that is missing reads as [PNone]. *)
Inductive mutation : Type :=
| MDuplicate (id name host targetid : pyval)
| MPause (id action : pyval)
| MDelete (id approve : pyval).

Definition query_get (req : request) (k : string) : pyval :=
  match dict_get (req_query req) k with
  | Some v => v
  | None => PNone
  end.

Definition mutation_of (req : request) : option mutation :=
  if (req_path req =? "/api/duplicateobject.htm")%string then
    Some (MDuplicate (query_get req "id") (query_get req "name")
                     (query_get req "host") (query_get req "targetid"))
  else if (req_path req =? "/api/pause.htm")%string then
    Some (MPause (query_get req "id") (query_get req "action"))
  else if (req_path req =? "/api/deleteobject.htm")%string then
    Some (MDelete (query_get req "id") (query_get req "approve"))
  else None.

Fixpoint mutations_of (reqs : list request) : list mutation :=
  match reqs with
  | [] => []
  | req :: r =>
      match mutation_of req with
      | Some m => m :: mutations_of r
      | None => mutations_of r
      end
  end.

(** The mutating calls of a trace. *)
Definition mutations (t : list event) : list mutation := mutations_of (calls t).

(** The responses whose body was read, in order. *)
Fixpoint reads (t : list event) : list response :=
  match t with
  | [] => []
  | EvRead resp :: r => resp :: reads r
  | EvCall _ _ :: r => reads r
  end.

(** The group id a getobjectstatus.htm document carries: the [thisid] of the
    first child of the second child of the root, when that second child is a
    [result] element. *)
Definition parent_group_of (b : body) : option string :=
  match b with
  | BXml (Element _ _ (_ :: Element t _ (g10 :: _) :: _)) =>
      if (t =? "result")%string then attrib_get (xml_attrib g10) "thisid" else None
  | _ => None
  end.

(* ================================================================= *)
(** ** The transition table of the specification (section 4.3) *)

Inductive action : Type :=
| CreateByClone | Unpause | Pause | Delete | NoAction.

(** A device is paused when its [active_raw] is 0 and active when it is -1. *)
Definition currently_paused (d : device) : bool := active_raw d =? 0.
Definition currently_active (d : device) : bool := active_raw d =? -1.

(** The rows of the table, top to bottom; [observed] is the device the
    resolver found, [None] when it found none. *)
Definition table_action (desired : state_choice) (observed : option device)
    (want_enabled : bool) : action :=
  match desired, observed with
  | present, None => CreateByClone
  | present, Some d =>
      if (want_enabled && currently_paused d)%bool then Unpause
      else if (negb want_enabled && currently_active d)%bool then Pause
      else NoAction
  | absent, Some _ => Delete
  | absent, None => NoAction
  end.

Definition table_changed (a : action) : bool :=
  match a with
  | NoAction => false
  | _ => true
  end.

(** The resolver's rule in the words of the specification (section 4.2): a
    device matches when its name contains the target as a case-insensitive
    substring or its host equals the target case-insensitively. *)
Definition name_matches (target : string) (d : device) : Prop :=
  exists pre post, lower (device_ d) = pre ++ lower target ++ post.

Definition host_matches (target : string) (d : device) : Prop :=
  lower (host d) = lower target.

Definition matches (target : string) (d : device) : Prop :=
  name_matches target d \/ host_matches target d.

(** A listing whose device names and hosts are ASCII text. *)
Definition ascii_listing (devices : list device) : bool :=
  forallb (fun d => (ascii_text (device_ d) && ascii_text (host d))%bool) devices.

(** The same rule as the loop tests it. *)
Definition matchb (target : string) (d : device) : bool :=
  (contains (lower target) (lower (device_ d))
   || (lower target =? lower (host d))%string)%bool.

(* ================================================================= *)
(** ** A model of the remote system

    The module's source does not contain the monitoring server.  To run the
    module twice in succession, the server is modelled by what section 6 of
    the specification says of its endpoints: table.json lists the devices,
    pause.htm pauses (action 0) or resumes (any other action) the device
    with the given id, deleteobject.htm removes it, duplicateobject.htm adds
    a paused copy named and hosted as asked, under a fresh id that the
    returned URL carries after an encoded [id=] marker, and
    getobjectstatus.htm names the group of a device. *)

Record prtg : Type := mkPrtg {
  prtg_devices : list device;
  prtg_next : positive          (* the id the next new object gets *)
}.

(** An id as it comes in a query: a number, or its decimal digits. *)
Definition id_of_val (v : pyval) : option Z :=
  match v with
  | PInt z => Some z
  | PStr s =>
      match NilEmpty.uint_of_string s with
      | Some u => Some (Z.of_N (N.of_uint u))
      | None => None
      end
  | PNone => None
  end.

Definition digits_of_pos (n : positive) : string :=
  NilEmpty.string_of_uint (Pos.to_uint n).

Definition text_of_val (v : pyval) : string :=
  match v with
  | PStr s => s
  | PInt z => match z with
              | Zpos n => digits_of_pos n
              | Z0 => "0"
              | Zneg n => "-" ++ digits_of_pos n
              end
  | PNone => "None"
  end.

Definition ok_response (b : body) : response := mkResponse (Some 200) "/" b.
Definition error_response (st : Z) : response := mkResponse (Some st) "/" (BText EmptyString).

Definition has_id (i : Z) (d : device) : bool := objid d =? i.

Definition set_active (i a : Z) (d : device) : device :=
  if has_id i d then mkDevice (objid d) (device_ d) (host d) (group d) a else d.

Definition group_document (g : string) : xml :=
  Element "prtg" []
    [Element "version" [] [];
     Element "result" [] [Element "a" [("thisid", g)] []]].

Definition prtg_serve (w : prtg) (req : request) : prtg * response :=
  if (req_path req =? "/api/table.json")%string then
    match dict_get (req_query req) "filter_objid" with
    | None => (w, ok_response (BJson (prtg_devices w)))
    | Some v =>
        match id_of_val v with
        | Some i => (w, ok_response (BJson (filter (has_id i) (prtg_devices w))))
        | None => (w, error_response 400)
        end
    end
  else if (req_path req =? "/api/getobjectstatus.htm")%string then
    match id_of_val (query_get req "id") with
    | Some i =>
        match find (has_id i) (prtg_devices w) with
        | Some d => (w, ok_response (BXml (group_document (group d))))
        | None => (w, error_response 400)
        end
    | None => (w, error_response 400)
    end
  else if (req_path req =? "/api/pause.htm")%string then
    match id_of_val (query_get req "id"), id_of_val (query_get req "action") with
    | Some i, Some a =>
        (mkPrtg (map (set_active i (if a =? 0 then 0 else -1)) (prtg_devices w))
                (prtg_next w),
         ok_response (BText EmptyString))
    | _, _ => (w, error_response 400)
    end
  else if (req_path req =? "/api/deleteobject.htm")%string then
    match id_of_val (query_get req "id") with
    | Some i =>
        (mkPrtg (filter (fun d => negb (has_id i d)) (prtg_devices w)) (prtg_next w),
         ok_response (BText EmptyString))
    | None => (w, error_response 400)
    end
  else if (req_path req =? "/api/duplicateobject.htm")%string then
    match id_of_val (query_get req "id") with
    | Some i =>
        match find (has_id i) (prtg_devices w) with
        | Some _ =>
            let d := mkDevice (Zpos (prtg_next w))
                       (text_of_val (query_get req "name"))
                       (text_of_val (query_get req "host"))
                       (text_of_val (query_get req "targetid")) 0 in
            (mkPrtg (prtg_devices w ++ [d]) (Pos.succ (prtg_next w)),
             mkResponse (Some 200)
               ("/device.htm?id%3D" ++ digits_of_pos (prtg_next w))
               (BText EmptyString))
        | None => (w, error_response 400)
        end
    | None => (w, error_response 400)
    end
  else (w, error_response 404).

(** The device duplicateobject.htm adds in the model. *)
Definition new_device (w : prtg) (p : params) (dest : pyval) : device :=
  mkDevice (Zpos (prtg_next w)) (text_of_val (param_val (device_name p)))
    (text_of_val (param_val (device_name p))) (text_of_val dest) 0.

(** A server that answers every request the same way, whatever its state. *)
Definition constant_server (resp : response) (w : unit) (req : request)
    : unit * response := (w, resp).

(* ================================================================= *)
(** ** The error taxonomy of the specification (section 7) *)

Inductive error_class : Type :=
| AuthenticationFailed | EndpointNotFound | MalformedRequest | TransportUnreachable.

(** The statuses that the specification maps to an error class of their
    own; [None] stands for a status that never arrived. *)
Definition fatal_class (s : option Z) : option error_class :=
  match s with
  | None => Some TransportUnreachable
  | Some z =>
      if z =? 401 then Some AuthenticationFailed
      else if z =? 404 then Some EndpointNotFound
      else if z =? 400 then Some MalformedRequest
      else None
  end.

(** The message the module reports for each class. *)
Definition class_message (c : error_class) : string :=
  match c with
  | AuthenticationFailed => "Invalid API credentials"
  | EndpointNotFound => "Invalid API URL"
  | MalformedRequest => "The API call could not be completed successfully"
  | TransportUnreachable => "Unable to reach API server"
  end.

(* ================================================================= *)
(** ** The requests of the call sites *)

(** The request of the existence check when no [device_id] is given. *)
Definition listing_request (p : params) : request :=
  mkRequest
    (if endswith_slash (prtg_url p) then rstrip_slash (prtg_url p) else prtg_url p)
    "/api/table.json"
    [("content", PStr "devices"); ("output", PStr "json");
     ("columns", PStr "objid,device,host,group,active"); ("count", PInt 10000);
     ("username", PStr (api_user p)); ("passhash", PStr (api_passhash p))].

(** The request of the existence check when a [device_id] is given. *)
Definition filter_request (p : params) : request :=
  mkRequest
    (if endswith_slash (prtg_url p) then rstrip_slash (prtg_url p) else prtg_url p)
    "/api/table.json"
    [("content", PStr "devices"); ("output", PStr "json");
     ("columns", PStr "objid,device,host,group,active");
     ("filter_objid", param_val (device_id p));
     ("username", PStr (api_user p)); ("passhash", PStr (api_passhash p))].

(** The request of the parent group lookup. *)
Definition group_request (p : params) : request :=
  mkRequest
    (if endswith_slash (prtg_url p) then rstrip_slash (prtg_url p) else prtg_url p)
    "/api/getobjectstatus.htm"
    [("id", param_val (clone_from p)); ("name", PStr "group"); ("show", PStr "text");
     ("username", PStr (api_user p)); ("passhash", PStr (api_passhash p))].

(** The requests of the three calls that change the remote system. *)
Definition pause_request (p : params) (id : pyval) (paused : bool) : request :=
  mkRequest
    (if endswith_slash (prtg_url p) then rstrip_slash (prtg_url p) else prtg_url p)
    "/api/pause.htm"
    [("id", id); ("pausemsg", PStr "paused by ansible");
     ("action", PInt (if paused then 0 else 1));
     ("username", PStr (api_user p)); ("passhash", PStr (api_passhash p))].

Definition delete_request (p : params) (id : pyval) : request :=
  mkRequest
    (if endswith_slash (prtg_url p) then rstrip_slash (prtg_url p) else prtg_url p)
    "/api/deleteobject.htm"
    [("id", id); ("approve", PStr "1");
     ("username", PStr (api_user p)); ("passhash", PStr (api_passhash p))].

Definition duplicate_request (p : params) (dest : pyval) : request :=
  mkRequest
    (if endswith_slash (prtg_url p) then rstrip_slash (prtg_url p) else prtg_url p)
    "/api/duplicateobject.htm"
    [("id", param_val (clone_from p)); ("name", param_val (device_name p));
     ("host", param_val (device_name p)); ("targetid", dest);
     ("username", PStr (api_user p)); ("passhash", PStr (api_passhash p))].

(* ================================================================= *)
(** ** The resolver's rule, stated on the listing *)

(** [d] is the first device of the listing that matches the target. *)
Definition first_match (target : string) (devices : list device) (d : device) : Prop :=
  exists before rest,
    devices = (before ++ d :: rest)%list /\
    matches target d /\
    forall d', In d' before -> ~ matches target d'.

(** The value of the loop variable [dev] once the loop has run over the
    whole listing. *)
Definition last_bound (dev : option device) (devices : list device) : option device :=
  fold_left (fun _ d => Some d) devices dev.

(** What the loop leaves in [device_id] and [dev]. *)
Definition scan_result (target : string) (device_id : pyval) (dev : option device)
    (devices : list device) : pyval * option device :=
  match find (matchb target) devices with
  | Some d => (PInt (objid d), Some d)
  | None => (device_id, last_bound dev devices)
  end.

(* ================================================================= *)
(** ** Sample inputs *)

(** The task of the module's EXAMPLES section. *)
Definition example_params : params :=
  mkParams "ansible_api" "1234567890" "https://prtg.example.com/"
    None (Some "myhost.example.com") present true (Some "1234") (Some "5678") true.

(** A response that carries nothing but a status. *)
Definition with_status (st : option Z) : response :=
  mkResponse st "/" (BText EmptyString).

(** The listing of the specification's resolver example. *)
Definition web01 : device := mkDevice 2001 "Web01" "10.0.0.5" "Servers" (-1).

(** A task that resolves the device by name. *)
Definition by_name (target : string) : params :=
  mkParams "ansible_api" "1234567890" "https://prtg.example.com/"
    None (Some target) present true None None true.

(** A task that gives the device by id. *)
Definition by_id (id : string) (st : state_choice) : params :=
  mkParams "ansible_api" "1234567890" "https://prtg.example.com/"
    (Some id) None st true None None true.

(** A server with the device [web01] and the template device 1234. *)
Definition template : device := mkDevice 1234 "template" "template.example.com" "5678" 0.
Definition sample_prtg : prtg := mkPrtg [web01; template] 4321.

(** Two devices whose names both contain web. *)
Definition web02 : device := mkDevice 2002 "web02" "10.0.0.6" "Servers" (-1).
Definition two_webs : prtg := mkPrtg [web01; web02; template] 4321.

(** A task that wants the device named web absent. *)
Definition remove_web : params :=
  mkParams "ansible_api" "1234567890" "https://prtg.example.com/"
    None (Some "web") absent true None None true.

(** A task that creates, with the destination group left to the lookup. *)
Definition clone_params : params :=
  mkParams "ansible_api" "1234567890" "https://prtg.example.com/"
    None (Some "newhost") present true (Some "1234") None true.

(** The creation of the specification's end-to-end example. *)
Definition create_params : params :=
  mkParams "ansible_api" "1234567890" "https://prtg.example.com/"
    None (Some "newhost") present true (Some "1234") (Some "5678") true.

(** A task that wants the device named web present and paused. *)
Definition pause_params : params :=
  mkParams "ansible_api" "1234567890" "https://prtg.example.com/"
    None (Some "web") present false None None true.

(** An answer whose second element is not a [result] and has no children. *)
Definition error_document : xml :=
  Element "prtg" [] [Element "version" [] []; Element "error" [] []].

(** An answer whose [result] element itself lacks [thisid] while its first
    child carries it. *)
Definition nested_document : xml :=
  Element "prtg" [] [Element "version" [] [];
                     Element "result" [] [Element "a" [("thisid", "5678")] []]].

(** An answer with no second element. *)
Definition short_document : xml := Element "prtg" [] [Element "version" [] []].

(* ================================================================= *)
(** ** Notions used in the proofs *)

(** A run that starts with the event [e] and goes on as [x]. *)
Definition after {W A} (e : event) (x : result A * W * list event)
    : result A * W * list event :=
  (outcome x, final_state x, e :: trace x).

(** The request [api_call] sends. *)
Definition request_of (p : params) (path : string) (query : dict) : request :=
  mkRequest
    (if endswith_slash (prtg_url p) then rstrip_slash (prtg_url p) else prtg_url p)
    path
    (dict_set (dict_set query "username" (PStr (api_user p)))
       "passhash" (PStr (api_passhash p))).

(** The message a call site fails with when the status is not 200; [msg] is
    the call site's own message. *)
Definition failure_message (s : option Z) (msg : string) : string :=
  if negb (status_truthy s) then "Unable to reach API server"
  else if status_is s 401 then "Invalid API credentials"
  else if status_is s 404 then "Invalid API URL"
  else if status_is s 400 then "The API call could not be completed successfully"
  else msg.

(** The message of the call site that issues [req]. *)
Definition site_message (req : request) : string :=
  if (req_path req =? "/api/pause.htm")%string then "Failed to pause device"
  else if (req_path req =? "/api/deleteobject.htm")%string then "Failed to delete device"
  else "API request failed".

(** In the run [x], a call that is not answered with status 200 is the last
    event, and the run ends with the failure message of the call's site. *)
Definition stops_at_failed_call {W A} (x : result A * W * list event) : Prop :=
  forall t1 req resp t2,
    trace x = (t1 ++ EvCall req resp :: t2)%list ->
    status_is (status resp) 200 = false ->
    t2 = [] /\
    outcome x = FailJson (failure_message (status resp) (site_message req)).

(** Every run of [m] stops at a failed call. *)
Definition guarded {W A} (m : M W A) : Prop :=
  forall w, stops_at_failed_call (m w).

(* ================================================================= *)
(** ** Notions for the properties of the helper functions *)

(** [n] slashes. *)
Fixpoint slashes (n : nat) : string :=
  match n with
  | O => EmptyString
  | S k => String "/" (slashes k)
  end.

(** The request carries the credentials of the task. *)
Definition authenticated (p : params) (req : request) : Prop :=
  dict_get (req_query req) "username" = Some (PStr (api_user p))
  /\ dict_get (req_query req) "passhash" = Some (PStr (api_passhash p)).

(** Every request of every run of [m] satisfies [P]. *)
Definition every_call {W A} (P : request -> Prop) (m : M W A) : Prop :=
  forall w, Forall P (calls (trace (m w))).

(** No run of [m] ends in the exception [e]. *)
Definition avoids {W A} (e : exn) (m : M W A) : Prop :=
  forall w, outcome (m w) <> Uncaught e.

(** The endpoints a run calls, in order. *)
Definition paths (t : list event) : list string := map req_path (calls t).

Fixpoint is_path_prefix (l1 l2 : list string) : Prop :=
  match l1, l2 with
  | [], _ => True
  | a :: r1, b :: r2 => a = b /\ is_path_prefix r1 r2
  | _ :: _, [] => False
  end.

(** The four orders in which an invocation can go through the endpoints. *)
Definition call_sequences : list (list string) :=
  [ ["/api/table.json"; "/api/getobjectstatus.htm"; "/api/duplicateobject.htm";
     "/api/pause.htm"];
    ["/api/table.json"; "/api/duplicateobject.htm"; "/api/pause.htm"];
    ["/api/table.json"; "/api/pause.htm"];
    ["/api/table.json"; "/api/deleteobject.htm"] ].

(** No run of [m] issues a request. *)
Definition quiet {W A} (m : M W A) : Prop :=
  forall w, calls (trace (m w)) = [].

(** An entry with the id 0, and a task that wants it absent. *)
Definition root_object : device := mkDevice 0 "Root" "localhost" "0" (-1).

Definition remove_root : params :=
  mkParams "ansible_api" "1234567890" "https://prtg.example.com/"
    None (Some "root") absent true None None true.

(** Every response whose body a run of [m] reads satisfies [P]. *)
Definition every_read {W A} (P : response -> Prop) (m : M W A) : Prop :=
  forall w, Forall P (reads (trace (m w))).

(** No run of [m] does anything that shows in the trace. *)
Definition silent {W A} (m : M W A) : Prop :=
  forall w, trace (m w) = [].

(** A device in neither of the two states the module tests for, and a task
    that wants it present and enabled. *)
Definition starting_device : device := mkDevice 2003 "db01" "10.0.0.7" "Servers" 1.

(** The new device id a URL carries, in the words of the specification
    (section 4.3): the digits after an encoded [id=] marker.  Of several
    markers the leftmost that is followed by a digit counts, and the id is
    the whole run of digits standing there. *)
Definition carries_id (u nid : string) : Prop :=
  exists pre post,
    u = pre ++ "id%3D" ++ nid ++ post
    /\ nid <> EmptyString
    /\ all_digits nid = true
    /\ (forall c r, post = String c r -> is_digit c = false)
    /\ (forall pre' c post',
           u = pre' ++ "id%3D" ++ String c post' -> is_digit c = true ->
           (String.length pre <= String.length pre')%nat).

(** The group a new device goes to, in the words of the specification
    (section 4.3): the [dest_group] of the task when it is given, else the
    parent group that the remote system, in state [w], reports for
    [clone_from]. *)
Definition destination {W} (serve : W -> request -> W * response)
    (p : params) (w : W) (dest : pyval) : Prop :=
  if truthy (param_val (dest_group p)) then dest = param_val (dest_group p)
  else status (snd (serve w (group_request p))) = Some 200
       /\ exists thisid,
           parent_group_of (resp_body (snd (serve w (group_request p)))) = Some thisid
           /\ dest = PStr thisid.

(** The state of the remote system once the destination is known: the
    lookup, when there is one, is a request like any other. *)
Definition after_group_lookup {W} (serve : W -> request -> W * response)
    (p : params) (w : W) : W :=
  if truthy (param_val (dest_group p)) then w else fst (serve w (group_request p)).

(** Every call of the trace was answered with status 200. *)
Definition all_answered_200 (t : list event) : Prop :=
  forall req resp, In (EvCall req resp) t -> status resp = Some 200.

(* ================================================================= *)
(** * Properties *)

(* ================================================================= *)
(** ** Running a computation step by step *)

Lemma run_eta {W A} (x : result A * W * list event) :
  x = (outcome x, final_state x, trace x).
Proof. destruct x as [[r w] t]; reflexivity. Qed.

Lemma bind_ret {W A B} (a : A) (k : A -> M W B) (w : W) :
  bind (ret a) k w = k a w.
Proof. unfold bind, ret; cbn. symmetry; apply run_eta. Qed.

Lemma bind_assoc {W A B C} (m : M W A) (f : A -> M W B) (g : B -> M W C) (w : W) :
  bind (bind m f) g w = bind m (fun a => bind (f a) g) w.
Proof.
  unfold bind. destruct (m w) as [[[a| c | msg | e] w1] t1]; try reflexivity.
  destruct (f a w1) as [[[b| c | msg | e] w2] t2]; cbn; try reflexivity.
  destruct (g b w2) as [[r w3] t3]; cbn. now rewrite app_assoc.
Qed.

Lemma bind_read {W B} (resp : response) (k : body -> M W B) (w : W) :
  bind (read resp) k w = after (EvRead resp) (k (resp_body resp) w).
Proof. reflexivity. Qed.

Lemma bind_api_call {W B} (serve : W -> request -> W * response)
    (p : params) (path : string) (query : dict) (k : response -> M W B) (w : W) :
  bind (api_call serve p path query) k w =
  after (EvCall (request_of p path query) (snd (serve w (request_of p path query))))
    (k (snd (serve w (request_of p path query)))
       (fst (serve w (request_of p path query)))).
Proof.
  unfold bind, api_call, request_of.
  destruct (serve w _) as [w1 resp]; reflexivity.
Qed.

Lemma outcome_after {W A} e (x : result A * W * list event) :
  outcome (after e x) = outcome x.
Proof. reflexivity. Qed.

Lemma trace_after {W A} e (x : result A * W * list event) :
  trace (after e x) = e :: trace x.
Proof. reflexivity. Qed.

Lemma final_state_after {W A} e (x : result A * W * list event) :
  final_state (after e x) = final_state x.
Proof. reflexivity. Qed.

(* ================================================================= *)
(** ** [validate_response] *)

(** A status check followed by the call site's comparison with 200. *)
Lemma validate_then_compare {W B} (info : response) (msg : string)
    (k : M W B) (w : W) :
  bind (validate_response info)
       (fun v => bind (fail_if (negb (v =? 200)) msg) (fun _ => k)) w =
  if status_is (status info) 200 then k w
  else (FailJson (failure_message (status info) msg), w, []).
Proof.
  unfold validate_response, failure_message.
  destruct (status info) as [z|]; cbn; [|reflexivity].
  destruct (z =? 0) eqn:E0; cbn.
  { apply Z.eqb_eq in E0; subst; reflexivity. }
  destruct (z =? 401) eqn:E401.
  { apply Z.eqb_eq in E401; subst; reflexivity. }
  destruct (z =? 404) eqn:E404.
  { apply Z.eqb_eq in E404; subst; reflexivity. }
  destruct (z =? 400) eqn:E400.
  { apply Z.eqb_eq in E400; subst; reflexivity. }
  destruct (z =? 200) eqn:E200.
  { rewrite bind_ret. cbn. symmetry; apply run_eta. }
  destruct (z =? 302) eqn:E302; rewrite bind_ret; reflexivity.
Qed.

(** The same, when the comparison is the last thing a block does. *)
Lemma validate_then_compare_last {W} (info : response) (msg : string) (w : W) :
  bind (validate_response info) (fun v => fail_if (negb (v =? 200)) msg) w =
  if status_is (status info) 200 then (Ret tt, w, [])
  else (FailJson (failure_message (status info) msg), w, []).
Proof.
  unfold validate_response, failure_message.
  destruct (status info) as [z|]; cbn; [|reflexivity].
  destruct (z =? 0) eqn:E0; cbn.
  { apply Z.eqb_eq in E0; subst; reflexivity. }
  destruct (z =? 401) eqn:E401.
  { apply Z.eqb_eq in E401; subst; reflexivity. }
  destruct (z =? 404) eqn:E404.
  { apply Z.eqb_eq in E404; subst; reflexivity. }
  destruct (z =? 400) eqn:E400.
  { apply Z.eqb_eq in E400; subst; reflexivity. }
  destruct (z =? 200) eqn:E200.
  { rewrite bind_ret. reflexivity. }
  destruct (z =? 302) eqn:E302; rewrite bind_ret; reflexivity.
Qed.

(* ================================================================= *)
(** ** A call that is not answered with 200 is the last thing a run does *)

Lemma silent_stops {W A} (x : result A * W * list event) :
  trace x = [] -> stops_at_failed_call x.
Proof.
  intros E t1 req resp t2 H _. rewrite E in H.
  now destruct t1.
Qed.

Lemma guarded_ret {W A} (a : A) : guarded (@ret W A a).
Proof. intros w. now apply silent_stops. Qed.

Lemma guarded_lift {W A} (r : result A) : guarded (@lift W A r).
Proof. intros w. now apply silent_stops. Qed.

Lemma guarded_read {W} (resp : response) : guarded (@read W resp).
Proof.
  intros w t1 req r t2 H _. cbn in H.
  destruct t1 as [|e [|e' t1]]; discriminate.
Qed.

Lemma guarded_bind {W A B} (m : M W A) (k : A -> M W B) :
  guarded m -> (forall a, guarded (k a)) -> guarded (bind m k).
Proof.
  intros Hm Hk w. specialize (Hm w). unfold bind.
  destruct (m w) as [[[a| c | msg | e] w1] tm] eqn:Em;
    try (intros t1 req resp t2 H Hbad;
         destruct (Hm t1 req resp t2 H Hbad) as [-> Ho]; cbn in Ho |- *;
         split; [reflexivity | congruence]).
  intros t1 req resp t2 H Hbad. cbn in H.
  apply app_eq_app in H. destruct H as [l [[E1 E2] | [E1 E2]]].
  - destruct l as [|e l].
    + cbn in E2. rewrite app_nil_r in E1. subst t1.
      specialize (Hk a w1 [] req resp t2). cbn in Hk.
      destruct (Hk (eq_sym E2) Hbad) as [-> Ho]. split; [reflexivity|exact Ho].
    + cbn in E2. injection E2 as Ee E2. subst e.
      destruct (Hm t1 req resp l E1 Hbad) as [_ Ho]. discriminate Ho.
  - specialize (Hk a w1 l req resp t2 E2 Hbad). exact Hk.
Qed.

Lemma guarded_after_call {W A} req resp (x : result A * W * list event) :
  (status_is (status resp) 200 = true -> stops_at_failed_call x) ->
  (status_is (status resp) 200 = false ->
   x = (FailJson (failure_message (status resp) (site_message req)),
        final_state x, [])) ->
  stops_at_failed_call (after (EvCall req resp) x).
Proof.
  intros Hok Hbad t1 rq rs t2 H Hs. rewrite trace_after in H.
  destruct t1 as [|e t1]; cbn in H.
  - injection H as -> -> H.
    specialize (Hbad Hs). rewrite Hbad in H |- *. cbn in H |- *.
    split; [now symmetry | reflexivity].
  - injection H as _ H.
    destruct (status_is (status resp) 200) eqn:E.
    + rewrite outcome_after. exact (Hok eq_refl t1 rq rs t2 H Hs).
    + rewrite (Hbad eq_refl) in H. now destruct t1.
Qed.

(** A call, the status check, the comparison with 200, then [k]. *)
Lemma guarded_validated_call {W B} (serve : W -> request -> W * response)
    p path query msg (k : response -> M W B) :
  site_message (request_of p path query) = msg ->
  (forall info, guarded (k info)) ->
  guarded (info <- api_call serve p path query ;;
           v <- validate_response info ;;
           fail_if (negb (v =? 200)) msg ;;; k info).
Proof.
  intros Hmsg Hk w. rewrite bind_api_call.
  rewrite validate_then_compare.
  apply guarded_after_call; intros E; rewrite E.
  - apply Hk.
  - now rewrite Hmsg.
Qed.

Lemma guarded_validated_call_last {W} (serve : W -> request -> W * response)
    p path query msg :
  site_message (request_of p path query) = msg ->
  guarded (info <- api_call serve p path query ;;
           v <- validate_response info ;;
           fail_if (negb (v =? 200)) msg).
Proof.
  intros Hmsg w. rewrite bind_api_call.
  rewrite validate_then_compare_last.
  apply guarded_after_call; intros E; rewrite E.
  - now apply silent_stops.
  - now rewrite Hmsg.
Qed.

Lemma guarded_for_dev {W} name id dev devs : guarded (@for_dev W name id dev devs).
Proof.
  revert dev. induction devs as [|d rest IH]; intros dev; cbn.
  - apply guarded_ret.
  - destruct name as [name|]; [|apply guarded_lift].
    destruct (contains _ _); [apply guarded_ret|].
    destruct (_ =? _)%string; [apply guarded_ret|apply IH].
Qed.

Lemma guarded_json_loads_devices {W} b : guarded (@json_loads_devices W b).
Proof. destruct b; first [apply guarded_ret | apply guarded_lift]. Qed.

Lemma guarded_ET_fromstring {W} b : guarded (@ET_fromstring W b).
Proof. destruct b; first [apply guarded_ret | apply guarded_lift]. Qed.

Lemma guarded_read_var {W A} (v : option A) : guarded (@read_var W A v).
Proof. destruct v; first [apply guarded_ret | apply guarded_lift]. Qed.

Lemma guarded_index {W A} (l : list A) i : guarded (@index W A l i).
Proof.
  unfold index. destruct (nth_error l i); first [apply guarded_ret | apply guarded_lift].
Qed.

Lemma guarded_attrib_index {W} x k : guarded (@attrib_index W x k).
Proof.
  unfold attrib_index.
  destruct (attrib_get _ _); first [apply guarded_ret | apply guarded_lift].
Qed.

Lemma guarded_fail_if {W} c msg : guarded (@fail_if W c msg).
Proof. destruct c; first [apply guarded_ret | apply guarded_lift]. Qed.

Lemma guarded_when {W} c (m : M W unit) : guarded m -> guarded (when c m).
Proof. intros H. destruct c; [exact H | apply guarded_ret]. Qed.

Lemma guarded_and_then {W} c (m : M W bool) : guarded m -> guarded (and_then c m).
Proof. intros H. destruct c; [exact H | apply guarded_ret]. Qed.

Lemma guarded_main {W} (serve : W -> request -> W * response) p cm :
  guarded (main serve p cm).
Proof.
  unfold main, check_device, converge, create_device, determine_parent_group,
    pause_device.
  repeat first
    [ apply guarded_validated_call; [reflexivity | intros ?]
    | apply guarded_validated_call_last; reflexivity
    | apply guarded_ret
    | apply guarded_lift
    | apply guarded_read
    | apply guarded_for_dev
    | apply guarded_json_loads_devices
    | apply guarded_ET_fromstring
    | apply guarded_read_var
    | apply guarded_index
    | apply guarded_attrib_index
    | apply guarded_fail_if
    | apply guarded_when
    | apply guarded_and_then
    | apply guarded_bind; [|intros ?]
    | match goal with
      | |- guarded (if ?c then _ else _) => destruct c
      | |- guarded (match ?x with _ => _ end) => destruct x
      end ].
Qed.

(* ================================================================= *)
(** ** Status classification (claims C5 and C10) *)

Lemma fatal_class_not_200 (s : option Z) (c : error_class) :
  fatal_class s = Some c ->
  status_is s 200 = false /\ forall msg, failure_message s msg = class_message c.
Proof.
  unfold fatal_class, failure_message. destruct s as [z|]; cbn.
  - destruct (z =? 401) eqn:E1.
    { apply Z.eqb_eq in E1; subst. intros [= <-]. now split. }
    destruct (z =? 404) eqn:E2.
    { apply Z.eqb_eq in E2; subst. intros [= <-]. now split. }
    destruct (z =? 400) eqn:E3.
    { apply Z.eqb_eq in E3; subst. intros [= <-]. now split. }
    discriminate.
  - intros [= <-]. now split.
Qed.

(** C5.  [validate_response] fails the invocation with the message of the
    authentication failure for status 401, of the missing endpoint for 404,
    of the malformed request for 400 and of the unreachable server when no
    status was received.  In a run of [main], a call answered with one of
    these is the last thing the run does: the invocation ends with that
    message, and nothing, in particular no read of the response body, comes
    after the call. *)
Theorem validate_response_fatal_statuses :
  (forall (W : Type) (info : response) (w : W) (c : error_class),
      fatal_class (status info) = Some c ->
      validate_response info w = (FailJson (class_message c), w, []))
  /\
  (forall (W : Type) (serve : W -> request -> W * response) p check_mode w
          t1 req resp t2 c,
      trace (main serve p check_mode w) = (t1 ++ EvCall req resp :: t2)%list ->
      fatal_class (status resp) = Some c ->
      outcome (main serve p check_mode w) = FailJson (class_message c)
      /\ t2 = []
      /\ reads (trace (main serve p check_mode w)) = reads t1).
Proof.
  split.
  - intros W info w c Hc. unfold validate_response, fatal_class in *.
    destruct (status info) as [z|]; cbn in *.
    + destruct (z =? 401) eqn:E1.
      { apply Z.eqb_eq in E1; subst. now injection Hc as <-. }
      destruct (z =? 404) eqn:E2.
      { apply Z.eqb_eq in E2; subst. now injection Hc as <-. }
      destruct (z =? 400) eqn:E3.
      { apply Z.eqb_eq in E3; subst. now injection Hc as <-. }
      discriminate.
    + now injection Hc as <-.
  - intros W serve p cm w t1 req resp t2 c Ht Hc.
    destruct (fatal_class_not_200 _ _ Hc) as [H200 Hmsg].
    destruct (guarded_main serve p cm w t1 req resp t2 Ht H200) as [-> Ho].
    rewrite Ho, Hmsg, Ht. repeat split.
    clear. induction t1 as [|[rq rs|rs] t1 IH]; cbn; congruence.
Qed.

Lemma validate_response_fatal_statuses_witness :
  validate_response (with_status (Some 401)) tt
    = (FailJson "Invalid API credentials", tt, [])
  /\ outcome (main (constant_server (with_status None)) example_params false tt)
    = FailJson "Unable to reach API server".
Proof.
  split.
  - apply (proj1 validate_response_fatal_statuses unit (with_status (Some 401)) tt
             AuthenticationFailed).
    reflexivity.
  - apply (proj2 validate_response_fatal_statuses unit
             (constant_server (with_status None)) example_params false tt
             [] (listing_request example_params) (with_status None) []
             TransportUnreachable); reflexivity.
Defined.

(** C10.  [validate_response] returns 302 for status 302 and does not fail.
    Yet in a run of [main], whichever call is answered with 302 is the last
    thing the run does, and the invocation ends as a failure with the
    message of that call's site. *)
Theorem status_302_fails_at_every_call_site :
  (forall (W : Type) (info : response) (w : W),
      status info = Some 302 -> validate_response info w = (Ret 302, w, []))
  /\
  (forall (W : Type) (serve : W -> request -> W * response) p check_mode w
          t1 req resp t2,
      trace (main serve p check_mode w) = (t1 ++ EvCall req resp :: t2)%list ->
      status resp = Some 302 ->
      outcome (main serve p check_mode w) = FailJson (site_message req)
      /\ t2 = []).
Proof.
  split.
  - intros W info w H. unfold validate_response. now rewrite H.
  - intros W serve p cm w t1 req resp t2 Ht H.
    assert (H200 : status_is (status resp) 200 = false) by now rewrite H.
    destruct (guarded_main serve p cm w t1 req resp t2 Ht H200) as [-> Ho].
    rewrite Ho, H. now split.
Qed.

Lemma status_302_fails_at_every_call_site_witness :
  validate_response (with_status (Some 302)) tt = (Ret 302, tt, [])
  /\ outcome (main (constant_server (with_status (Some 302))) example_params false tt)
    = FailJson "API request failed".
Proof.
  split.
  - apply (proj1 status_302_fails_at_every_call_site unit (with_status (Some 302)) tt).
    reflexivity.
  - apply (proj2 status_302_fails_at_every_call_site unit
             (constant_server (with_status (Some 302))) example_params false tt
             [] (listing_request example_params) (with_status (Some 302)) []);
      reflexivity.
Defined.

(* ================================================================= *)
(** ** Resolution by name (claim C3) *)

Lemma prefix_iff (s1 s2 : string) :
  String.prefix s1 s2 = true <-> exists post, s2 = s1 ++ post.
Proof.
  revert s2. induction s1 as [|a s1 IH]; intros s2; cbn.
  - split; [intros _; now exists s2 | destruct s2; reflexivity].
  - destruct s2 as [|b s2]; cbn.
    + split; [discriminate | intros [post H]; discriminate].
    + destruct (ascii_dec a b) as [->|Hab].
      * rewrite IH. split; intros [post H]; exists post; [now subst | now injection H].
      * split; [discriminate | intros [post H]; injection H as H1 _; congruence].
Qed.

Lemma contains_iff (needle hay : string) :
  contains needle hay = true <-> exists pre post, hay = pre ++ needle ++ post.
Proof.
  induction hay as [|c hay IH]; cbn [contains].
  - destruct (String.prefix needle EmptyString) eqn:E.
    + split; [intros _ | reflexivity].
      apply prefix_iff in E. destruct E as [post E]. now exists EmptyString, post.
    + split; [discriminate|]. intros [pre [post H]].
      destruct pre; [|discriminate]. cbn in H.
      assert (String.prefix needle EmptyString = true) by (apply prefix_iff; now exists post).
      congruence.
  - destruct (String.prefix needle (String c hay)) eqn:E.
    + split; [intros _ | reflexivity].
      apply prefix_iff in E. destruct E as [post E]. now exists EmptyString, post.
    + rewrite IH. split.
      * intros [pre [post H]]. exists (String c pre), post. now rewrite H.
      * intros [pre [post H]]. destruct pre as [|c' pre].
        -- cbn in H.
           assert (String.prefix needle (String c hay) = true)
             by (apply prefix_iff; now exists post).
           congruence.
        -- injection H as _ H. now exists pre, post.
Qed.

Lemma matchb_iff (target : string) (d : device) :
  matchb target d = true <-> matches target d.
Proof.
  unfold matchb, matches, name_matches, host_matches.
  rewrite orb_true_iff, contains_iff, String.eqb_eq.
  split; (intros [H|H]; [left; exact H | right; now symmetry]).
Qed.

Lemma matchb_false_iff (target : string) (d : device) :
  matchb target d = false <-> ~ matches target d.
Proof.
  rewrite <- matchb_iff. destruct (matchb target d); split; congruence.
Qed.

(** The loop computes [scan_result], touches nothing and issues no call. *)
Lemma for_dev_run {W} (target : string) (id : pyval) (dev : option device)
    (devices : list device) (w : W) :
  for_dev (Some target) id dev devices w = (Ret (scan_result target id dev devices), w, []).
Proof.
  revert dev. induction devices as [|d rest IH]; intros dev; [reflexivity|].
  unfold scan_result. cbn [for_dev find]. unfold matchb at 1.
  destruct (contains _ _); [reflexivity|].
  destruct (_ =? _)%string; [reflexivity|]. cbn [orb]. apply IH.
Qed.

Lemma find_first_match (target : string) (devices : list device) (d : device) :
  first_match target devices d -> find (matchb target) devices = Some d.
Proof.
  intros [before [rest [-> [Hd Hb]]]].
  induction before as [|b before IH]; cbn.
  - apply matchb_iff in Hd. now rewrite Hd.
  - assert (Hbf : matchb target b = false) by (apply matchb_false_iff, Hb; now left).
    rewrite Hbf. apply IH. intros d' Hin. apply Hb. now right.
Qed.

Lemma find_no_match (target : string) (devices : list device) :
  (forall d, In d devices -> ~ matches target d) ->
  find (matchb target) devices = None.
Proof.
  intros H. induction devices as [|b rest IH]; [reflexivity|]. cbn.
  assert (Hbf : matchb target b = false) by (apply matchb_false_iff, H; now left).
  rewrite Hbf. apply IH. intros d Hin. apply H. now right.
Qed.

Lemma listing_request_eq (p : params) :
  request_of p "/api/table.json"
    [("content", PStr "devices"); ("output", PStr "json");
     ("columns", table_columns); ("count", PInt 10000)] = listing_request p.
Proof. reflexivity. Qed.

(** The existence check when no [device_id] is given and the listing is
    answered with status 200 and a JSON document. *)
Lemma check_device_by_name {W} (serve : W -> request -> W * response)
    (p : params) (w : W) (target : string) (devices : list device) :
  truthy (param_val (device_id p)) = false ->
  device_name p = Some target ->
  status (snd (serve w (listing_request p))) = Some 200 ->
  resp_body (snd (serve w (listing_request p))) = BJson devices ->
  check_device serve p w =
  (Ret (scan_result target (param_val (device_id p)) None devices),
   fst (serve w (listing_request p)),
   [EvCall (listing_request p) (snd (serve w (listing_request p)));
    EvRead (snd (serve w (listing_request p)))]).
Proof.
  intros Hid Hname Hst Hbody. unfold check_device. rewrite Hid. cbn [negb].
  rewrite bind_api_call, listing_request_eq.
  rewrite validate_then_compare, Hst. cbn [status_is Z.eqb Pos.eqb].
  rewrite bind_read, Hbody. cbn [json_loads_devices].
  rewrite bind_ret, Hname, for_dev_run. reflexivity.
Qed.

(** C3.  When no [device_id] is given and the device listing is delivered,
    for a target and a listing that are ASCII text (on which [lower] is
    [str.lower]),
    the existence check leaves in [dev] the first device, in listing order,
    whose name contains the target as a case-insensitive substring or whose
    host equals the target case-insensitively, and in [device_id] that
    device's id; when no device of the listing satisfies either test,
    [device_id] keeps the false value it had, which is how the module
    represents a device that was not found.  For the listing with the one
    device named Web01 on host 10.0.0.5: the target web resolves to it, so
    does the target 10.0.0.5, and the target 10.0.0 does not resolve
    ([device_id] stays [None]; [dev] is merely the last device the loop
    looked at). *)
Theorem resolve_by_name_first_match :
  (forall (W : Type) (serve : W -> request -> W * response) p w target devices,
      truthy (param_val (device_id p)) = false ->
      device_name p = Some target ->
      ascii_text target = true ->
      ascii_listing devices = true ->
      status (snd (serve w (listing_request p))) = Some 200 ->
      resp_body (snd (serve w (listing_request p))) = BJson devices ->
      (forall d, first_match target devices d ->
                 outcome (check_device serve p w) = Ret (PInt (objid d), Some d))
      /\
      ((forall d, In d devices -> ~ matches target d) ->
       exists dev,
         outcome (check_device serve p w) = Ret (param_val (device_id p), dev)))
  /\ outcome (check_device (constant_server (ok_response (BJson [web01])))
                (by_name "web") tt) = Ret (PInt (objid web01), Some web01)
  /\ outcome (check_device (constant_server (ok_response (BJson [web01])))
                (by_name "10.0.0.5") tt) = Ret (PInt (objid web01), Some web01)
  /\ outcome (check_device (constant_server (ok_response (BJson [web01])))
                (by_name "10.0.0") tt) = Ret (PNone, Some web01).
Proof.
  split; [|repeat split].
  intros W serve p w target devices Hid Hname _ _ Hst Hbody.
  rewrite (check_device_by_name serve p w target devices Hid Hname Hst Hbody).
  unfold outcome, scan_result; cbn [fst]. split.
  - intros d Hd. now rewrite (find_first_match _ _ _ Hd).
  - intros Hno. rewrite (find_no_match _ _ Hno). eauto.
Qed.

Lemma resolve_by_name_first_match_witness :
  outcome (check_device (constant_server (ok_response (BJson [web01])))
             (by_name "web") tt) = Ret (PInt 2001, Some web01).
Proof.
  apply (proj1 (proj1 resolve_by_name_first_match unit
                 (constant_server (ok_response (BJson [web01])))
                 (by_name "web") tt "web" [web01]
                 eq_refl eq_refl eq_refl eq_refl eq_refl eq_refl) web01).
  exists [], []. split; [reflexivity|]. split.
  - left. exists EmptyString, "01". reflexivity.
  - intros d' [].
Defined.

(* ================================================================= *)
(** ** The calls of a run *)

Lemma calls_app (t1 t2 : list event) : calls (t1 ++ t2) = (calls t1 ++ calls t2)%list.
Proof.
  induction t1 as [|[rq rs|rs] t1 IH]; cbn; [reflexivity | now rewrite IH | exact IH].
Qed.

Lemma mutations_of_app (l1 l2 : list request) :
  mutations_of (l1 ++ l2) = (mutations_of l1 ++ mutations_of l2)%list.
Proof.
  induction l1 as [|rq l1 IH]; cbn; [reflexivity|].
  destruct (mutation_of rq); cbn; now rewrite IH.
Qed.

Lemma mutations_app (t1 t2 : list event) :
  mutations (t1 ++ t2) = (mutations t1 ++ mutations t2)%list.
Proof. unfold mutations. now rewrite calls_app, mutations_of_app. Qed.

Lemma main_run {W} (serve : W -> request -> W * response) p cm w :
  main serve p cm w =
  match check_device serve p w with
  | (Ret found, w1, t1) =>
      let x := converge serve p cm (fst found) (snd found) w1 in
      (outcome x, final_state x, (t1 ++ trace x)%list)
  | (ExitJson c, w1, t1) => (ExitJson c, w1, t1)
  | (FailJson msg, w1, t1) => (FailJson msg, w1, t1)
  | (Uncaught e, w1, t1) => (Uncaught e, w1, t1)
  end.
Proof. reflexivity. Qed.

Lemma filter_request_eq (p : params) :
  request_of p "/api/table.json"
    [("content", PStr "devices"); ("output", PStr "json");
     ("columns", table_columns); ("filter_objid", param_val (device_id p))]
  = filter_request p.
Proof. reflexivity. Qed.

(** The existence check issues one call, to table.json, and so changes
    nothing on the remote system. *)
Lemma check_device_mutations {W} (serve : W -> request -> W * response) p w :
  mutations (trace (check_device serve p w)) = [].
Proof.
  unfold check_device.
  destruct (negb (truthy (param_val (device_id p)))).
  - rewrite bind_api_call, listing_request_eq, validate_then_compare.
    destruct (status_is _ 200); [|reflexivity].
    rewrite bind_read. destruct (resp_body _); try reflexivity.
    cbn [json_loads_devices]. rewrite bind_ret.
    destruct (device_name p) as [target|].
    + now rewrite for_dev_run.
    + destruct devices; reflexivity.
  - rewrite bind_api_call, filter_request_eq, validate_then_compare.
    destruct (status_is _ 200); [|reflexivity].
    rewrite bind_read. destruct (resp_body _); try reflexivity.
    cbn [json_loads_devices]. rewrite bind_ret.
    destruct devices; reflexivity.
Qed.

(** A run by name on a delivered listing: the listing, its body, then the
    reconciliation on what the loop found. *)
Lemma main_by_name_run {W} (serve : W -> request -> W * response)
    p cm w target devices :
  truthy (param_val (device_id p)) = false ->
  device_name p = Some target ->
  status (snd (serve w (listing_request p))) = Some 200 ->
  resp_body (snd (serve w (listing_request p))) = BJson devices ->
  main serve p cm w =
  (outcome (converge serve p cm
              (fst (scan_result target (param_val (device_id p)) None devices))
              (snd (scan_result target (param_val (device_id p)) None devices))
              (fst (serve w (listing_request p)))),
   final_state (converge serve p cm
              (fst (scan_result target (param_val (device_id p)) None devices))
              (snd (scan_result target (param_val (device_id p)) None devices))
              (fst (serve w (listing_request p)))),
   EvCall (listing_request p) (snd (serve w (listing_request p)))
   :: EvRead (snd (serve w (listing_request p)))
   :: trace (converge serve p cm
              (fst (scan_result target (param_val (device_id p)) None devices))
              (snd (scan_result target (param_val (device_id p)) None devices))
              (fst (serve w (listing_request p))))).
Proof.
  intros Hid Hname Hst Hbody. rewrite main_run.
  now rewrite (check_device_by_name serve p w target devices Hid Hname Hst Hbody).
Qed.

(** A run whose existence check ends with [device_id = id] and [dev]: the
    check, then the reconciliation on these two. *)
Lemma main_after_check {W} (serve : W -> request -> W * response) p cm w id dev :
  outcome (check_device serve p w) = Ret (id, dev) ->
  main serve p cm w =
  (outcome (converge serve p cm id dev (final_state (check_device serve p w))),
   final_state (converge serve p cm id dev (final_state (check_device serve p w))),
   (trace (check_device serve p w)
    ++ trace (converge serve p cm id dev (final_state (check_device serve p w))))%list).
Proof.
  intros H. rewrite main_run.
  destruct (check_device serve p w) as [[r w1] t1]. cbn in H. subst r. reflexivity.
Qed.

(** The one call of the existence check. *)
Lemma check_device_calls {W} (serve : W -> request -> W * response) p w :
  calls (trace (check_device serve p w))
  = [if truthy (param_val (device_id p)) then filter_request p else listing_request p].
Proof.
  unfold check_device.
  destruct (truthy (param_val (device_id p))); cbn [negb].
  - rewrite bind_api_call, filter_request_eq, validate_then_compare.
    destruct (status_is _ 200); [|reflexivity].
    rewrite bind_read. destruct (resp_body _); try reflexivity.
    cbn [json_loads_devices]. rewrite bind_ret.
    destruct devices; reflexivity.
  - rewrite bind_api_call, listing_request_eq, validate_then_compare.
    destruct (status_is _ 200); [|reflexivity].
    rewrite bind_read. destruct (resp_body _); try reflexivity.
    cbn [json_loads_devices]. rewrite bind_ret.
    destruct (device_name p) as [target|].
    + now rewrite for_dev_run.
    + destruct devices; reflexivity.
Qed.

(** Only the lookup by name leaves the existence check with [dev] bound. *)
Lemma check_device_bound_by_name {W} (serve : W -> request -> W * response)
    p w id d :
  outcome (check_device serve p w) = Ret (id, Some d) ->
  truthy (param_val (device_id p)) = false.
Proof.
  unfold check_device.
  destruct (truthy (param_val (device_id p))); cbn [negb]; [|reflexivity].
  rewrite bind_api_call, filter_request_eq, validate_then_compare.
  destruct (status_is _ 200); [|discriminate].
  rewrite bind_read. destruct (resp_body _); try discriminate.
  cbn [json_loads_devices]. rewrite bind_ret.
  destruct devices; discriminate.
Qed.

(* ================================================================= *)
(** ** An explicit [device_id] (claim C4) *)

(** With a [device_id] given and the filtered listing delivered, the check
    reads the variable [dev], which only the loop of the other branch
    assigns, as soon as the listing is not empty; when the listing is empty
    it leaves [device_id] as given. *)
Lemma check_device_by_id {W} (serve : W -> request -> W * response)
    (p : params) (w : W) (devices : list device) :
  truthy (param_val (device_id p)) = true ->
  status (snd (serve w (filter_request p))) = Some 200 ->
  resp_body (snd (serve w (filter_request p))) = BJson devices ->
  outcome (check_device serve p w) =
  if nonempty devices then Uncaught UnboundLocalError
  else Ret (param_val (device_id p), None).
Proof.
  intros Hid Hst Hbody. unfold check_device. rewrite Hid. cbn [negb].
  rewrite bind_api_call, filter_request_eq.
  rewrite validate_then_compare, Hst. cbn [status_is Z.eqb Pos.eqb].
  rewrite bind_read, Hbody. cbn [json_loads_devices].
  rewrite bind_ret. destruct devices; reflexivity.
Qed.

(** C4.  On the server with the device 2001, an invocation for
    [device_id = 2001] fetches the record for that id and then ends in an
    [UnboundLocalError] instead of resolving to the fetched device, whatever
    the desired state; and an invocation that asks for the absence of the
    unknown id 99 gets an empty listing, still takes the device to exist and
    issues a deleteobject call for it. *)
Theorem explicit_device_id_defect :
  resp_body (snd (prtg_serve sample_prtg (filter_request (by_id "2001" present))))
    = BJson [web01]
  /\ outcome (main prtg_serve (by_id "2001" present) false sample_prtg)
     = Uncaught UnboundLocalError
  /\ outcome (main prtg_serve (by_id "2001" absent) false sample_prtg)
     = Uncaught UnboundLocalError
  /\ resp_body (snd (prtg_serve sample_prtg (filter_request (by_id "99" absent))))
     = BJson []
  /\ outcome (main prtg_serve (by_id "99" absent) false sample_prtg) = ExitJson true
  /\ mutations (trace (main prtg_serve (by_id "99" absent) false sample_prtg))
     = [MDelete (PStr "99") (PStr "1")]
  /\ outcome (main prtg_serve (by_id "99" present) false sample_prtg)
     = Uncaught UnboundLocalError.
Proof. repeat split. Qed.

(* ================================================================= *)
(** ** Creating without [clone_from] (claim C6) *)

Lemma converge_without_clone_from {W} (serve : W -> request -> W * response)
    p cm id dev w :
  state p = present ->
  truthy id = false ->
  truthy (param_val (clone_from p)) = false ->
  converge serve p cm id dev w =
  (FailJson "Unable to create new device because: clone_from parameter not specified",
   w, []).
Proof.
  intros Hs Hid Hc. unfold converge. rewrite Hs, Hid, Hc. reflexivity.
Qed.

(** X20.  When the desired state is present, the existence check ends with
    a false [device_id] (as it does when a lookup by name finds nothing) and
    [clone_from] is not supplied, the invocation fails with the message
    about the missing [clone_from] parameter, in check mode or not, and the
    run contains no duplicateobject, pause or deleteobject call. *)
Theorem create_without_clone_from_fails :
  forall (W : Type) (serve : W -> request -> W * response) p check_mode w id dev,
    state p = present ->
    outcome (check_device serve p w) = Ret (id, dev) ->
    truthy id = false ->
    truthy (param_val (clone_from p)) = false ->
    outcome (main serve p check_mode w)
      = FailJson "Unable to create new device because: clone_from parameter not specified"
    /\ mutations (trace (main serve p check_mode w)) = [].
Proof.
  intros W serve p cm w id dev Hs Hcheck Hid Hc.
  pose proof (check_device_mutations serve p w) as Hmut.
  rewrite main_run.
  destruct (check_device serve p w) as [[r w1] t1]. cbn in Hcheck, Hmut. subst r.
  cbn [fst snd].
  rewrite (converge_without_clone_from serve p cm id dev w1 Hs Hid Hc).
  cbn. rewrite app_nil_r. now split.
Qed.

Lemma create_without_clone_from_fails_witness :
  outcome (main (constant_server (ok_response (BJson [web01])))
             (by_name "10.0.0") false tt)
    = FailJson "Unable to create new device because: clone_from parameter not specified"
  /\ mutations (trace (main (constant_server (ok_response (BJson [web01])))
                         (by_name "10.0.0") false tt)) = [].
Proof.
  apply (create_without_clone_from_fails unit
           (constant_server (ok_response (BJson [web01])))
           (by_name "10.0.0") false tt PNone (Some web01));
    reflexivity.
Defined.

(** C6.  On the sample server, with the desired state present, no
    [clone_from] and the explicit id 99 of a device that does not exist (the
    filtered listing is empty), the invocation does not fail with the
    message about the missing [clone_from] parameter: in check mode or not
    it ends in an [UnboundLocalError], after the listing as its only call. *)
Theorem create_without_clone_from_explicit_id_defect :
  state (by_id "99" present) = present
  /\ clone_from (by_id "99" present) = None
  /\ resp_body (snd (prtg_serve sample_prtg (filter_request (by_id "99" present))))
     = BJson []
  /\ outcome (main prtg_serve (by_id "99" present) false sample_prtg)
     = Uncaught UnboundLocalError
  /\ outcome (main prtg_serve (by_id "99" present) true sample_prtg)
     = Uncaught UnboundLocalError
  /\ outcome (main prtg_serve (by_id "99" present) false sample_prtg)
     <> FailJson
          "Unable to create new device because: clone_from parameter not specified"
  /\ calls (trace (main prtg_serve (by_id "99" present) false sample_prtg))
     = [filter_request (by_id "99" present)].
Proof. repeat split. discriminate. Qed.

(* ================================================================= *)
(** ** The parent group lookup (claim C9) *)

Lemma determine_parent_group_run {W} (serve : W -> request -> W * response)
    (p : params) (w : W) (root : xml) :
  truthy (param_val (dest_group p)) = false ->
  status (snd (serve w (group_request p))) = Some 200 ->
  resp_body (snd (serve w (group_request p))) = BXml root ->
  outcome (determine_parent_group serve p w) =
  match nth_error (xml_children root) 1 with
  | None => Uncaught IndexError
  | Some g1 =>
      if (xml_tag g1 =? "result")%string then
        match nth_error (xml_children g1) 0 with
        | None => Uncaught IndexError
        | Some g10 =>
            match attrib_get (xml_attrib g10) "thisid" with
            | None => Uncaught KeyError
            | Some thisid => Ret (PStr thisid)
            end
        end
      else FailJson "Unable to find parent group of clone_from"
  end.
Proof.
  intros Hd Hst Hbody. unfold determine_parent_group. rewrite Hd.
  rewrite bind_api_call. change (request_of p _ _) with (group_request p).
  rewrite validate_then_compare, Hst. cbn [status_is Z.eqb Pos.eqb].
  rewrite bind_read, Hbody. cbn [ET_fromstring]. rewrite outcome_after, bind_ret.
  unfold index. destruct (nth_error (xml_children root) 1) as [g1|]; [|reflexivity].
  rewrite bind_ret. destruct (xml_tag g1 =? "result")%string; [|reflexivity].
  destruct (nth_error (xml_children g1) 0) as [g10|]; [|reflexivity].
  rewrite bind_ret. unfold attrib_index.
  destruct (attrib_get (xml_attrib g10) "thisid"); [|reflexivity].
  now rewrite bind_ret.
Qed.

(** C9, as amended.  In the parent group lookup, once the document has been
    delivered and parsed: a root with fewer than two children raises an
    [IndexError]; a second child that is a [result] element without children
    raises an [IndexError]; a second child that is a [result] element whose
    first child lacks the [thisid] attribute raises a [KeyError]; and the
    lookup ends with the failure message about the parent group exactly when
    a second child exists and its tag is not [result]. *)
Theorem parent_group_lookup_outcomes :
  forall (W : Type) (serve : W -> request -> W * response) p w root,
    truthy (param_val (dest_group p)) = false ->
    status (snd (serve w (group_request p))) = Some 200 ->
    resp_body (snd (serve w (group_request p))) = BXml root ->
    ((List.length (xml_children root) < 2)%nat ->
     outcome (determine_parent_group serve p w) = Uncaught IndexError)
    /\
    (forall g1,
        nth_error (xml_children root) 1 = Some g1 ->
        xml_tag g1 = "result" ->
        xml_children g1 = [] ->
        outcome (determine_parent_group serve p w) = Uncaught IndexError)
    /\
    (forall g1 g10 rest,
        nth_error (xml_children root) 1 = Some g1 ->
        xml_tag g1 = "result" ->
        xml_children g1 = g10 :: rest ->
        attrib_get (xml_attrib g10) "thisid" = None ->
        outcome (determine_parent_group serve p w) = Uncaught KeyError)
    /\
    (outcome (determine_parent_group serve p w)
       = FailJson "Unable to find parent group of clone_from"
     <-> exists g1,
         nth_error (xml_children root) 1 = Some g1 /\ xml_tag g1 <> "result").
Proof.
  intros W serve p w root Hd Hst Hbody.
  rewrite (determine_parent_group_run serve p w root Hd Hst Hbody).
  repeat split.
  - intros Hlen.
    assert (Hn : nth_error (xml_children root) 1 = None)
      by (apply nth_error_None; lia).
    now rewrite Hn.
  - intros g1 H1 Ht Hc. rewrite H1, Ht, Hc. reflexivity.
  - intros g1 g10 rest H1 Ht Hc Ha. rewrite H1, Ht, Hc. cbn. now rewrite Ha.
  - destruct (nth_error (xml_children root) 1) as [g1|]; [|discriminate].
    destruct (String.eqb_spec (xml_tag g1) "result") as [Ht|Ht].
    + destruct (nth_error (xml_children g1) 0) as [g10|]; [|discriminate].
      destruct (attrib_get (xml_attrib g10) "thisid"); discriminate.
    + intros _. now exists g1.
  - intros [g1 [H1 Ht]]. rewrite H1.
    now destruct (String.eqb_spec (xml_tag g1) "result").
Qed.

Lemma parent_group_lookup_outcomes_witness :
  outcome (determine_parent_group
             (constant_server (ok_response (BXml short_document))) clone_params tt)
    = Uncaught IndexError.
Proof.
  apply (proj1 (parent_group_lookup_outcomes unit
                  (constant_server (ok_response (BXml short_document)))
                  clone_params tt short_document eq_refl eq_refl eq_refl)).
  cbn. lia.
Defined.

(** Against C9 as stated: the second child of [error_document] has no
    children and no [thisid] attribute, and the lookup ends with the failure
    message, not with an exception; the [result] element of
    [nested_document] lacks [thisid] and the lookup succeeds. *)
Lemma parent_group_lookup_counterexample :
  (exists g1,
      nth_error (xml_children error_document) 1 = Some g1
      /\ xml_children g1 = []
      /\ attrib_get (xml_attrib g1) "thisid" = None)
  /\ outcome (determine_parent_group
                (constant_server (ok_response (BXml error_document))) clone_params tt)
     = FailJson "Unable to find parent group of clone_from"
  /\ ~ (exists e,
           outcome (determine_parent_group
                      (constant_server (ok_response (BXml error_document)))
                      clone_params tt) = Uncaught e)
  /\ (exists g1,
         nth_error (xml_children nested_document) 1 = Some g1
         /\ attrib_get (xml_attrib g1) "thisid" = None)
  /\ outcome (determine_parent_group
                (constant_server (ok_response (BXml nested_document))) clone_params tt)
     = Ret (PStr "5678").
Proof.
  split; [|split; [|split; [|split]]].
  - eexists. repeat split.
  - reflexivity.
  - intros [e H]. discriminate H.
  - eexists. repeat split.
  - reflexivity.
Qed.

(* ================================================================= *)
(** ** Runs of the mutating steps *)

(** A step, then [dev_changed = c], then [module.exit_json]. *)
Lemma finish_run {W} (m : M W unit) (c : bool) (w : W) :
  bind (bind m (fun _ => ret c)) (@exit_json W unit) w =
  (match outcome (m w) return result unit with
   | Ret _ => ExitJson c
   | ExitJson c' => ExitJson c'
   | FailJson msg => FailJson msg
   | Uncaught e => Uncaught e
   end, final_state (m w), trace (m w)).
Proof.
  unfold bind. destruct (m w) as [[[u|c'|msg|e] w1] t1]; cbn;
    rewrite ?app_nil_r; reflexivity.
Qed.

Lemma pause_device_run {W} (serve : W -> request -> W * response)
    p id paused (w : W) :
  pause_device serve p id paused w =
  ((if status_is (status (snd (serve w (pause_request p id paused)))) 200
    then Ret true
    else FailJson (failure_message
                     (status (snd (serve w (pause_request p id paused))))
                     "Failed to pause device")),
   fst (serve w (pause_request p id paused)),
   [EvCall (pause_request p id paused) (snd (serve w (pause_request p id paused)))]).
Proof.
  unfold pause_device. rewrite bind_api_call.
  change (request_of p _ _) with (pause_request p id paused).
  rewrite validate_then_compare.
  destruct (status_is _ 200); reflexivity.
Qed.

Lemma pause_step_run {W} (serve : W -> request -> W * response)
    p id paused (w : W) :
  bind (pause_device serve p id paused) (fun _ => ret tt) w =
  ((if status_is (status (snd (serve w (pause_request p id paused)))) 200
    then Ret tt
    else FailJson (failure_message
                     (status (snd (serve w (pause_request p id paused))))
                     "Failed to pause device")),
   fst (serve w (pause_request p id paused)),
   [EvCall (pause_request p id paused) (snd (serve w (pause_request p id paused)))]).
Proof.
  unfold bind. rewrite pause_device_run.
  destruct (status_is _ 200); reflexivity.
Qed.

Lemma delete_run {W} (serve : W -> request -> W * response) p id (w : W) :
  (del_info <- api_call serve p "/api/deleteobject.htm"
                 [("id", id); ("approve", PStr "1")] ;;
   v <- validate_response del_info ;;
   fail_if (negb (v =? 200)) "Failed to delete device") w =
  ((if status_is (status (snd (serve w (delete_request p id)))) 200
    then Ret tt
    else FailJson (failure_message
                     (status (snd (serve w (delete_request p id))))
                     "Failed to delete device")),
   fst (serve w (delete_request p id)),
   [EvCall (delete_request p id) (snd (serve w (delete_request p id)))]).
Proof.
  rewrite bind_api_call. change (request_of p _ _) with (delete_request p id).
  rewrite validate_then_compare_last.
  destruct (status_is _ 200); reflexivity.
Qed.

(** What the creation does once the destination group is known. *)
Lemma create_device_run {W} (serve : W -> request -> W * response) p (w : W) :
  create_device serve p w =
  match determine_parent_group serve p w with
  | (Ret dest, w1, t1) =>
      let resp := snd (serve w1 (duplicate_request p dest)) in
      let w2 := fst (serve w1 (duplicate_request p dest)) in
      let x :=
        if status_is (status resp) 200 then
          match new_dev_re_search (url resp) with
          | Some new_dev_id =>
              if enabled p
              then bind (pause_device serve p (PStr new_dev_id) false)
                     (fun _ => ret tt) w2
              else (Ret tt, w2, [])
          | None =>
              (FailJson "Unable to parse new device ID from return request", w2, [])
          end
        else (FailJson (failure_message (status resp) "API request failed"), w2, [])
      in
      (outcome x, final_state x,
       (t1 ++ EvCall (duplicate_request p dest) resp :: trace x)%list)
  | (ExitJson c, w1, t1) => (ExitJson c, w1, t1)
  | (FailJson msg, w1, t1) => (FailJson msg, w1, t1)
  | (Uncaught e, w1, t1) => (Uncaught e, w1, t1)
  end.
Proof.
  unfold create_device at 1. unfold bind at 1.
  destruct (determine_parent_group serve p w) as [[[dest|c|msg|e] w1] t1];
    try reflexivity.
  rewrite bind_api_call. change (request_of p _ _) with (duplicate_request p dest).
  rewrite validate_then_compare. cbv zeta.
  destruct (status_is _ 200); [|reflexivity].
  destruct (new_dev_re_search _); [|reflexivity].
  destruct (enabled p); reflexivity.
Qed.

(** The parent group lookup changes nothing on the remote system. *)
Lemma determine_parent_group_mutations {W} (serve : W -> request -> W * response) p w :
  mutations (trace (determine_parent_group serve p w)) = [].
Proof.
  unfold determine_parent_group. destruct (truthy _); [reflexivity|].
  rewrite bind_api_call. change (request_of p _ _) with (group_request p).
  rewrite validate_then_compare.
  destruct (status_is _ 200); [|reflexivity].
  rewrite bind_read. destruct (resp_body _) as [ds|root|s]; try reflexivity.
  cbn [ET_fromstring]. rewrite bind_ret.
  unfold index. destruct (nth_error (xml_children root) 1) as [g1|]; [|reflexivity].
  rewrite bind_ret. destruct (xml_tag g1 =? "result")%string; [|reflexivity].
  destruct (nth_error (xml_children g1) 0) as [g10|]; [|reflexivity].
  rewrite bind_ret. unfold attrib_index.
  destruct (attrib_get (xml_attrib g10) "thisid"); reflexivity.
Qed.

(* ================================================================= *)
(** ** The branches of [converge] *)

Lemma converge_create {W} (serve : W -> request -> W * response) p cm id dev w :
  state p = present ->
  truthy id = false ->
  truthy (param_val (clone_from p)) = true ->
  converge serve p cm id dev w =
  (match outcome (when (negb cm) (create_device serve p) w) return result unit with
   | Ret _ => ExitJson true
   | ExitJson c' => ExitJson c'
   | FailJson msg => FailJson msg
   | Uncaught e => Uncaught e
   end,
   final_state (when (negb cm) (create_device serve p) w),
   trace (when (negb cm) (create_device serve p) w)).
Proof.
  intros Hs Hid Hc. unfold converge. rewrite Hs, Hid, Hc.
  cbn [state_eqb andb negb fail_if].
  rewrite bind_assoc, bind_ret. apply finish_run.
Qed.

Lemma converge_present_found {W} (serve : W -> request -> W * response)
    p cm id d w :
  state p = present ->
  truthy id = true ->
  converge serve p cm id (Some d) w =
  if (enabled p && (active_raw d =? 0))%bool then
    (match outcome (when (negb cm) (pause_device serve p id false ;;; ret tt) w)
           return result unit with
     | Ret _ => ExitJson true
     | ExitJson c' => ExitJson c'
     | FailJson msg => FailJson msg
     | Uncaught e => Uncaught e
     end,
     final_state (when (negb cm) (pause_device serve p id false ;;; ret tt) w),
     trace (when (negb cm) (pause_device serve p id false ;;; ret tt) w))
  else if (negb (enabled p) && (active_raw d =? -1))%bool then
    (match outcome (when (negb cm) (pause_device serve p id true ;;; ret tt) w)
           return result unit with
     | Ret _ => ExitJson true
     | ExitJson c' => ExitJson c'
     | FailJson msg => FailJson msg
     | Uncaught e => Uncaught e
     end,
     final_state (when (negb cm) (pause_device serve p id true ;;; ret tt) w),
     trace (when (negb cm) (pause_device serve p id true ;;; ret tt) w))
  else (ExitJson false, w, []).
Proof.
  intros Hs Hid. unfold converge. rewrite Hs, Hid.
  cbn [state_eqb andb negb read_var].
  destruct (enabled p); cbn [Bool.eqb and_then andb negb];
    repeat (rewrite bind_assoc || rewrite bind_ret).
  - destruct (active_raw d =? 0).
    + apply finish_run.
    + repeat (rewrite bind_assoc || rewrite bind_ret). reflexivity.
  - destruct (active_raw d =? -1).
    + apply finish_run.
    + rewrite bind_ret. reflexivity.
Qed.

Lemma converge_delete {W} (serve : W -> request -> W * response) p cm id dev w :
  state p = absent ->
  truthy id = true ->
  converge serve p cm id dev w =
  (match outcome (when (negb cm)
                    (del_info <- api_call serve p "/api/deleteobject.htm"
                                   [("id", id); ("approve", PStr "1")] ;;
                     v <- validate_response del_info ;;
                     fail_if (negb (v =? 200)) "Failed to delete device") w)
         return result unit with
   | Ret _ => ExitJson true
   | ExitJson c' => ExitJson c'
   | FailJson msg => FailJson msg
   | Uncaught e => Uncaught e
   end,
   final_state (when (negb cm)
                  (del_info <- api_call serve p "/api/deleteobject.htm"
                                 [("id", id); ("approve", PStr "1")] ;;
                   v <- validate_response del_info ;;
                   fail_if (negb (v =? 200)) "Failed to delete device") w),
   trace (when (negb cm)
            (del_info <- api_call serve p "/api/deleteobject.htm"
                           [("id", id); ("approve", PStr "1")] ;;
             v <- validate_response del_info ;;
             fail_if (negb (v =? 200)) "Failed to delete device") w)).
Proof.
  intros Hs Hid. unfold converge. rewrite Hs, Hid.
  cbn [state_eqb andb negb]. apply finish_run.
Qed.

Lemma converge_absent_not_found {W} (serve : W -> request -> W * response)
    p cm id dev w :
  state p = absent ->
  truthy id = false ->
  converge serve p cm id dev w = (ExitJson false, w, []).
Proof.
  intros Hs Hid. unfold converge. rewrite Hs, Hid. reflexivity.
Qed.

Lemma mutation_of_pause_request p id paused :
  mutation_of (pause_request p id paused)
  = Some (MPause id (PInt (if paused then 0 else 1))).
Proof. reflexivity. Qed.

Lemma mutation_of_delete_request p id :
  mutation_of (delete_request p id) = Some (MDelete id (PStr "1")).
Proof. reflexivity. Qed.

Lemma mutation_of_duplicate_request p dest :
  mutation_of (duplicate_request p dest)
  = Some (MDuplicate (param_val (clone_from p)) (param_val (device_name p))
            (param_val (device_name p)) dest).
Proof. reflexivity. Qed.

Lemma mutations_cons_call req resp t :
  mutations (EvCall req resp :: t) =
  match mutation_of req with
  | Some m => m :: mutations t
  | None => mutations t
  end.
Proof. reflexivity. Qed.

(* ================================================================= *)
(** ** The transition table and an explicit [device_id] (claim C1) *)

(** C1.  On the sample server, two invocations that give the device by id
    leave the transition table.  For the unknown id 99 and the desired state
    absent, the filtered listing is empty and the row of the table is the
    one without action and with [changed = false]; the invocation issues a
    deleteobject call for 99 and exits with [changed = true].  For the id
    2001 of a device that exists and is active, with the desired state
    present and [enabled] set, the row is again the one without action; the
    invocation ends in an [UnboundLocalError] and reports nothing. *)
Theorem transition_table_left_with_explicit_device_id :
  resp_body (snd (prtg_serve sample_prtg (filter_request (by_id "99" absent))))
    = BJson []
  /\ table_action (state (by_id "99" absent)) None (enabled (by_id "99" absent))
     = NoAction
  /\ table_changed NoAction = false
  /\ outcome (main prtg_serve (by_id "99" absent) false sample_prtg) = ExitJson true
  /\ mutations (trace (main prtg_serve (by_id "99" absent) false sample_prtg))
     = [MDelete (PStr "99") (PStr "1")]
  /\ resp_body (snd (prtg_serve sample_prtg (filter_request (by_id "2001" present))))
     = BJson [web01]
  /\ table_action (state (by_id "2001" present)) (Some web01)
       (enabled (by_id "2001" present)) = NoAction
  /\ outcome (main prtg_serve (by_id "2001" present) false sample_prtg)
     = Uncaught UnboundLocalError
  /\ mutations (trace (main prtg_serve (by_id "2001" present) false sample_prtg)) = [].
Proof. repeat split. Qed.

(* ================================================================= *)
(** ** Check mode (claim C2) *)

Lemma determine_parent_group_never_exits {W} (serve : W -> request -> W * response)
    p w c :
  outcome (determine_parent_group serve p w) <> ExitJson c.
Proof.
  unfold determine_parent_group. destruct (truthy _); [discriminate|].
  rewrite bind_api_call. change (request_of p _ _) with (group_request p).
  rewrite validate_then_compare, outcome_after.
  destruct (status_is _ 200); [|discriminate].
  rewrite bind_read, outcome_after.
  destruct (resp_body _) as [ds|root|s]; try discriminate.
  cbn [ET_fromstring]. rewrite bind_ret.
  unfold index. destruct (nth_error (xml_children root) 1) as [g1|]; [|discriminate].
  rewrite bind_ret. destruct (xml_tag g1 =? "result")%string; [|discriminate].
  destruct (nth_error (xml_children g1) 0) as [g10|]; [|discriminate].
  rewrite bind_ret. unfold attrib_index.
  destruct (attrib_get (xml_attrib g10) "thisid"); discriminate.
Qed.

Lemma create_device_never_exits {W} (serve : W -> request -> W * response) p w c :
  outcome (create_device serve p w) <> ExitJson c.
Proof.
  pose proof (determine_parent_group_never_exits serve p w c) as Hg.
  rewrite create_device_run.
  destruct (determine_parent_group serve p w) as [[[dest|c'|msg|e] w1] t1];
    cbn [outcome fst] in Hg |- *; try discriminate;
    try (intros H; injection H as ->; now elim Hg).
  cbv zeta. cbn [outcome fst].
  destruct (status_is _ 200); [|discriminate].
  destruct (new_dev_re_search _); [|discriminate].
  destruct (enabled p); [|discriminate].
  rewrite pause_step_run. destruct (status_is _ 200); discriminate.
Qed.

(** In check mode the reconciliation issues no call at all, and it exits
    with the value a run outside check mode exits with, if that run exits. *)
Lemma converge_check_mode {W} (serve : W -> request -> W * response) p id dev w :
  trace (converge serve p true id dev w) = []
  /\ forall c,
      outcome (converge serve p false id dev w) = ExitJson c ->
      outcome (converge serve p true id dev w) = ExitJson c.
Proof.
  destruct (state p) eqn:Hs; destruct (truthy id) eqn:Hid.
  - destruct dev as [d|].
    + rewrite !(converge_present_found serve p _ id d w Hs Hid).
      cbn [negb when].
      destruct (enabled p && (active_raw d =? 0))%bool;
        [|destruct (negb (enabled p) && (active_raw d =? -1))%bool].
      * split; [reflexivity|]. rewrite pause_step_run.
        destruct (status_is _ 200); cbn; congruence.
      * split; [reflexivity|]. rewrite pause_step_run.
        destruct (status_is _ 200); cbn; congruence.
      * split; [reflexivity | trivial].
    + unfold converge. rewrite Hs, Hid. cbn [state_eqb andb negb].
      destruct (enabled p); split; try reflexivity; cbn; congruence.
  - destruct (truthy (param_val (clone_from p))) eqn:Hc.
    + rewrite !(converge_create serve p _ id dev w Hs Hid Hc).
      cbn [negb when]. split; [reflexivity|].
      intros c. cbn [outcome fst ret].
      pose proof (create_device_never_exits serve p w) as Hne.
      destruct (outcome (create_device serve p w)); congruence.
    + rewrite !(converge_without_clone_from serve p _ id dev w Hs Hid Hc).
      split; [reflexivity | trivial].
  - rewrite !(converge_delete serve p _ id dev w Hs Hid).
    cbn [negb when]. split; [reflexivity|]. rewrite delete_run.
    destruct (status_is _ 200); cbn; congruence.
  - rewrite !(converge_absent_not_found serve p _ id dev w Hs Hid).
    split; [reflexivity | trivial].
Qed.

(** C2.  For every configuration and every remote system, an invocation in
    check mode issues no duplicateobject, pause or deleteobject call, and
    whenever the same invocation outside check mode exits with a [changed]
    value, the invocation in check mode exits with that same value. *)
Theorem check_mode_predicts_without_mutating :
  forall (W : Type) (serve : W -> request -> W * response) p w,
    mutations (trace (main serve p true w)) = []
    /\ (forall c,
           outcome (main serve p false w) = ExitJson c ->
           outcome (main serve p true w) = ExitJson c).
Proof.
  intros W serve p w.
  pose proof (check_device_mutations serve p w) as Hmut.
  rewrite !main_run.
  destruct (check_device serve p w) as [[[[id dev]|c'|msg|e] w1] t1];
    cbn [trace snd] in Hmut; cbn [fst snd]; try (split; [exact Hmut | trivial]).
  destruct (converge_check_mode serve p id dev w1) as [Ht Ho].
  cbv zeta. cbn [trace outcome fst snd]. rewrite Ht, app_nil_r.
  split; [exact Hmut | exact Ho].
Qed.

Lemma check_mode_predicts_without_mutating_witness :
  outcome (main prtg_serve pause_params true sample_prtg) = ExitJson true.
Proof.
  apply (proj2 (check_mode_predicts_without_mutating prtg prtg_serve
                  pause_params sample_prtg) true).
  reflexivity.
Defined.

(* ================================================================= *)
(** ** The pattern of the new device id *)

Lemma take_digits_split (s : string) :
  exists post, s = take_digits s ++ post /\ all_digits (take_digits s) = true.
Proof.
  induction s as [|c r [post [IH1 IH2]]]; cbn [take_digits].
  - exists EmptyString. now split.
  - destruct (is_digit c) eqn:E.
    + exists post. cbn [append all_digits]. rewrite E, IH2. split; [now f_equal|reflexivity].
    + exists (String c r). now split.
Qed.

Lemma match_here_some (s ds : string) :
  new_dev_re_match_here s = Some ds ->
  exists post, s = "id%3D" ++ ds ++ post /\ ds <> EmptyString /\ all_digits ds = true.
Proof.
  unfold new_dev_re_match_here.
  destruct (String.prefix "id%3D" s) eqn:E; [|discriminate].
  apply prefix_iff in E. destruct E as [rest ->].
  change (drop 5 ("id%3D" ++ rest)) with rest.
  destruct (take_digits_split rest) as [post [H1 H2]].
  destruct (take_digits rest) as [|c ds'] eqn:T; [discriminate|].
  intros [= <-]. exists post. split; [now rewrite H1 at 1|]. split; [discriminate|exact H2].
Qed.

Lemma match_here_none (s : string) :
  new_dev_re_match_here s = None ->
  forall c post, s = "id%3D" ++ String c post -> is_digit c = false.
Proof.
  intros H c post ->. unfold new_dev_re_match_here in H.
  assert (E : String.prefix "id%3D" ("id%3D" ++ String c post) = true)
    by (apply prefix_iff; now eexists).
  rewrite E in H.
  change (drop 5 ("id%3D" ++ String c post)) with (String c post) in H.
  cbn [take_digits] in H. destruct (is_digit c); [discriminate|reflexivity].
Qed.

(** A match of the search is a non-empty run of digits right after an
    [id%3D] of the text. *)
Lemma new_dev_re_search_some (s ds : string) :
  new_dev_re_search s = Some ds ->
  exists pre post,
    s = pre ++ "id%3D" ++ ds ++ post /\ ds <> EmptyString /\ all_digits ds = true.
Proof.
  induction s as [|c r IH]; cbn [new_dev_re_search].
  - destruct (new_dev_re_match_here EmptyString) eqn:E; [|discriminate].
    intros [= <-]. destruct (match_here_some _ _ E) as [post H].
    now exists EmptyString, post.
  - destruct (new_dev_re_match_here (String c r)) eqn:E.
    + intros [= <-]. destruct (match_here_some _ _ E) as [post H].
      now exists EmptyString, post.
    + intros H. destruct (IH H) as [pre [post [H1 H2]]].
      exists (String c pre), post. split; [cbn; now f_equal | exact H2].
Qed.

(** The search fails only on a text in which no [id%3D] is followed by a
    digit. *)
Lemma new_dev_re_search_none (s : string) :
  new_dev_re_search s = None ->
  forall pre c post, s = pre ++ "id%3D" ++ String c post -> is_digit c = false.
Proof.
  induction s as [|a r IH]; cbn [new_dev_re_search].
  - intros _ pre c post H. destruct pre; discriminate H.
  - destruct (new_dev_re_match_here (String a r)) eqn:E; [discriminate|].
    intros H pre c post Hs. destruct pre as [|a' pre].
    + exact (match_here_none _ E c post Hs).
    + injection Hs as _ Hs. exact (IH H pre c post Hs).
Qed.

(* ================================================================= *)
(** ** The creation flow (claim C7) *)

(** C7.  With the desired state present, a device that did not resolve,
    [clone_from] 1234, [device_name] newhost, [dest_group] 5678 and
    [enabled] true, the first thing the reconciliation does is a
    duplicateobject call with id 1234, name newhost, host newhost and
    targetid 5678.  When that call is answered with 200, the new id is
    searched in the returned URL: a result of the search is a non-empty run
    of digits standing right after an [id%3D] of the URL, and the search
    fails only when no [id%3D] of the URL is followed by a digit.  Without a
    result the invocation fails and does nothing else; with one the only
    further call is pause.htm for that id with action 1, and when that is
    answered with 200 the invocation exits with [changed = true].  A URL
    containing [id%3D4321] yields 4321, a URL with a plain [id=4321] yields
    nothing, and on the sample server the whole invocation runs this way. *)
Theorem create_flow_end_to_end :
  (forall (W : Type) (serve : W -> request -> W * response) p id dev w,
      state p = present ->
      truthy id = false ->
      clone_from p = Some "1234" ->
      device_name p = Some "newhost" ->
      dest_group p = Some "5678" ->
      enabled p = true ->
      let req := duplicate_request p (PStr "5678") in
      let resp := snd (serve w req) in
      let w1 := fst (serve w req) in
      mutation_of req
        = Some (MDuplicate (PStr "1234") (PStr "newhost") (PStr "newhost") (PStr "5678"))
      /\ (exists rest, trace (converge serve p false id dev w) = EvCall req resp :: rest)
      /\ (status resp = Some 200 ->
          match new_dev_re_search (url resp) with
          | None =>
              converge serve p false id dev w
              = (FailJson "Unable to parse new device ID from return request",
                 w1, [EvCall req resp])
          | Some new_dev_id =>
              let req2 := pause_request p (PStr new_dev_id) false in
              let resp2 := snd (serve w1 req2) in
              mutation_of req2 = Some (MPause (PStr new_dev_id) (PInt 1))
              /\ trace (converge serve p false id dev w)
                 = [EvCall req resp; EvCall req2 resp2]
              /\ (status resp2 = Some 200 ->
                  outcome (converge serve p false id dev w) = ExitJson true)
          end))
  /\ (forall s ds,
         new_dev_re_search s = Some ds ->
         exists pre post,
           s = pre ++ "id%3D" ++ ds ++ post
           /\ ds <> EmptyString /\ all_digits ds = true)
  /\ (forall s,
         new_dev_re_search s = None ->
         forall pre c post, s = pre ++ "id%3D" ++ String c post -> is_digit c = false)
  /\ new_dev_re_search "https://prtg.example.com/device.htm?id%3D4321&tabid=1"
     = Some "4321"
  /\ new_dev_re_search "https://prtg.example.com/device.htm?id=4321" = None
  /\ outcome (main prtg_serve create_params false sample_prtg) = ExitJson true
  /\ mutations (trace (main prtg_serve create_params false sample_prtg))
     = [MDuplicate (PStr "1234") (PStr "newhost") (PStr "newhost") (PStr "5678");
        MPause (PStr "4321") (PInt 1)].
Proof.
  split; [|split; [exact new_dev_re_search_some|];
           split; [exact new_dev_re_search_none|]; repeat split].
  intros W serve p id dev w Hs Hid Hc Hn Hd He. cbv zeta.
  assert (Hct : truthy (param_val (clone_from p)) = true) by now rewrite Hc.
  rewrite (converge_create serve p false id dev w Hs Hid Hct).
  cbn [negb when]. rewrite create_device_run.
  unfold determine_parent_group. rewrite Hd. cbn [param_val truthy String.eqb negb ret].
  cbv zeta. cbn [app trace outcome final_state fst snd].
  rewrite mutation_of_duplicate_request, Hc, Hn. cbn [param_val].
  split; [reflexivity|]. split; [eexists; reflexivity|].
  intros Hst. rewrite Hst. cbn [status_is Z.eqb Pos.eqb].
  destruct (new_dev_re_search _) as [nid|]; [|reflexivity].
  rewrite He, pause_step_run. cbn [trace outcome final_state fst snd].
  split; [reflexivity|]. split; [reflexivity|].
  intros Hst2. now rewrite Hst2.
Qed.

Lemma create_flow_end_to_end_witness :
  trace (converge prtg_serve create_params false PNone (Some template) sample_prtg)
  = [EvCall (duplicate_request create_params (PStr "5678"))
       (snd (prtg_serve sample_prtg (duplicate_request create_params (PStr "5678"))));
     EvCall (pause_request create_params (PStr "4321") false)
       (snd (prtg_serve
               (fst (prtg_serve sample_prtg
                       (duplicate_request create_params (PStr "5678"))))
               (pause_request create_params (PStr "4321") false)))].
Proof.
  apply (proj2 (proj2 (proj1 create_flow_end_to_end prtg prtg_serve create_params
                         PNone (Some template) sample_prtg
                         eq_refl eq_refl eq_refl eq_refl eq_refl eq_refl))
           eq_refl).
Defined.

(* ================================================================= *)
(** ** Two runs in succession against the model server (claim C8) *)

Lemma prtg_listing p w :
  prtg_serve w (listing_request p) = (w, ok_response (BJson (prtg_devices w))).
Proof. reflexivity. Qed.

Lemma prtg_pause p w i paused :
  prtg_serve w (pause_request p (PInt i) paused)
  = (mkPrtg (map (set_active i (if paused then 0 else -1)) (prtg_devices w))
       (prtg_next w),
     ok_response (BText EmptyString)).
Proof. destruct paused; reflexivity. Qed.

Lemma prtg_delete p w i :
  prtg_serve w (delete_request p (PInt i))
  = (mkPrtg (filter (fun d => negb (has_id i d)) (prtg_devices w)) (prtg_next w),
     ok_response (BText EmptyString)).
Proof. reflexivity. Qed.

Lemma matchb_set_active target i a d :
  matchb target (set_active i a d) = matchb target d.
Proof. unfold set_active. now destruct (has_id i d). Qed.

Lemma find_map_set_active target i a devices :
  find (matchb target) (map (set_active i a) devices)
  = option_map (set_active i a) (find (matchb target) devices).
Proof.
  induction devices as [|d rest IH]; [reflexivity|]. cbn [map find].
  rewrite matchb_set_active. now destruct (matchb target d).
Qed.

Lemma find_filter_none target i devices :
  (forall d', In d' devices -> matchb target d' = true -> objid d' = i) ->
  find (matchb target) (filter (fun d => negb (has_id i d)) devices) = None.
Proof.
  intros H. induction devices as [|d rest IH]; [reflexivity|]. cbn [filter].
  assert (IH' : find (matchb target) (filter (fun d => negb (has_id i d)) rest) = None)
    by (apply IH; intros d' Hin; apply H; now right).
  destruct (has_id i d) eqn:Ei; cbn [negb]; [exact IH'|].
  cbn [find]. destruct (matchb target d) eqn:Em; [|exact IH'].
  assert (objid d = i) by (apply H; [now left | exact Em]).
  unfold has_id in Ei. apply Z.eqb_neq in Ei. contradiction.
Qed.

Lemma find_app_last target devices d :
  find (matchb target) devices = None ->
  matchb target d = true ->
  find (matchb target) (devices ++ [d]) = Some d.
Proof.
  intros Hn Hd. induction devices as [|b rest IH]; cbn [app find].
  - now rewrite Hd.
  - cbn [find] in Hn. destruct (matchb target b); [discriminate|]. now apply IH.
Qed.

Lemma prefix_refl s : String.prefix s s = true.
Proof. apply prefix_iff. exists EmptyString. induction s; cbn; now f_equal. Qed.

Lemma contains_refl s : contains s s = true.
Proof. destruct s; cbn [contains]; now rewrite prefix_refl. Qed.

Lemma all_digits_string_of_uint u : all_digits (NilEmpty.string_of_uint u) = true.
Proof. induction u; cbn; auto. Qed.

Lemma take_digits_all s : all_digits s = true -> take_digits s = s.
Proof.
  induction s as [|c r IH]; [reflexivity|]. cbn.
  destruct (is_digit c); [|discriminate]. cbn. intros H. now rewrite IH.
Qed.

Lemma digits_of_pos_nonempty n : digits_of_pos n <> EmptyString.
Proof.
  unfold digits_of_pos. pose proof (DecimalPos.Unsigned.to_uint_nonnil n) as H.
  destruct (Pos.to_uint n); [contradiction | discriminate ..].
Qed.

Lemma search_model_url n :
  new_dev_re_search ("/device.htm?id%3D" ++ digits_of_pos n) = Some (digits_of_pos n).
Proof.
  pose proof (digits_of_pos_nonempty n) as Hne.
  assert (Ht : take_digits (digits_of_pos n) = digits_of_pos n)
    by apply take_digits_all, all_digits_string_of_uint.
  cbn -[digits_of_pos take_digits]. unfold new_dev_re_match_here.
  cbn -[digits_of_pos take_digits]. rewrite Ht.
  destruct (digits_of_pos n); [contradiction | reflexivity].
Qed.

Lemma id_of_digits n : id_of_val (PStr (digits_of_pos n)) = Some (Zpos n).
Proof.
  unfold id_of_val, digits_of_pos. rewrite NilEmpty.usu.
  change (N.of_uint (Pos.to_uint n)) with (Pos.of_uint (Pos.to_uint n)).
  now rewrite DecimalPos.Unsigned.of_to.
Qed.

(** Against C8 as stated: running [remove_web] on a server with two devices
    whose names contain web removes the first on the first run and the
    second on the second run; both runs report [changed = true]. *)
Lemma second_run_counterexample :
  outcome (main prtg_serve remove_web false two_webs) = ExitJson true
  /\ mutations (trace (main prtg_serve remove_web false two_webs))
     = [MDelete (PInt 2001) (PStr "1")]
  /\ outcome (main prtg_serve remove_web false
                (final_state (main prtg_serve remove_web false two_webs)))
     = ExitJson true
  /\ mutations (trace (main prtg_serve remove_web false
                         (final_state (main prtg_serve remove_web false two_webs))))
     = [MDelete (PInt 2002) (PStr "1")].
Proof. repeat split. Qed.

(** A run by name against the model server: the listing, then the
    reconciliation on what the loop found. *)
Lemma main_by_name_prtg p cm w target :
  truthy (param_val (device_id p)) = false ->
  device_name p = Some target ->
  outcome (main prtg_serve p cm w)
  = outcome (converge prtg_serve p cm
               (fst (scan_result target (param_val (device_id p)) None (prtg_devices w)))
               (snd (scan_result target (param_val (device_id p)) None (prtg_devices w)))
               w)
  /\ final_state (main prtg_serve p cm w)
  = final_state (converge prtg_serve p cm
               (fst (scan_result target (param_val (device_id p)) None (prtg_devices w)))
               (snd (scan_result target (param_val (device_id p)) None (prtg_devices w)))
               w).
Proof.
  intros Hid Hname. rewrite main_run.
  rewrite (check_device_by_name prtg_serve p w target (prtg_devices w) Hid Hname
             eq_refl eq_refl).
  rewrite prtg_listing. cbn [fst snd]. split; reflexivity.
Qed.

(** A run that finds a device already in the desired pause state. *)
Lemma run_present_settled p w target d :
  truthy (param_val (device_id p)) = false ->
  device_name p = Some target ->
  state p = present ->
  find (matchb target) (prtg_devices w) = Some d ->
  objid d <> 0 ->
  (enabled p && (active_raw d =? 0))%bool = false ->
  (negb (enabled p) && (active_raw d =? -1))%bool = false ->
  outcome (main prtg_serve p false w) = ExitJson false
  /\ final_state (main prtg_serve p false w) = w.
Proof.
  intros Hid Hname Hs Hf Hd H1 H2.
  destruct (main_by_name_prtg p false w target Hid Hname) as [-> ->].
  unfold scan_result. rewrite Hf. cbn [fst snd].
  assert (Ht : truthy (PInt (objid d)) = true)
    by (cbn; now apply negb_true_iff, Z.eqb_neq).
  rewrite (converge_present_found prtg_serve p false _ d w Hs Ht), H1, H2.
  now split.
Qed.

(** A run that wants the device absent and finds none. *)
Lemma run_absent_settled p w target :
  truthy (param_val (device_id p)) = false ->
  device_name p = Some target ->
  state p = absent ->
  find (matchb target) (prtg_devices w) = None ->
  outcome (main prtg_serve p false w) = ExitJson false
  /\ final_state (main prtg_serve p false w) = w.
Proof.
  intros Hid Hname Hs Hf.
  destruct (main_by_name_prtg p false w target Hid Hname) as [-> ->].
  unfold scan_result. rewrite Hf. cbn [fst snd].
  rewrite (converge_absent_not_found prtg_serve p false _ _ w Hs Hid).
  now split.
Qed.

Lemma find_matchb_In target devices d :
  find (matchb target) devices = Some d -> In d devices /\ matchb target d = true.
Proof. apply find_some. Qed.

(** The lookup of the parent group leaves the model server as it is. *)
Lemma prtg_group_lookup_state p w :
  final_state (determine_parent_group prtg_serve p w) = w.
Proof.
  unfold determine_parent_group. destruct (truthy _); [reflexivity|].
  rewrite bind_api_call. change (request_of p _ _) with (group_request p).
  rewrite validate_then_compare, final_state_after.
  assert (Hw : fst (prtg_serve w (group_request p)) = w).
  { unfold prtg_serve.
    change (req_path (group_request p) =? "/api/table.json")%string with false.
    change (req_path (group_request p) =? "/api/getobjectstatus.htm")%string with true.
    cbv iota. destruct (id_of_val _); [|reflexivity].
    destruct (find _ _); reflexivity. }
  rewrite Hw.
  destruct (status_is _ 200); [|reflexivity].
  rewrite bind_read, final_state_after.
  destruct (resp_body _) as [ds|root|s]; try reflexivity.
  cbn [ET_fromstring]. rewrite bind_ret.
  unfold index. destruct (nth_error (xml_children root) 1) as [g1|]; [|reflexivity].
  rewrite bind_ret. destruct (xml_tag g1 =? "result")%string; [|reflexivity].
  destruct (nth_error (xml_children g1) 0) as [g10|]; [|reflexivity].
  rewrite bind_ret. unfold attrib_index.
  destruct (attrib_get (xml_attrib g10) "thisid"); reflexivity.
Qed.

Lemma prtg_pause_digits p w n paused :
  prtg_serve w (pause_request p (PStr (digits_of_pos n)) paused)
  = (mkPrtg (map (set_active (Zpos n) (if paused then 0 else -1)) (prtg_devices w))
       (prtg_next w),
     ok_response (BText EmptyString)).
Proof.
  unfold prtg_serve.
  change (req_path (pause_request p _ paused) =? "/api/table.json")%string with false.
  change (req_path (pause_request p _ paused) =? "/api/getobjectstatus.htm")%string
    with false.
  change (req_path (pause_request p _ paused) =? "/api/pause.htm")%string with true.
  cbv iota.
  change (query_get (pause_request p (PStr (digits_of_pos n)) paused) "id")
    with (PStr (digits_of_pos n)).
  rewrite id_of_digits. destruct paused; reflexivity.
Qed.

Lemma prtg_duplicate p w dest :
  prtg_serve w (duplicate_request p dest)
  = match id_of_val (param_val (clone_from p)) with
    | Some i =>
        match find (has_id i) (prtg_devices w) with
        | Some _ =>
            (mkPrtg (prtg_devices w ++ [new_device w p dest]) (Pos.succ (prtg_next w)),
             mkResponse (Some 200)
               ("/device.htm?id%3D" ++ digits_of_pos (prtg_next w))
               (BText EmptyString))
        | None => (w, error_response 400)
        end
    | None => (w, error_response 400)
    end.
Proof. reflexivity. Qed.

(** The state a completed creation leaves the model server in. *)
Lemma prtg_create_run p w :
  outcome (create_device prtg_serve p w) = Ret tt ->
  exists dest,
    final_state (create_device prtg_serve p w)
    = if enabled p
      then mkPrtg (map (set_active (Zpos (prtg_next w)) (-1))
                     (prtg_devices w ++ [new_device w p dest]))
             (Pos.succ (prtg_next w))
      else mkPrtg (prtg_devices w ++ [new_device w p dest]) (Pos.succ (prtg_next w)).
Proof.
  pose proof (prtg_group_lookup_state p w) as Hw.
  rewrite create_device_run.
  destruct (determine_parent_group prtg_serve p w) as [[[dest|c|msg|e] w1] t1];
    cbn [final_state fst snd] in Hw; subst w1; try discriminate.
  cbv zeta. cbn [outcome final_state fst snd].
  rewrite prtg_duplicate.
  destruct (id_of_val (param_val (clone_from p))) as [i|]; [|discriminate].
  destruct (find (has_id i) (prtg_devices w)); [|discriminate].
  cbn [fst snd status url status_is Z.eqb Pos.eqb].
  rewrite search_model_url.
  destruct (enabled p).
  - rewrite pause_step_run, prtg_pause_digits. intros _. now exists dest.
  - intros _. now exists dest.
Qed.

Lemma new_device_matches p w dest target :
  device_name p = Some target -> matchb target (new_device w p dest) = true.
Proof.
  intros H. unfold matchb, new_device. rewrite H. cbn [device_ param_val text_of_val].
  now rewrite contains_refl.
Qed.

(** A first run that completes reports the [changed] value of its row; the
    second run reports no change when, for the desired state absent, every
    device that matches the target is the resolved device. *)
Lemma second_run_settled :
  forall p w target c1,
    truthy (param_val (device_id p)) = false ->
    device_name p = Some target ->
    Forall (fun d => objid d <> 0) (prtg_devices w) ->
    outcome (main prtg_serve p false w) = ExitJson c1 ->
    c1 = table_changed
           (table_action (state p) (find (matchb target) (prtg_devices w)) (enabled p))
    /\ ((state p = absent ->
         forall d d',
           find (matchb target) (prtg_devices w) = Some d ->
           In d' (prtg_devices w) -> matches target d' -> objid d' = objid d) ->
        outcome (main prtg_serve p false (final_state (main prtg_serve p false w)))
        = ExitJson false).
Proof.
  intros p w target c1 Hid Hname Hids Hrun.
  destruct (main_by_name_prtg p false w target Hid Hname) as [Ho Hf].
  rewrite Ho in Hrun. rewrite Hf. clear Ho Hf.
  unfold scan_result in *.
  destruct (find (matchb target) (prtg_devices w)) as [d|] eqn:Hfind;
    cbn [fst snd] in *.
  - destruct (find_matchb_In _ _ _ Hfind) as [Hin Hm].
    assert (Hd : objid d <> 0) by (rewrite Forall_forall in Hids; now apply Hids).
    assert (Ht : truthy (PInt (objid d)) = true)
      by (cbn; now apply negb_true_iff, Z.eqb_neq).
    destruct (state p) eqn:Hs; cbn [table_action].
    + rewrite (converge_present_found prtg_serve p false _ d w Hs Ht) in Hrun |- *.
      unfold currently_paused, currently_active. cbn [negb when] in *.
      destruct (enabled p && (active_raw d =? 0))%bool eqn:C1;
        [|destruct (negb (enabled p) && (active_raw d =? -1))%bool eqn:C2].
      * rewrite pause_step_run, prtg_pause in Hrun |- *.
        cbn [outcome final_state fst snd] in Hrun |- *.
        split; [now injection Hrun|]. intros Huniq.
        apply andb_true_iff in C1 as [He _].
        apply (run_present_settled p _ target (set_active (objid d) (-1) d));
          try assumption.
        -- cbn [prtg_devices]. now rewrite find_map_set_active, Hfind.
        -- unfold set_active. now destruct (has_id (objid d) d).
        -- unfold set_active, has_id. rewrite Z.eqb_refl. cbn. apply andb_false_r.
        -- now rewrite He.
      * rewrite pause_step_run, prtg_pause in Hrun |- *.
        cbn [outcome final_state fst snd] in Hrun |- *.
        split; [now injection Hrun|]. intros Huniq.
        apply andb_true_iff in C2 as [He _]. apply negb_true_iff in He.
        apply (run_present_settled p _ target (set_active (objid d) 0 d));
          try assumption.
        -- cbn [prtg_devices]. now rewrite find_map_set_active, Hfind.
        -- unfold set_active. now destruct (has_id (objid d) d).
        -- now rewrite He.
        -- unfold set_active, has_id. rewrite Z.eqb_refl. cbn. apply andb_false_r.
      * cbn [outcome final_state fst snd] in Hrun |- *.
        split; [now injection Hrun|]. intros Huniq.
        now apply (run_present_settled p w target d).
    + rewrite (converge_delete prtg_serve p false _ (Some d) w Hs Ht) in Hrun |- *.
      cbn [negb when] in *. rewrite delete_run, prtg_delete in Hrun |- *.
      cbn [outcome final_state fst snd] in Hrun |- *.
      split; [now injection Hrun|]. intros Huniq.
      apply (run_absent_settled p _ target); try assumption.
      cbn [prtg_devices]. apply find_filter_none.
      intros d' Hin' Hm'. apply (Huniq eq_refl d d' eq_refl Hin').
      now apply matchb_iff.
  - destruct (state p) eqn:Hs; cbn [table_action].
    + destruct (truthy (param_val (clone_from p))) eqn:Hc.
      * rewrite (converge_create prtg_serve p false _ _ w Hs Hid Hc) in Hrun |- *.
        cbn [negb when outcome final_state fst snd] in Hrun |- *.
        pose proof (create_device_never_exits prtg_serve p w) as Hne.
        destruct (outcome (create_device prtg_serve p w)) as [[]|c'|msg|e] eqn:E;
          try discriminate; [|now elim (Hne c')].
        split; [now injection Hrun|]. intros Huniq.
        destruct (prtg_create_run p w E) as [dest Hw]. rewrite Hw.
        assert (Hnm : matchb target (new_device w p dest) = true)
          by now apply new_device_matches.
        pose proof (find_app_last target _ _ Hfind Hnm) as Hfl.
        destruct (enabled p) eqn:He.
        -- apply (run_present_settled p _ target
                    (set_active (Zpos (prtg_next w)) (-1) (new_device w p dest)));
             try assumption.
           ++ cbn [prtg_devices]. now rewrite find_map_set_active, Hfl.
           ++ unfold set_active, has_id, new_device. cbn [objid].
              rewrite Z.eqb_refl. discriminate.
           ++ rewrite He. unfold set_active, has_id, new_device. cbn [objid].
              now rewrite Z.eqb_refl.
           ++ now rewrite He.
        -- apply (run_present_settled p _ target (new_device w p dest));
             try assumption.
           ++ discriminate.
           ++ now rewrite He.
           ++ now rewrite He.
      * rewrite (converge_without_clone_from prtg_serve p false _ _ w Hs Hid Hc) in Hrun.
        discriminate Hrun.
    + rewrite (converge_absent_not_found prtg_serve p false _ _ w Hs Hid) in Hrun |- *.
      cbn [outcome final_state fst snd] in Hrun |- *.
      split; [now injection Hrun|]. intros Huniq.
      now apply (run_absent_settled p w target).
Qed.


Lemma find_some_exists {A} (f : A -> bool) (l : list A) (x : A) :
  In x l -> f x = true -> exists y, find f l = Some y.
Proof.
  induction l as [|a r IH]; [intros []|]. cbn [find].
  intros [<-|Hin] Hx.
  - rewrite Hx. now eexists.
  - destruct (f a); [now eexists | now apply IH].
Qed.

(** When the desired state is absent and a device other than the resolved
    one matches the target too, the second run resolves to such a device and
    deletes it. *)
Lemma second_run_deletes_next_match :
  forall p w target c1 d d',
    truthy (param_val (device_id p)) = false ->
    device_name p = Some target ->
    Forall (fun d => objid d <> 0) (prtg_devices w) ->
    outcome (main prtg_serve p false w) = ExitJson c1 ->
    state p = absent ->
    find (matchb target) (prtg_devices w) = Some d ->
    In d' (prtg_devices w) -> matches target d' -> objid d' <> objid d ->
    outcome (main prtg_serve p false (final_state (main prtg_serve p false w)))
    = ExitJson true
    /\ exists d2,
        In d2 (prtg_devices w) /\ matches target d2 /\ objid d2 <> objid d
        /\ mutations (trace (main prtg_serve p false
                               (final_state (main prtg_serve p false w))))
           = [MDelete (PInt (objid d2)) (PStr "1")].
Proof.
  intros p w target c1 d d' Hid Hname Hids Hrun Hs Hfind Hin' Hm' Hne.
  destruct (find_matchb_In _ _ _ Hfind) as [Hin Hm].
  assert (Hd : objid d <> 0) by (rewrite Forall_forall in Hids; now apply Hids).
  assert (Ht : truthy (PInt (objid d)) = true)
    by (cbn; now apply negb_true_iff, Z.eqb_neq).
  assert (Hw1 : final_state (main prtg_serve p false w)
                = mkPrtg (filter (fun x => negb (has_id (objid d) x)) (prtg_devices w))
                    (prtg_next w)).
  { destruct (main_by_name_prtg p false w target Hid Hname) as [_ ->].
    unfold scan_result. rewrite Hfind. cbn [fst snd].
    rewrite (converge_delete prtg_serve p false _ (Some d) w Hs Ht).
    cbn [negb when final_state fst snd]. now rewrite delete_run, prtg_delete. }
  rewrite Hw1.
  set (w1 := mkPrtg (filter (fun x => negb (has_id (objid d) x)) (prtg_devices w))
               (prtg_next w)).
  assert (Hin1 : In d' (prtg_devices w1)).
  { cbn [w1 prtg_devices]. apply filter_In. split; [exact Hin'|].
    unfold has_id. apply negb_true_iff, Z.eqb_neq. congruence. }
  apply matchb_iff in Hm'.
  destruct (find_some_exists _ _ _ Hin1 Hm') as [d2 Hfind2].
  destruct (find_matchb_In _ _ _ Hfind2) as [Hin2 Hm2].
  cbn [w1 prtg_devices] in Hin2. apply filter_In in Hin2. destruct Hin2 as [Hin2 Hn2].
  assert (Hd2 : objid d2 <> 0) by (rewrite Forall_forall in Hids; now apply Hids).
  assert (Ht2 : truthy (PInt (objid d2)) = true)
    by (cbn; now apply negb_true_iff, Z.eqb_neq).
  rewrite (main_by_name_run prtg_serve p false w1 target (prtg_devices w1)
             Hid Hname eq_refl eq_refl).
  rewrite prtg_listing.
  unfold scan_result. rewrite Hfind2. cbn [fst snd outcome trace].
  rewrite (converge_delete prtg_serve p false _ (Some d2) _ Hs Ht2).
  cbn [negb when outcome trace fst snd]. rewrite delete_run, prtg_delete.
  cbn [outcome trace fst snd]. split; [reflexivity|].
  exists d2. split; [exact Hin2|]. split; [now apply matchb_iff|]. split.
  - unfold has_id in Hn2. apply negb_true_iff, Z.eqb_neq in Hn2. congruence.
  - reflexivity.
Qed.

(** C8, as amended.  Against the model server, without check mode, with the
    device given by name, for a target and device names that are ASCII text
    and devices with non-zero ids: whenever a first run completes, it
    reports the [changed] value of the row of the transition table that
    applies (true for create-by-clone, unpause, pause and delete, false for
    the two rows without action).  A second run on the state the first one
    left reports [changed = false], provided that, when the desired state is
    absent, every device of the listing that matches the target is the
    resolved device.  When the desired state is absent and a device other
    than the resolved one matches the target too, the second run deletes
    such a device and reports [changed = true] again. *)
Theorem second_run_reports_no_change :
  forall p w target c1,
    truthy (param_val (device_id p)) = false ->
    device_name p = Some target ->
    ascii_text target = true ->
    ascii_listing (prtg_devices w) = true ->
    Forall (fun d => objid d <> 0) (prtg_devices w) ->
    outcome (main prtg_serve p false w) = ExitJson c1 ->
    c1 = table_changed
           (table_action (state p) (find (matchb target) (prtg_devices w)) (enabled p))
    /\ ((state p = absent ->
         forall d d',
           find (matchb target) (prtg_devices w) = Some d ->
           In d' (prtg_devices w) -> matches target d' -> objid d' = objid d) ->
        outcome (main prtg_serve p false (final_state (main prtg_serve p false w)))
        = ExitJson false)
    /\ (state p = absent ->
        forall d d',
          find (matchb target) (prtg_devices w) = Some d ->
          In d' (prtg_devices w) -> matches target d' -> objid d' <> objid d ->
          outcome (main prtg_serve p false (final_state (main prtg_serve p false w)))
          = ExitJson true
          /\ exists d2,
              In d2 (prtg_devices w) /\ matches target d2 /\ objid d2 <> objid d
              /\ mutations (trace (main prtg_serve p false
                                     (final_state (main prtg_serve p false w))))
                 = [MDelete (PInt (objid d2)) (PStr "1")]).
Proof.
  intros p w target c1 Hid Hname _ _ Hids Hrun.
  destruct (second_run_settled p w target c1 Hid Hname Hids Hrun) as [Hc Hsettled].
  split; [exact Hc|]. split; [exact Hsettled|].
  intros Hs d d' Hfind Hin Hm Hne.
  exact (second_run_deletes_next_match p w target c1 d d'
           Hid Hname Hids Hrun Hs Hfind Hin Hm Hne).
Qed.

Lemma second_run_reports_no_change_witness :
  true = table_changed
           (table_action (state remove_web)
              (find (matchb "web") (prtg_devices sample_prtg)) (enabled remove_web))
  /\ outcome (main prtg_serve remove_web false
                (final_state (main prtg_serve remove_web false sample_prtg)))
     = ExitJson false.
Proof.
  assert (Hids : Forall (fun d => objid d <> 0) (prtg_devices sample_prtg))
    by (repeat constructor; discriminate).
  destruct (second_run_reports_no_change remove_web sample_prtg "web" true
              eq_refl eq_refl eq_refl eq_refl Hids eq_refl) as [H1 [H2 _]].
  split; [exact H1|]. apply H2.
  intros _ d d' Hf Hin Hm. cbn in Hf. injection Hf as <-.
  destruct Hin as [<- | [<- | []]]; [reflexivity|].
  apply matchb_iff in Hm. discriminate Hm.
Defined.

(* ================================================================= *)
(** * Further properties of the module's functions *)

(* ================================================================= *)
(** ** [api_call]: the base URL and the credentials *)

Lemma append_empty_r (s : string) : s ++ EmptyString = s.
Proof. induction s; cbn; now f_equal. Qed.

(** [rstrip('/')] removes slashes from the end and nothing else, and what it
    leaves does not end in a slash. *)
Lemma rstrip_slash_split (s : string) :
  endswith_slash (rstrip_slash s) = false
  /\ exists n, s = rstrip_slash s ++ slashes n.
Proof.
  induction s as [|c r [IHe [n IHn]]]; cbn [rstrip_slash].
  - split; [reflexivity | now exists O].
  - destruct (rstrip_slash r) as [|a r'] eqn:E.
    + cbn [append] in IHn. subst r.
      destruct (Ascii.eqb c "/") eqn:Ec.
      * apply Ascii.eqb_eq in Ec. subst c. split; [reflexivity | now exists (S n)].
      * split; [cbn; exact Ec | now exists n].
    + split; [exact IHe|]. exists n. cbn [append] in IHn |- *. now f_equal.
Qed.

(** X1.  Whatever number of slashes the configured [prtg_url] ends with,
    [api_call] sends its request to a base that does not end in a slash and
    that differs from [prtg_url] only by the slashes removed from its end;
    the path is the one the caller gave, and the call is the only thing
    [api_call] does. *)
Theorem api_call_base_has_no_trailing_slash :
  forall (W : Type) (serve : W -> request -> W * response) p path query w,
  exists req,
    api_call serve p path query w
    = (Ret (snd (serve w req)), fst (serve w req), [EvCall req (snd (serve w req))])
    /\ req_path req = path
    /\ endswith_slash (req_base req) = false
    /\ exists n, prtg_url p = req_base req ++ slashes n.
Proof.
  intros W serve p path query w. exists (request_of p path query).
  split; [|split; [reflexivity|]].
  - unfold api_call, request_of. now destruct (serve w _).
  - unfold request_of. cbn [req_base].
    destruct (endswith_slash (prtg_url p)) eqn:E.
    + apply rstrip_slash_split.
    + split; [exact E|]. exists O. cbn. now rewrite append_empty_r.
Qed.

Lemma dict_get_set_same (d : dict) (k : string) (v : pyval) :
  dict_get (dict_set d k v) k = Some v.
Proof.
  induction d as [|[k' v'] r IH]; cbn.
  - now rewrite String.eqb_refl.
  - destruct (k' =? k)%string eqn:E; cbn.
    + now rewrite String.eqb_refl.
    + now rewrite E.
Qed.

Lemma dict_get_set_other (d : dict) (k k' : string) (v : pyval) :
  k' <> k -> dict_get (dict_set d k v) k' = dict_get d k'.
Proof.
  intros Hk. induction d as [|[k0 v0] r IH]; cbn.
  - destruct (String.eqb_spec k k'); [congruence | reflexivity].
  - destruct (String.eqb_spec k0 k) as [->|Hne]; cbn.
    + destruct (String.eqb_spec k k'); [congruence|].
      destruct (String.eqb_spec k k'); [congruence | reflexivity].
    + destruct (String.eqb_spec k0 k'); [reflexivity | exact IH].
Qed.

Lemma request_of_authenticated p path query :
  authenticated p (request_of p path query).
Proof.
  unfold authenticated, request_of. cbn [req_query]. split.
  - rewrite dict_get_set_other by discriminate. apply dict_get_set_same.
  - apply dict_get_set_same.
Qed.

(** X2.  The request [api_call] sends carries [username] and [passhash] of
    the task, also when the caller's parameters already had entries under
    these two names, and every other parameter reads back as the caller gave
    it. *)
Theorem api_call_sets_credentials :
  forall (W : Type) (serve : W -> request -> W * response) p path query w,
  exists req resp,
    trace (api_call serve p path query w) = [EvCall req resp]
    /\ authenticated p req
    /\ forall k, k <> "username" -> k <> "passhash" ->
                 dict_get (req_query req) k = dict_get query k.
Proof.
  intros W serve p path query w.
  exists (request_of p path query), (snd (serve w (request_of p path query))).
  split; [|split].
  - unfold api_call, request_of. now destruct (serve w _).
  - apply request_of_authenticated.
  - intros k H1 H2. unfold request_of. cbn [req_query].
    now rewrite !dict_get_set_other.
Qed.

(* ================================================================= *)
(** ** What holds of every request of a run *)

Lemma quiet_ret {W A} (a : A) : quiet (@ret W A a).
Proof. intros w; reflexivity. Qed.

Lemma quiet_lift {W A} (r : result A) : quiet (@lift W A r).
Proof. intros w; reflexivity. Qed.

Lemma quiet_read {W} (resp : response) : quiet (@read W resp).
Proof. intros w; reflexivity. Qed.

Lemma quiet_validate_response {W} (info : response) :
  quiet (@validate_response W info).
Proof.
  intros w. unfold validate_response.
  repeat match goal with
         | |- context [if ?c then _ else _] => destruct c
         end; reflexivity.
Qed.

Lemma quiet_for_dev {W} name id dev devs : quiet (@for_dev W name id dev devs).
Proof.
  revert dev. induction devs as [|d rest IH]; intros dev w; cbn [for_dev].
  - reflexivity.
  - destruct name as [name|]; [|reflexivity].
    destruct (contains _ _); [reflexivity|].
    destruct (_ =? _)%string; [reflexivity | apply IH].
Qed.

Lemma quiet_json_loads_devices {W} b : quiet (@json_loads_devices W b).
Proof. intros w. destruct b; reflexivity. Qed.

Lemma quiet_ET_fromstring {W} b : quiet (@ET_fromstring W b).
Proof. intros w. destruct b; reflexivity. Qed.

Lemma quiet_read_var {W A} (v : option A) : quiet (@read_var W A v).
Proof. intros w. destruct v; reflexivity. Qed.

Lemma quiet_index {W A} (l : list A) i : quiet (@index W A l i).
Proof. intros w. unfold index. destruct (nth_error l i); reflexivity. Qed.

Lemma quiet_attrib_index {W} x k : quiet (@attrib_index W x k).
Proof. intros w. unfold attrib_index. destruct (attrib_get _ _); reflexivity. Qed.

Lemma quiet_fail_if {W} c msg : quiet (@fail_if W c msg).
Proof. intros w. destruct c; reflexivity. Qed.

Lemma every_call_quiet {W A} (P : request -> Prop) (m : M W A) :
  quiet m -> every_call P m.
Proof. intros H w. rewrite H. constructor. Qed.

Lemma every_call_bind {W A B} (P : request -> Prop) (m : M W A) (k : A -> M W B) :
  every_call P m -> (forall a, every_call P (k a)) -> every_call P (bind m k).
Proof.
  intros Hm Hk w. specialize (Hm w). unfold bind.
  destruct (m w) as [[[a|c|msg|e] w1] t1]; cbn [trace snd] in *; try exact Hm.
  rewrite calls_app. apply Forall_app. split; [exact Hm | apply Hk].
Qed.

Lemma every_call_api_call {W} (P : request -> Prop)
    (serve : W -> request -> W * response) p path query :
  P (request_of p path query) -> every_call P (api_call serve p path query).
Proof.
  intros H w. unfold api_call. fold (request_of p path query).
  destruct (serve w _) as [w1 resp]. cbn. now constructor.
Qed.

Lemma every_call_when {W} (P : request -> Prop) c (m : M W unit) :
  every_call P m -> every_call P (when c m).
Proof. intros H. destruct c; [exact H | apply every_call_quiet, quiet_ret]. Qed.

Lemma every_call_and_then {W} (P : request -> Prop) c (m : M W bool) :
  every_call P m -> every_call P (and_then c m).
Proof. intros H. destruct c; [exact H | apply every_call_quiet, quiet_ret]. Qed.

(** A property that holds of whatever [api_call] sends for the task [p]
    holds of every request of every run of [main]. *)
Lemma every_call_main {W} (P : request -> Prop)
    (serve : W -> request -> W * response) p cm :
  (forall path query, P (request_of p path query)) ->
  every_call P (main serve p cm).
Proof.
  intros HP.
  unfold main, check_device, converge, create_device, determine_parent_group,
    pause_device.
  repeat first
    [ apply every_call_api_call; apply HP
    | apply every_call_quiet;
      first [ apply quiet_ret | apply quiet_lift | apply quiet_read
            | apply quiet_validate_response | apply quiet_for_dev
            | apply quiet_json_loads_devices | apply quiet_ET_fromstring
            | apply quiet_read_var | apply quiet_index
            | apply quiet_attrib_index | apply quiet_fail_if ]
    | apply every_call_when
    | apply every_call_and_then
    | apply every_call_bind; [|intros ?]
    | match goal with
      | |- every_call _ (if ?c then _ else _) => destruct c
      | |- every_call _ (match ?x with _ => _ end) => destruct x
      end ].
Qed.

(** X3.  In every run of [main], in check mode or not and whatever the
    remote system answers, every request carries the task's [username] and
    [passhash] and goes to a base that does not end in a slash. *)
Theorem every_request_is_authenticated :
  forall (W : Type) (serve : W -> request -> W * response) p check_mode w,
    Forall (fun req => authenticated p req /\ endswith_slash (req_base req) = false)
      (calls (trace (main serve p check_mode w))).
Proof.
  intros W serve p cm w. apply every_call_main.
  intros path query. split; [apply request_of_authenticated|].
  unfold request_of. cbn [req_base].
  destruct (endswith_slash (prtg_url p)) eqn:E; [apply rstrip_slash_split | exact E].
Qed.

(* ================================================================= *)
(** ** Any status other than 200 is fatal *)

(** X4.  In every run of [main]: a call that is answered with anything but
    status 200 makes the invocation fail, with the call site's own message
    when the status is none of 401, 404, 400, 0 or missing (a 500 or a 403,
    say); so an invocation that exits with a [changed] value has had every
    one of its calls answered with status 200. *)
Theorem only_status_200_lets_a_run_go_on :
  forall (W : Type) (serve : W -> request -> W * response) p check_mode w req resp,
    In (EvCall req resp) (trace (main serve p check_mode w)) ->
    (status resp <> Some 200 ->
     exists msg, outcome (main serve p check_mode w) = FailJson msg)
    /\ (forall z, status resp = Some z ->
                  z <> 200 -> z <> 401 -> z <> 404 -> z <> 400 -> z <> 0 ->
                  outcome (main serve p check_mode w) = FailJson (site_message req))
    /\ (forall c, outcome (main serve p check_mode w) = ExitJson c ->
                  status resp = Some 200).
Proof.
  intros W serve p cm w req resp Hin.
  apply in_split in Hin. destruct Hin as [t1 [t2 Ht]].
  pose proof (guarded_main serve p cm w t1 req resp t2 Ht) as Hg.
  assert (Hbad : status resp <> Some 200 ->
                 outcome (main serve p cm w)
                 = FailJson (failure_message (status resp) (site_message req))).
  { intros Hs. apply Hg. destruct (status resp) as [z|]; [|reflexivity].
    cbn. apply Z.eqb_neq. congruence. }
  split; [|split].
  - intros Hs. eexists. now apply Hbad.
  - intros z Hz H200 H401 H404 H400 H0. rewrite Hbad by congruence.
    rewrite Hz. unfold failure_message. cbn.
    apply Z.eqb_neq in H0, H401, H404, H400.
    now rewrite H0, H401, H404, H400.
  - intros c Hc. destruct (status resp) as [z|] eqn:Hs.
    + destruct (Z.eq_dec z 200) as [->|Hne]; [reflexivity|].
      rewrite Hbad in Hc by congruence. discriminate Hc.
    + rewrite Hbad in Hc by congruence. discriminate Hc.
Qed.

Lemma only_status_200_lets_a_run_go_on_witness :
  outcome (main (constant_server (with_status (Some 500))) example_params false tt)
  = FailJson "API request failed".
Proof.
  apply (proj1 (proj2 (only_status_200_lets_a_run_go_on unit
                         (constant_server (with_status (Some 500)))
                         example_params false tt
                         (listing_request example_params) (with_status (Some 500))
                         (or_introl eq_refl)))
           500 eq_refl); discriminate.
Defined.

(* ================================================================= *)
(** ** What [validate_response] returns *)

(** X5.  [validate_response] touches nothing and issues no call.  When it
    returns, the value is 200, 302 or 0, and it is 200 exactly when the
    status is 200 and 302 exactly when the status is 302; it never raises
    and never exits.  A status of 0 is taken for a missing one: the
    invocation fails as if the server had not been reached. *)
Theorem validate_response_returns_status_class :
  forall (W : Type) (info : response) (w : W),
    final_state (validate_response info w) = w
    /\ trace (validate_response info w) = []
    /\ (forall v, outcome (validate_response info w) = Ret v ->
                  (v = 200 /\ status info = Some 200)
                  \/ (v = 302 /\ status info = Some 302)
                  \/ (v = 0 /\ status info <> Some 200 /\ status info <> Some 302))
    /\ (status info = Some 200 -> outcome (validate_response info w) = Ret 200)
    /\ (status info = Some 0 ->
        outcome (validate_response info w) = FailJson "Unable to reach API server")
    /\ (forall e, outcome (validate_response info w) <> Uncaught e)
    /\ (forall c, outcome (validate_response info w) <> ExitJson c).
Proof.
  intros W info w. unfold validate_response.
  destruct (status info) as [z|]; cbn [status_truthy status_is].
  2:{ repeat split; try discriminate. }
  destruct (Z.eqb_spec z 0) as [->|H0]; cbn [negb].
  { repeat split; try discriminate. }
  destruct (Z.eqb_spec z 401) as [->|H401].
  { repeat split; try discriminate. }
  destruct (Z.eqb_spec z 404) as [->|H404].
  { repeat split; try discriminate. }
  destruct (Z.eqb_spec z 400) as [->|H400].
  { repeat split; try discriminate. }
  destruct (Z.eqb_spec z 200) as [->|H200].
  { repeat split; try discriminate. intros v [= <-]. now left. }
  destruct (Z.eqb_spec z 302) as [->|H302].
  { repeat split; try discriminate. intros v [= <-]. right; left. now split. }
  repeat split; try discriminate; try congruence.
  intros v [= <-]. right; right. repeat split; congruence.
Qed.

Lemma validate_response_returns_status_class_witness :
  outcome (@validate_response unit (with_status (Some 0)) tt)
  = FailJson "Unable to reach API server".
Proof.
  apply (proj1 (proj2 (proj2 (proj2 (proj2
           (validate_response_returns_status_class unit (with_status (Some 0)) tt)))))).
  reflexivity.
Defined.

(* ================================================================= *)
(** ** [pause_device] *)

(** X6.  [pause_device] issues exactly one call, to pause.htm, for the given
    id, with the fixed message (also when it resumes the device) and with
    action 0 to pause and 1 to resume.  It returns [True] when the call is
    answered with status 200 and fails the invocation otherwise, with the
    message of the pause site when the status is none of the classified
    ones; it never returns [False]. *)
Theorem pause_device_one_call_true_or_fail :
  forall (W : Type) (serve : W -> request -> W * response) p id paused w,
  exists req resp,
    trace (pause_device serve p id paused w) = [EvCall req resp]
    /\ final_state (pause_device serve p id paused w) = fst (serve w req)
    /\ resp = snd (serve w req)
    /\ req_path req = "/api/pause.htm"
    /\ dict_get (req_query req) "id" = Some id
    /\ dict_get (req_query req) "pausemsg" = Some (PStr "paused by ansible")
    /\ dict_get (req_query req) "action" = Some (PInt (if paused then 0 else 1))
    /\ (status resp = Some 200 ->
        outcome (pause_device serve p id paused w) = Ret true)
    /\ (status resp <> Some 200 ->
        exists msg, outcome (pause_device serve p id paused w) = FailJson msg)
    /\ (status resp = Some 500 ->
        outcome (pause_device serve p id paused w) = FailJson "Failed to pause device")
    /\ outcome (pause_device serve p id paused w) <> Ret false.
Proof.
  intros W serve p id paused w.
  exists (pause_request p id paused), (snd (serve w (pause_request p id paused))).
  rewrite pause_device_run. cbn [trace outcome final_state fst snd].
  do 7 (split; [reflexivity|]).
  split; [|split; [|split]].
  - intros H. now rewrite H.
  - intros H. destruct (status_is _ 200) eqn:E; [|eauto].
    destruct (status _) as [z|]; [|discriminate]. cbn in E.
    apply Z.eqb_eq in E. congruence.
  - intros H. now rewrite H.
  - destruct (status_is _ 200); discriminate.
Qed.

Lemma pause_device_one_call_true_or_fail_witness :
  outcome (pause_device (constant_server (with_status (Some 500)))
             example_params (PInt 2001) true tt)
  = FailJson "Failed to pause device".
Proof.
  destruct (pause_device_one_call_true_or_fail unit
              (constant_server (with_status (Some 500)))
              example_params (PInt 2001) true tt)
    as [req [resp [_ [_ [Hresp [_ [_ [_ [_ [_ [_ [H500 _]]]]]]]]]]]].
  apply H500. rewrite Hresp. reflexivity.
Defined.

(* ================================================================= *)
(** ** The order of the calls of an invocation *)

Lemma paths_app (t1 t2 : list event) : paths (t1 ++ t2) = (paths t1 ++ paths t2)%list.
Proof. unfold paths. now rewrite calls_app, map_app. Qed.

Lemma check_device_paths {W} (serve : W -> request -> W * response) p w :
  paths (trace (check_device serve p w)) = ["/api/table.json"].
Proof.
  unfold check_device.
  destruct (negb (truthy (param_val (device_id p)))).
  - rewrite bind_api_call, listing_request_eq, validate_then_compare.
    destruct (status_is _ 200); [|reflexivity].
    rewrite bind_read. destruct (resp_body _); try reflexivity.
    cbn [json_loads_devices]. rewrite bind_ret.
    destruct (device_name p) as [target|].
    + now rewrite for_dev_run.
    + destruct devices; reflexivity.
  - rewrite bind_api_call, filter_request_eq, validate_then_compare.
    destruct (status_is _ 200); [|reflexivity].
    rewrite bind_read. destruct (resp_body _); try reflexivity.
    cbn [json_loads_devices]. rewrite bind_ret.
    destruct devices; reflexivity.
Qed.

Lemma determine_parent_group_paths {W} (serve : W -> request -> W * response) p w :
  paths (trace (determine_parent_group serve p w))
  = if truthy (param_val (dest_group p)) then [] else ["/api/getobjectstatus.htm"].
Proof.
  unfold determine_parent_group. destruct (truthy _); [reflexivity|].
  rewrite bind_api_call. change (request_of p _ _) with (group_request p).
  rewrite validate_then_compare.
  destruct (status_is _ 200); [|reflexivity].
  rewrite bind_read. destruct (resp_body _) as [ds|root|s]; try reflexivity.
  cbn [ET_fromstring]. rewrite bind_ret.
  unfold index. destruct (nth_error (xml_children root) 1) as [g1|]; [|reflexivity].
  rewrite bind_ret. destruct (xml_tag g1 =? "result")%string; [|reflexivity].
  destruct (nth_error (xml_children g1) 0) as [g10|]; [|reflexivity].
  rewrite bind_ret. unfold attrib_index.
  destruct (attrib_get (xml_attrib g10) "thisid"); reflexivity.
Qed.

Lemma create_device_paths {W} (serve : W -> request -> W * response) p w :
  is_path_prefix (paths (trace (create_device serve p w)))
    ((if truthy (param_val (dest_group p)) then [] else ["/api/getobjectstatus.htm"])
       ++ ["/api/duplicateobject.htm"; "/api/pause.htm"]).
Proof.
  pose proof (determine_parent_group_paths serve p w) as Hp.
  rewrite create_device_run.
  destruct (determine_parent_group serve p w) as [[[dest|c|msg|e] w1] t1];
    cbn [trace snd] in Hp |- *;
    try (rewrite Hp; destruct (truthy _); cbn; auto).
  cbv zeta. rewrite paths_app, Hp.
  assert (Hx : is_path_prefix
                 (paths (EvCall (duplicate_request p dest)
                           (snd (serve w1 (duplicate_request p dest)))
                         :: trace
                              (if status_is
                                    (status (snd (serve w1 (duplicate_request p dest)))) 200
                               then
                                 match new_dev_re_search
                                         (url (snd (serve w1 (duplicate_request p dest))))
                                 with
                                 | Some new_dev_id =>
                                     if enabled p
                                     then bind (pause_device serve p (PStr new_dev_id) false)
                                            (fun _ => ret tt)
                                            (fst (serve w1 (duplicate_request p dest)))
                                     else (Ret tt, fst (serve w1 (duplicate_request p dest)), [])
                                 | None =>
                                     (FailJson
                                        "Unable to parse new device ID from return request",
                                      fst (serve w1 (duplicate_request p dest)), [])
                                 end
                               else
                                 (FailJson
                                    (failure_message
                                       (status (snd (serve w1 (duplicate_request p dest))))
                                       "API request failed"),
                                  fst (serve w1 (duplicate_request p dest)), []))))
                 ["/api/duplicateobject.htm"; "/api/pause.htm"]).
  { destruct (status_is _ 200); [|cbn; auto].
    destruct (new_dev_re_search _); [|cbn; auto].
    destruct (enabled p); [|cbn; auto].
    rewrite pause_step_run. cbn. auto. }
  destruct (truthy (param_val (dest_group p))); cbn [app is_path_prefix];
    [exact Hx | split; [reflexivity | exact Hx]].
Qed.

Lemma converge_paths {W} (serve : W -> request -> W * response) p cm id dev w :
  (exists l, In l call_sequences
             /\ is_path_prefix
                  ("/api/table.json" :: paths (trace (converge serve p cm id dev w))) l)
  /\ (cm = true -> trace (converge serve p cm id dev w) = []).
Proof.
  split; [|intros ->; apply converge_check_mode].
  destruct (state p) eqn:Hs; destruct (truthy id) eqn:Hid.
  - exists ["/api/table.json"; "/api/pause.htm"]. split; [cbn; auto|].
    destruct dev as [d|].
    + rewrite (converge_present_found serve p cm id d w Hs Hid).
      destruct (enabled p && (active_raw d =? 0))%bool;
        [|destruct (negb (enabled p) && (active_raw d =? -1))%bool];
        cbn [trace snd]; try (cbn; now auto);
        (destruct cm; cbn [negb when]; [cbn; now auto|];
         rewrite pause_step_run; cbn; now auto).
    + unfold converge. rewrite Hs, Hid. cbn [state_eqb andb negb].
      destruct (enabled p); cbn; auto.
  - destruct (truthy (param_val (clone_from p))) eqn:Hc.
    + rewrite (converge_create serve p cm id dev w Hs Hid Hc). cbn [trace snd].
      destruct cm; cbn [negb when].
      * exists ["/api/table.json"; "/api/pause.htm"]. cbn; auto.
      * pose proof (create_device_paths serve p w) as Hp.
        destruct (truthy (param_val (dest_group p))); cbn [app] in Hp.
        -- exists ["/api/table.json"; "/api/duplicateobject.htm"; "/api/pause.htm"].
           split; [cbn; auto|]. split; [reflexivity | exact Hp].
        -- exists ["/api/table.json"; "/api/getobjectstatus.htm";
                   "/api/duplicateobject.htm"; "/api/pause.htm"].
           split; [cbn; auto|]. split; [reflexivity | exact Hp].
    + rewrite (converge_without_clone_from serve p cm id dev w Hs Hid Hc).
      exists ["/api/table.json"; "/api/pause.htm"]. cbn; auto.
  - exists ["/api/table.json"; "/api/deleteobject.htm"]. split; [cbn; auto|].
    rewrite (converge_delete serve p cm id dev w Hs Hid). cbn [trace snd].
    destruct cm; cbn [negb when]; [cbn; now auto|].
    rewrite delete_run. cbn. auto.
  - rewrite (converge_absent_not_found serve p cm id dev w Hs Hid).
    exists ["/api/table.json"; "/api/pause.htm"]. cbn; auto.
Qed.

Lemma is_path_prefix_length l1 l2 :
  is_path_prefix l1 l2 -> (List.length l1 <= List.length l2)%nat.
Proof.
  revert l2. induction l1 as [|a r IH]; intros [|b r2]; cbn; try lia; try easy.
  intros [_ H]. specialize (IH r2 H). lia.
Qed.

(** X7.  Every invocation begins with the device listing, and the endpoints
    it calls, in order, are a beginning of one of four sequences: listing,
    group lookup, duplicate, pause; listing, duplicate, pause; listing,
    pause; listing, delete.  So an invocation issues at least one and at
    most four calls, and in check mode the listing is its only call. *)
Theorem calls_follow_one_of_four_sequences :
  forall (W : Type) (serve : W -> request -> W * response) p check_mode w,
    (exists rest,
        paths (trace (main serve p check_mode w)) = "/api/table.json" :: rest)
    /\ (exists l,
           In l call_sequences
           /\ is_path_prefix (paths (trace (main serve p check_mode w))) l)
    /\ (List.length (calls (trace (main serve p check_mode w))) <= 4)%nat
    /\ (check_mode = true ->
        paths (trace (main serve p check_mode w)) = ["/api/table.json"]).
Proof.
  intros W serve p cm w.
  pose proof (check_device_paths serve p w) as Hp.
  assert (Hmain :
            (exists l, In l call_sequences
                       /\ is_path_prefix (paths (trace (main serve p cm w))) l)
            /\ (exists rest, paths (trace (main serve p cm w)) = "/api/table.json" :: rest)
            /\ (cm = true -> paths (trace (main serve p cm w)) = ["/api/table.json"])).
  { rewrite main_run.
    destruct (check_device serve p w) as [[[[id dev]|c|msg|e] w1] t1];
      cbn [trace snd] in Hp |- *;
      try (rewrite Hp; split; [exists ["/api/table.json"; "/api/pause.htm"]; cbn; now auto|];
           split; [now exists [] | reflexivity]).
    cbv zeta. cbn [fst snd trace]. rewrite paths_app, Hp. cbn [app].
    destruct (converge_paths serve p cm id dev w1) as [Hseq Hcm].
    split; [exact Hseq|]. split; [now eexists|].
    intros H. now rewrite (Hcm H). }
  destruct Hmain as [[l [Hin Hpre]] [Hfirst Hcm]].
  split; [exact Hfirst|]. split; [now exists l|]. split; [|exact Hcm].
  apply is_path_prefix_length in Hpre. unfold paths in Hpre.
  rewrite length_map in Hpre.
  assert (List.length l <= 4)%nat.
  { cbn in Hin. destruct Hin as [<-|[<-|[<-|[<-|[]]]]]; cbn; lia. }
  lia.
Qed.

Lemma calls_follow_one_of_four_sequences_witness :
  paths (trace (main prtg_serve create_params true sample_prtg)) = ["/api/table.json"].
Proof.
  apply (proj2 (proj2 (proj2 (calls_follow_one_of_four_sequences prtg prtg_serve
                                create_params true sample_prtg)))).
  reflexivity.
Defined.

(* ================================================================= *)
(** ** What the reported [changed] says about the calls made *)

Lemma create_device_ret_mutates {W} (serve : W -> request -> W * response) p w u :
  outcome (create_device serve p w) = Ret u ->
  mutations (trace (create_device serve p w)) <> [].
Proof.
  rewrite create_device_run.
  destruct (determine_parent_group serve p w) as [[[dest|c|msg|e] w1] t1];
    try discriminate.
  cbv zeta. cbn [trace snd]. intros _.
  rewrite mutations_app, mutations_cons_call, mutation_of_duplicate_request.
  intros H. apply app_eq_nil in H. destruct H as [_ H]. discriminate H.
Qed.

Lemma converge_changed {W} (serve : W -> request -> W * response) p id dev w c :
  outcome (converge serve p false id dev w) = ExitJson c ->
  (c = false -> mutations (trace (converge serve p false id dev w)) = [])
  /\ (c = true -> mutations (trace (converge serve p false id dev w)) <> []).
Proof.
  destruct (state p) eqn:Hs; destruct (truthy id) eqn:Hid.
  - destruct dev as [d|].
    + rewrite (converge_present_found serve p false id d w Hs Hid).
      cbn [negb when].
      destruct (enabled p && (active_raw d =? 0))%bool;
        [|destruct (negb (enabled p) && (active_raw d =? -1))%bool].
      * rewrite pause_step_run. cbn [outcome trace fst snd].
        destruct (status_is _ 200); [|discriminate].
        intros [= <-]. split; [discriminate | intros _; discriminate].
      * rewrite pause_step_run. cbn [outcome trace fst snd].
        destruct (status_is _ 200); [|discriminate].
        intros [= <-]. split; [discriminate | intros _; discriminate].
      * cbn. intros [= <-]. split; [reflexivity | discriminate].
    + unfold converge. rewrite Hs, Hid. cbn [state_eqb andb negb].
      destruct (enabled p); cbn; discriminate.
  - destruct (truthy (param_val (clone_from p))) eqn:Hc.
    + rewrite (converge_create serve p false id dev w Hs Hid Hc).
      cbn [negb when outcome trace fst snd].
      pose proof (create_device_never_exits serve p w) as Hne.
      pose proof (create_device_ret_mutates serve p w) as Hm.
      destruct (outcome (create_device serve p w)) as [u|c'|msg|e];
        try discriminate; [|intros H; injection H as ->; now elim (Hne c)].
      intros [= <-]. split; [discriminate | intros _; now apply (Hm u)].
    + rewrite (converge_without_clone_from serve p false id dev w Hs Hid Hc).
      discriminate.
  - rewrite (converge_delete serve p false id dev w Hs Hid).
    cbn [negb when]. rewrite delete_run. cbn [outcome trace fst snd].
    destruct (status_is _ 200); [|discriminate].
    intros [= <-]. split; [discriminate | intros _; discriminate].
  - rewrite (converge_absent_not_found serve p false id dev w Hs Hid).
    cbn. intros [= <-]. split; [reflexivity | discriminate].
Qed.

Lemma check_device_never_exits {W} (serve : W -> request -> W * response) p w c :
  outcome (check_device serve p w) <> ExitJson c.
Proof.
  unfold check_device.
  destruct (negb (truthy (param_val (device_id p)))).
  - rewrite bind_api_call, listing_request_eq, validate_then_compare, outcome_after.
    destruct (status_is _ 200); [|discriminate].
    rewrite bind_read, outcome_after. destruct (resp_body _); try discriminate.
    cbn [json_loads_devices]. rewrite bind_ret.
    destruct (device_name p) as [target|].
    + now rewrite for_dev_run.
    + destruct devices; discriminate.
  - rewrite bind_api_call, filter_request_eq, validate_then_compare, outcome_after.
    destruct (status_is _ 200); [|discriminate].
    rewrite bind_read, outcome_after. destruct (resp_body _); try discriminate.
    cbn [json_loads_devices]. rewrite bind_ret.
    destruct devices; discriminate.
Qed.

(** X8.  Outside check mode the reported value tells what was done: an
    invocation that exits with [changed = false] has issued no
    duplicateobject, pause or deleteobject call, and one that exits with
    [changed = true] has issued at least one. *)
Theorem changed_tells_whether_a_mutating_call_was_made :
  forall (W : Type) (serve : W -> request -> W * response) p w c,
    outcome (main serve p false w) = ExitJson c ->
    (c = false -> mutations (trace (main serve p false w)) = [])
    /\ (c = true -> mutations (trace (main serve p false w)) <> []).
Proof.
  intros W serve p w c.
  pose proof (check_device_mutations serve p w) as Hmut.
  pose proof (check_device_never_exits serve p w) as Hne.
  rewrite main_run.
  destruct (check_device serve p w) as [[[[id dev]|c'|msg|e] w1] t1];
    cbn [trace snd outcome fst] in Hmut, Hne; try discriminate.
  - cbv zeta. cbn [fst snd outcome trace]. intros H.
    rewrite mutations_app, Hmut. cbn [app].
    exact (converge_changed serve p id dev w1 c H).
  - intros _. now elim (Hne c').
Qed.

Lemma changed_tells_whether_a_mutating_call_was_made_witness :
  mutations (trace (main prtg_serve pause_params false sample_prtg)) <> [].
Proof.
  apply (proj2 (changed_tells_whether_a_mutating_call_was_made prtg prtg_serve
                  pause_params sample_prtg true eq_refl)).
  reflexivity.
Defined.

(* ================================================================= *)
(** ** An explicit [device_id], for every remote system *)

Lemma check_device_by_id_run {W} (serve : W -> request -> W * response)
    (p : params) (w : W) (devices : list device) :
  truthy (param_val (device_id p)) = true ->
  status (snd (serve w (filter_request p))) = Some 200 ->
  resp_body (snd (serve w (filter_request p))) = BJson devices ->
  check_device serve p w =
  ((if nonempty devices then Uncaught UnboundLocalError
    else Ret (param_val (device_id p), None)),
   fst (serve w (filter_request p)),
   [EvCall (filter_request p) (snd (serve w (filter_request p)));
    EvRead (snd (serve w (filter_request p)))]).
Proof.
  intros Hid Hst Hbody. unfold check_device. rewrite Hid. cbn [negb].
  rewrite bind_api_call, filter_request_eq.
  rewrite validate_then_compare, Hst. cbn [status_is Z.eqb Pos.eqb].
  rewrite bind_read, Hbody. cbn [json_loads_devices].
  rewrite bind_ret. destruct devices; reflexivity.
Qed.

Lemma converge_present_unbound {W} (serve : W -> request -> W * response)
    p cm id w :
  state p = present ->
  truthy id = true ->
  converge serve p cm id None w = (Uncaught UnboundLocalError, w, []).
Proof.
  intros Hs Hid. unfold converge. rewrite Hs, Hid. cbn [state_eqb andb negb].
  destruct (enabled p); reflexivity.
Qed.

(** X9.  With an explicit [device_id] and the filtered listing delivered,
    whatever the remote system is: when the listing is not empty, or the
    desired state is present, the invocation ends in an [UnboundLocalError]
    without having changed anything; when the listing is empty and the
    desired state is absent, the invocation takes the device to exist: in
    check mode it reports [changed = true], and outside check mode its one
    mutating call is a deleteobject for the given id. *)
Theorem explicit_device_id_in_general :
  forall (W : Type) (serve : W -> request -> W * response) p check_mode w devices,
    truthy (param_val (device_id p)) = true ->
    status (snd (serve w (filter_request p))) = Some 200 ->
    resp_body (snd (serve w (filter_request p))) = BJson devices ->
    (devices <> [] \/ state p = present ->
     outcome (main serve p check_mode w) = Uncaught UnboundLocalError
     /\ mutations (trace (main serve p check_mode w)) = [])
    /\ (devices = [] -> state p = absent ->
        (check_mode = true ->
         outcome (main serve p check_mode w) = ExitJson true
         /\ mutations (trace (main serve p check_mode w)) = [])
        /\ (check_mode = false ->
            mutations (trace (main serve p check_mode w))
            = [MDelete (param_val (device_id p)) (PStr "1")])).
Proof.
  intros W serve p cm w devices Hid Hst Hbody.
  rewrite main_run, (check_device_by_id_run serve p w devices Hid Hst Hbody).
  destruct devices as [|d rest]; cbn [nonempty].
  - cbv zeta. cbn [fst snd]. split.
    + intros [H|Hs]; [congruence|].
      rewrite (converge_present_unbound serve p cm _ _ Hs Hid). now split.
    + intros _ Hs. rewrite (converge_delete serve p cm _ None _ Hs Hid).
      cbn [outcome trace fst snd]. split.
      * intros ->. cbn. now split.
      * intros ->. cbn [negb when]. rewrite delete_run. reflexivity.
  - split; [now split | discriminate].
Qed.

Lemma explicit_device_id_in_general_witness :
  outcome (main prtg_serve (by_id "2001" absent) false sample_prtg)
  = Uncaught UnboundLocalError
  /\ mutations (trace (main prtg_serve (by_id "2001" absent) false sample_prtg)) = [].
Proof.
  apply (proj1 (explicit_device_id_in_general prtg prtg_serve (by_id "2001" absent)
                  false sample_prtg [web01] eq_refl eq_refl eq_refl)).
  left. discriminate.
Defined.

(* ================================================================= *)
(** ** Edge cases of the lookup by name *)

Lemma contains_empty (s : string) : contains EmptyString s = true.
Proof. destruct s; reflexivity. Qed.

(** X10.  An empty [device_name] matches every device name, so on any
    listing that is not empty the lookup resolves to the first device; with
    the desired state absent and outside check mode, the invocation then
    asks the remote system to delete that device. *)
Theorem empty_device_name_resolves_to_first_device :
  forall (W : Type) (serve : W -> request -> W * response) p w d rest,
    truthy (param_val (device_id p)) = false ->
    device_name p = Some EmptyString ->
    status (snd (serve w (listing_request p))) = Some 200 ->
    resp_body (snd (serve w (listing_request p))) = BJson (d :: rest) ->
    outcome (check_device serve p w) = Ret (PInt (objid d), Some d)
    /\ (state p = absent -> objid d <> 0 ->
        mutations (trace (main serve p false w))
        = [MDelete (PInt (objid d)) (PStr "1")]).
Proof.
  intros W serve p w d rest Hid Hname Hst Hbody.
  assert (Hscan : scan_result EmptyString (param_val (device_id p)) None (d :: rest)
                  = (PInt (objid d), Some d)).
  { unfold scan_result, matchb. cbn [find lower]. now rewrite contains_empty. }
  split.
  - rewrite (check_device_by_name serve p w _ _ Hid Hname Hst Hbody).
    cbn [outcome fst]. now rewrite Hscan.
  - intros Hs Hd.
    rewrite (main_by_name_run serve p false w _ _ Hid Hname Hst Hbody), Hscan.
    cbn [fst snd trace].
    assert (Ht : truthy (PInt (objid d)) = true)
      by (cbn; now apply negb_true_iff, Z.eqb_neq).
    rewrite (converge_delete serve p false _ (Some d) _ Hs Ht).
    cbn [negb when trace snd]. rewrite delete_run. reflexivity.
Qed.

Lemma empty_device_name_resolves_to_first_device_witness :
  outcome (check_device prtg_serve (by_name EmptyString) sample_prtg)
  = Ret (PInt 2001, Some web01)
  /\ (state (by_name EmptyString) = absent -> objid web01 <> 0 ->
      mutations (trace (main prtg_serve (by_name EmptyString) false sample_prtg))
      = [MDelete (PInt (objid web01)) (PStr "1")]).
Proof.
  apply (empty_device_name_resolves_to_first_device prtg prtg_serve
           (by_name EmptyString) sample_prtg web01 [template]); reflexivity.
Defined.

(** X11.  When neither a true [device_id] nor a [device_name] is given (the
    [device_id] is the empty string), the lookup raises an [AttributeError]
    on the first device of the listing, so the invocation ends in that
    exception without having changed anything; on an empty listing the loop
    body never runs and the device counts as not found. *)
Theorem missing_device_name_raises_on_first_device :
  forall (W : Type) (serve : W -> request -> W * response) p check_mode w devices,
    truthy (param_val (device_id p)) = false ->
    device_name p = None ->
    status (snd (serve w (listing_request p))) = Some 200 ->
    resp_body (snd (serve w (listing_request p))) = BJson devices ->
    (devices <> [] ->
     outcome (main serve p check_mode w) = Uncaught AttributeError
     /\ mutations (trace (main serve p check_mode w)) = [])
    /\ (devices = [] ->
        outcome (check_device serve p w) = Ret (param_val (device_id p), None)).
Proof.
  intros W serve p cm w devices Hid Hname Hst Hbody.
  assert (Hcheck : check_device serve p w
                   = ((if nonempty devices then Uncaught AttributeError
                       else Ret (param_val (device_id p), None)),
                      fst (serve w (listing_request p)),
                      [EvCall (listing_request p) (snd (serve w (listing_request p)));
                       EvRead (snd (serve w (listing_request p)))])).
  { unfold check_device. rewrite Hid. cbn [negb].
    rewrite bind_api_call, listing_request_eq.
    rewrite validate_then_compare, Hst. cbn [status_is Z.eqb Pos.eqb].
    rewrite bind_read, Hbody. cbn [json_loads_devices].
    rewrite bind_ret, Hname. destruct devices; reflexivity. }
  split.
  - intros Hne. rewrite main_run, Hcheck.
    destruct devices; [congruence|]. now split.
  - intros ->. now rewrite Hcheck.
Qed.

Lemma missing_device_name_raises_on_first_device_witness :
  outcome (main prtg_serve
             (mkParams "ansible_api" "1234567890" "https://prtg.example.com/"
                (Some EmptyString) None present true None None true)
             false sample_prtg) = Uncaught AttributeError
  /\ mutations (trace (main prtg_serve
             (mkParams "ansible_api" "1234567890" "https://prtg.example.com/"
                (Some EmptyString) None present true None None true)
             false sample_prtg)) = [].
Proof.
  apply (proj1 (missing_device_name_raises_on_first_device prtg prtg_serve
                  (mkParams "ansible_api" "1234567890" "https://prtg.example.com/"
                     (Some EmptyString) None present true None None true)
                  false sample_prtg [web01; template]
                  eq_refl eq_refl eq_refl eq_refl)).
  discriminate.
Defined.

(** X12.  A device whose [objid] is 0 counts as not found even when the
    existence check resolved to it (it left [dev] bound to the device and
    [device_id] set to its [objid]): with the desired state absent the
    invocation exits with [changed = false] and deletes nothing, and with
    the desired state present and no [clone_from] it fails for want of a
    device to clone. *)
Theorem device_with_id_zero_counts_as_not_found :
  forall (W : Type) (serve : W -> request -> W * response) p check_mode w d,
    outcome (check_device serve p w) = Ret (PInt (objid d), Some d) ->
    objid d = 0 ->
    (state p = absent ->
     outcome (main serve p check_mode w) = ExitJson false
     /\ mutations (trace (main serve p check_mode w)) = [])
    /\ (state p = present -> truthy (param_val (clone_from p)) = false ->
        outcome (main serve p check_mode w)
        = FailJson
            "Unable to create new device because: clone_from parameter not specified").
Proof.
  intros W serve p cm w d Hcheck Hzero.
  rewrite (main_after_check serve p cm w _ _ Hcheck).
  assert (Hf : truthy (PInt (objid d)) = false) by now rewrite Hzero.
  split.
  - intros Hs. rewrite (converge_absent_not_found serve p cm _ _ _ Hs Hf).
    cbn [outcome trace fst snd]. rewrite app_nil_r. split; [reflexivity|].
    apply check_device_mutations.
  - intros Hs Hc. now rewrite (converge_without_clone_from serve p cm _ _ _ Hs Hf Hc).
Qed.

Lemma device_with_id_zero_counts_as_not_found_witness :
  outcome (check_device (constant_server (ok_response (BJson [root_object])))
             remove_root tt) = Ret (PInt (objid root_object), Some root_object)
  /\ outcome (main (constant_server (ok_response (BJson [root_object])))
                remove_root false tt) = ExitJson false
  /\ mutations (trace (main (constant_server (ok_response (BJson [root_object])))
                         remove_root false tt)) = [].
Proof.
  split; [reflexivity|].
  apply (proj1 (device_with_id_zero_counts_as_not_found unit
                  (constant_server (ok_response (BJson [root_object])))
                  remove_root false tt root_object eq_refl eq_refl)).
  reflexivity.
Defined.

(* ================================================================= *)
(** ** The new device id: leftmost match, longest run of digits *)

Lemma take_digits_maximal (s : string) :
  exists post,
    s = take_digits s ++ post
    /\ forall c r, post = String c r -> is_digit c = false.
Proof.
  induction s as [|c r [post [IH1 IH2]]]; cbn [take_digits].
  - exists EmptyString. split; [reflexivity | discriminate].
  - destruct (is_digit c) eqn:E.
    + exists post. split; [cbn; now f_equal | exact IH2].
    + exists (String c r). split; [reflexivity|]. now intros c' r' [= <- <-].
Qed.

Lemma match_here_maximal (s ds : string) :
  new_dev_re_match_here s = Some ds ->
  exists post,
    s = "id%3D" ++ ds ++ post /\ forall c r, post = String c r -> is_digit c = false.
Proof.
  unfold new_dev_re_match_here.
  destruct (String.prefix "id%3D" s) eqn:E; [|discriminate].
  apply prefix_iff in E. destruct E as [rest ->].
  change (drop 5 ("id%3D" ++ rest)) with rest.
  destruct (take_digits_maximal rest) as [post [H1 H2]].
  destruct (take_digits rest) as [|c ds'] eqn:T; [discriminate|].
  intros [= <-]. exists post. split; [now rewrite H1 at 1 | exact H2].
Qed.

(** X13.  The id found in a URL is that of the leftmost [id%3D] that is
    followed by a digit, and it is the whole run of digits standing there:
    no [id%3D] followed by a digit starts earlier in the URL, and the text
    after the id does not begin with a digit. *)
Theorem new_device_id_is_leftmost_and_longest :
  forall s ds,
    new_dev_re_search s = Some ds ->
    exists pre post,
      s = pre ++ "id%3D" ++ ds ++ post
      /\ (forall c r, post = String c r -> is_digit c = false)
      /\ (forall pre' c post',
             s = pre' ++ "id%3D" ++ String c post' -> is_digit c = true ->
             (String.length pre <= String.length pre')%nat).
Proof.
  induction s as [|a r IH]; intros ds; cbn [new_dev_re_search].
  - destruct (new_dev_re_match_here EmptyString) eqn:E; [|discriminate].
    intros [= <-]. destruct (match_here_maximal _ _ E) as [post [H1 H2]].
    exists EmptyString, post. repeat split; [exact H1 | exact H2 | cbn; lia].
  - destruct (new_dev_re_match_here (String a r)) eqn:E.
    + intros [= <-]. destruct (match_here_maximal _ _ E) as [post [H1 H2]].
      exists EmptyString, post. repeat split; [exact H1 | exact H2 | cbn; lia].
    + intros H. destruct (IH ds H) as [pre [post [H1 [H2 H3]]]].
      exists (String a pre), post. split; [cbn; now f_equal|]. split; [exact H2|].
      intros pre' c post' Hs Hc. destruct pre' as [|a' pre'].
      * rewrite (match_here_none _ E c post' Hs) in Hc. discriminate Hc.
      * injection Hs as _ Hs. specialize (H3 pre' c post' Hs Hc). cbn. lia.
Qed.

Lemma new_device_id_is_leftmost_and_longest_witness :
  exists pre post,
    "/x?id%3Dabc&id%3D4321&id%3D77" = pre ++ "id%3D" ++ "4321" ++ post
    /\ (forall c r, post = String c r -> is_digit c = false)
    /\ (forall pre' c post',
           "/x?id%3Dabc&id%3D4321&id%3D77" = pre' ++ "id%3D" ++ String c post' ->
           is_digit c = true ->
           (String.length pre <= String.length pre')%nat).
Proof.
  apply (new_device_id_is_leftmost_and_longest "/x?id%3Dabc&id%3D4321&id%3D77" "4321").
  reflexivity.
Defined.

(* ================================================================= *)
(** ** The steps of a creation depend on each other *)

(** X14.  In a creation, nothing is asked of the remote system before the
    destination group is known: when the group lookup does not yield a
    group, no mutating call is issued and the creation does not complete.
    When it yields one, the first mutating call is the duplicateobject call
    into that group, and the only other one, if any, is the call that resumes
    the new device; that call is issued exactly when the duplicate call was
    answered with 200, its URL carried an id and [enabled] is set, and it is
    for the id found in that URL. *)
Theorem creation_steps_depend_on_each_other :
  forall (W : Type) (serve : W -> request -> W * response) p w,
    ((forall dest, outcome (determine_parent_group serve p w) <> Ret dest) ->
     mutations (trace (create_device serve p w)) = []
     /\ forall u, outcome (create_device serve p w) <> Ret u)
    /\
    (forall dest,
        outcome (determine_parent_group serve p w) = Ret dest ->
        let resp :=
          snd (serve (final_state (determine_parent_group serve p w))
                 (duplicate_request p dest)) in
        let duplicate :=
          MDuplicate (param_val (clone_from p)) (param_val (device_name p))
            (param_val (device_name p)) dest in
        (status resp <> Some 200 \/ new_dev_re_search (url resp) = None
         \/ enabled p = false ->
         mutations (trace (create_device serve p w)) = [duplicate])
        /\ (forall new_dev_id,
               status resp = Some 200 ->
               new_dev_re_search (url resp) = Some new_dev_id ->
               enabled p = true ->
               mutations (trace (create_device serve p w))
               = [duplicate; MPause (PStr new_dev_id) (PInt 1)])).
Proof.
  intros W serve p w.
  pose proof (determine_parent_group_mutations serve p w) as Hmut.
  rewrite create_device_run.
  destruct (determine_parent_group serve p w) as [[[dest|c|msg|e] w1] t1];
    cbn [trace outcome final_state fst snd] in Hmut |- *.
  2-4: (split; [intros _; split; [exact Hmut | discriminate] | discriminate]).
  split; [intros H; now elim (H dest)|].
  intros dest' [= <-]. cbv zeta.
  rewrite mutations_app, Hmut, mutations_cons_call, mutation_of_duplicate_request.
  cbn [app]. split.
  - intros H. f_equal.
    destruct (status (snd (serve w1 (duplicate_request p dest)))) as [z|] eqn:Hs;
      [|reflexivity].
    cbn [status_is]. destruct (Z.eqb_spec z 200) as [->|Hne]; [|reflexivity].
    destruct (new_dev_re_search _) as [nid|] eqn:Hr; [|reflexivity].
    destruct (enabled p) eqn:He; [|reflexivity].
    destruct H as [H|[H|H]]; congruence.
  - intros nid Hs Hr He. rewrite Hs, Hr, He. cbn [status_is Z.eqb Pos.eqb].
    rewrite pause_step_run. reflexivity.
Qed.

Lemma creation_steps_depend_on_each_other_witness :
  mutations (trace (create_device prtg_serve create_params sample_prtg))
  = [MDuplicate (PStr "1234") (PStr "newhost") (PStr "newhost") (PStr "5678");
     MPause (PStr "4321") (PInt 1)].
Proof.
  apply (proj2 (proj2 (creation_steps_depend_on_each_other prtg prtg_serve
                         create_params sample_prtg)
                  (PStr "5678") eq_refl) "4321"); reflexivity.
Defined.

(* ================================================================= *)
(** ** Where the [UnboundLocalError] cannot come from *)

Lemma avoids_ret {W A} e (a : A) : avoids e (@ret W A a).
Proof. intros w; discriminate. Qed.

Lemma avoids_fail_json {W A} e msg : avoids e (@fail_json W A msg).
Proof. intros w; discriminate. Qed.

Lemma avoids_exit_json {W A} e c : avoids e (@exit_json W A c).
Proof. intros w; discriminate. Qed.

Lemma avoids_raise {W A} e e' : e' <> e -> avoids e (@raise W A e').
Proof. intros H w; cbn; congruence. Qed.

Lemma avoids_read {W} e resp : avoids e (@read W resp).
Proof. intros w; discriminate. Qed.

Lemma avoids_api_call {W} e (serve : W -> request -> W * response) p path query :
  avoids e (api_call serve p path query).
Proof. intros w. unfold api_call. destruct (serve w _). discriminate. Qed.

Lemma avoids_validate_response {W} e info : avoids e (@validate_response W info).
Proof.
  intros w. unfold validate_response.
  repeat match goal with
         | |- context [if ?c then _ else _] => destruct c
         end; discriminate.
Qed.

Lemma avoids_fail_if {W} e c msg : avoids e (@fail_if W c msg).
Proof. intros w. destruct c; discriminate. Qed.

Lemma avoids_bind_post {W A B} e (Q : A -> Prop) (m : M W A) (k : A -> M W B) :
  avoids e m ->
  (forall w a, outcome (m w) = Ret a -> Q a) ->
  (forall a, Q a -> avoids e (k a)) ->
  avoids e (bind m k).
Proof.
  intros Hm HQ Hk w. specialize (Hm w). specialize (HQ w). unfold bind.
  destruct (m w) as [[[a|c|msg|e'] w1] t1]; cbn [outcome fst] in *;
    try discriminate.
  - apply (Hk a (HQ a eq_refl)).
  - congruence.
Qed.

Lemma avoids_bind {W A B} e (m : M W A) (k : A -> M W B) :
  avoids e m -> (forall a, avoids e (k a)) -> avoids e (bind m k).
Proof.
  intros Hm Hk. apply (avoids_bind_post e (fun _ => True)); auto.
Qed.

Lemma avoids_when {W} e c (m : M W unit) : avoids e m -> avoids e (when c m).
Proof. intros H. destruct c; [exact H | apply avoids_ret]. Qed.

Lemma avoids_and_then {W} e c (m : M W bool) : avoids e m -> avoids e (and_then c m).
Proof. intros H. destruct c; [exact H | apply avoids_ret]. Qed.

(** The loop binds [dev] whenever it makes [device_id] true. *)
Lemma for_dev_binds_dev {W} name id0 dev0 devices (w : W) id dev :
  truthy id0 = false ->
  outcome (for_dev name id0 dev0 devices w) = Ret (id, dev) ->
  truthy id = true -> dev <> None.
Proof.
  intros H0. revert dev0. induction devices as [|d rest IH]; intros dev0; cbn [for_dev].
  - intros [= <- <-]. congruence.
  - destruct name as [name|]; [|discriminate].
    destruct (contains _ _); [intros [= <- <-]; discriminate|].
    destruct (_ =? _)%string; [intros [= <- <-]; discriminate | apply IH].
Qed.

Lemma for_dev_avoids_unbound {W} name id dev devices :
  avoids UnboundLocalError (@for_dev W name id dev devices).
Proof.
  revert dev. induction devices as [|d rest IH]; intros dev; cbn [for_dev].
  - apply avoids_ret.
  - destruct name as [name|]; [|apply avoids_raise; discriminate].
    destruct (contains _ _); [apply avoids_ret|].
    destruct (_ =? _)%string; [apply avoids_ret | apply IH].
Qed.

Lemma check_device_by_name_binds_dev {W} (serve : W -> request -> W * response)
    p w id dev :
  truthy (param_val (device_id p)) = false ->
  outcome (check_device serve p w) = Ret (id, dev) ->
  truthy id = true -> dev <> None.
Proof.
  intros Hid. unfold check_device. rewrite Hid. cbn [negb].
  rewrite bind_api_call, listing_request_eq, validate_then_compare, outcome_after.
  destruct (status_is _ 200); [|discriminate].
  rewrite bind_read, outcome_after. destruct (resp_body _); try discriminate.
  cbn [json_loads_devices]. rewrite bind_ret.
  now apply for_dev_binds_dev.
Qed.

(** X15.  When the device is given by name (no true [device_id]), no
    invocation ends in an [UnboundLocalError], in check mode or not and
    whatever the remote system answers: the loop has bound [dev] whenever it
    has made [device_id] true, and [dev] is read only then. *)
Theorem lookup_by_name_never_reads_unbound_dev :
  forall (W : Type) (serve : W -> request -> W * response) p check_mode w,
    truthy (param_val (device_id p)) = false ->
    outcome (main serve p check_mode w) <> Uncaught UnboundLocalError.
Proof.
  intros W serve p cm w Hid. revert w.
  change (avoids UnboundLocalError (main serve p cm)).
  unfold main.
  apply (avoids_bind_post _ (fun found => truthy (fst found) = true -> snd found <> None));
    [ unfold check_device; rewrite Hid; cbn [negb]; unfold json_loads_devices
    | intros w [id dev] H; cbn [fst snd];
      now apply (check_device_by_name_binds_dev serve p w)
    | intros [id dev] HQ; cbn [fst snd] in *;
      unfold converge, create_device, determine_parent_group, pause_device,
        ET_fromstring, index, attrib_index;
      destruct (state p); destruct (truthy id) eqn:Ht; cbn [state_eqb andb negb];
      try (destruct dev as [d|]; [|now elim (HQ eq_refl)]; cbn [read_var]) ];
    repeat first
      [ apply avoids_ret | apply avoids_fail_json | apply avoids_exit_json
      | apply avoids_read | apply avoids_api_call | apply avoids_validate_response
      | apply avoids_fail_if | apply for_dev_avoids_unbound
      | apply avoids_raise; discriminate
      | apply avoids_when | apply avoids_and_then
      | apply avoids_bind; [|intros ?]
      | match goal with
        | |- avoids _ (if ?c then _ else _) => destruct c
        | |- avoids _ (match ?x with _ => _ end) => destruct x
        end ].
Qed.

Lemma lookup_by_name_never_reads_unbound_dev_witness :
  outcome (main (constant_server (ok_response (BJson []))) remove_root false tt)
  <> Uncaught UnboundLocalError.
Proof.
  apply (lookup_by_name_never_reads_unbound_dev unit
           (constant_server (ok_response (BJson []))) remove_root false tt).
  reflexivity.
Defined.

(* ================================================================= *)
(** ** No clone of a device that resolves *)

Lemma converge_found_paths {W} (serve : W -> request -> W * response) p cm id d w :
  truthy id = true ->
  paths (trace (converge serve p cm id (Some d) w)) = []
  \/ paths (trace (converge serve p cm id (Some d) w)) = ["/api/pause.htm"]
  \/ paths (trace (converge serve p cm id (Some d) w)) = ["/api/deleteobject.htm"].
Proof.
  intros Hid. destruct (state p) eqn:Hs.
  - rewrite (converge_present_found serve p cm id d w Hs Hid).
    destruct (enabled p && (active_raw d =? 0))%bool;
      [|destruct (negb (enabled p) && (active_raw d =? -1))%bool];
      cbn [trace snd]; try (now left);
      (destruct cm; cbn [negb when]; [now left|];
       rewrite pause_step_run; right; left; reflexivity).
  - rewrite (converge_delete serve p cm id (Some d) w Hs Hid). cbn [trace snd].
    destruct cm; cbn [negb when]; [now left|].
    rewrite delete_run. right; right; reflexivity.
Qed.

(** X16.  When the existence check resolves to a device (it leaves [dev]
    bound and a true [device_id]), the invocation calls neither
    duplicateobject.htm nor getobjectstatus.htm: whatever the task asks for,
    no second device is created for a target that resolves. *)
Theorem no_clone_when_the_device_resolves :
  forall (W : Type) (serve : W -> request -> W * response) p check_mode w id d,
    outcome (check_device serve p w) = Ret (id, Some d) ->
    truthy id = true ->
    ~ In "/api/duplicateobject.htm" (paths (trace (main serve p check_mode w)))
    /\ ~ In "/api/getobjectstatus.htm" (paths (trace (main serve p check_mode w))).
Proof.
  intros W serve p cm w id d Hcheck Ht.
  rewrite (main_after_check serve p cm w _ _ Hcheck). cbn [trace snd].
  rewrite paths_app, check_device_paths.
  destruct (converge_found_paths serve p cm id d
              (final_state (check_device serve p w)) Ht) as [H|[H|H]];
    rewrite H; cbn; split; intros [E|E]; try discriminate E;
    try (destruct E as [E|E]; try discriminate E); contradiction.
Qed.

Lemma no_clone_when_the_device_resolves_witness :
  outcome (check_device prtg_serve (by_name "web") sample_prtg)
  = Ret (PInt 2001, Some web01)
  /\ ~ In "/api/duplicateobject.htm"
        (paths (trace (main prtg_serve (by_name "web") false sample_prtg)))
  /\ ~ In "/api/getobjectstatus.htm"
        (paths (trace (main prtg_serve (by_name "web") false sample_prtg))).
Proof.
  split; [reflexivity|].
  apply (no_clone_when_the_device_resolves prtg prtg_serve (by_name "web") false
           sample_prtg (PInt 2001) web01 eq_refl eq_refl).
Defined.

(* ================================================================= *)
(** ** Only the body of a response with status 200 is read *)

Lemma reads_app (t1 t2 : list event) : reads (t1 ++ t2) = (reads t1 ++ reads t2)%list.
Proof.
  induction t1 as [|[rq rs|rs] t1 IH]; cbn; [reflexivity | exact IH | now rewrite IH].
Qed.

Lemma silent_ret {W A} (a : A) : silent (@ret W A a).
Proof. intros w; reflexivity. Qed.

Lemma silent_lift {W A} (r : result A) : silent (@lift W A r).
Proof. intros w; reflexivity. Qed.

Lemma silent_for_dev {W} name id dev devs : silent (@for_dev W name id dev devs).
Proof.
  revert dev. induction devs as [|d rest IH]; intros dev w; cbn [for_dev].
  - reflexivity.
  - destruct name as [name|]; [|reflexivity].
    destruct (contains _ _); [reflexivity|].
    destruct (_ =? _)%string; [reflexivity | apply IH].
Qed.

Lemma silent_json_loads_devices {W} b : silent (@json_loads_devices W b).
Proof. intros w. destruct b; reflexivity. Qed.

Lemma silent_ET_fromstring {W} b : silent (@ET_fromstring W b).
Proof. intros w. destruct b; reflexivity. Qed.

Lemma silent_read_var {W A} (v : option A) : silent (@read_var W A v).
Proof. intros w. destruct v; reflexivity. Qed.

Lemma silent_index {W A} (l : list A) i : silent (@index W A l i).
Proof. intros w. unfold index. destruct (nth_error l i); reflexivity. Qed.

Lemma silent_attrib_index {W} x k : silent (@attrib_index W x k).
Proof. intros w. unfold attrib_index. destruct (attrib_get _ _); reflexivity. Qed.

Lemma silent_fail_if {W} c msg : silent (@fail_if W c msg).
Proof. intros w. destruct c; reflexivity. Qed.

Lemma every_read_silent {W A} (P : response -> Prop) (m : M W A) :
  silent m -> every_read P m.
Proof. intros H w. rewrite H. constructor. Qed.

Lemma every_read_read {W} (P : response -> Prop) resp :
  P resp -> every_read P (@read W resp).
Proof. intros H w. cbn. now constructor. Qed.

Lemma every_read_bind {W A B} (P : response -> Prop) (m : M W A) (k : A -> M W B) :
  every_read P m -> (forall a, every_read P (k a)) -> every_read P (bind m k).
Proof.
  intros Hm Hk w. specialize (Hm w). unfold bind.
  destruct (m w) as [[[a|c|msg|e] w1] t1]; cbn [trace snd] in *; try exact Hm.
  rewrite reads_app. apply Forall_app. split; [exact Hm | apply Hk].
Qed.

(** After a call, the status check and the comparison with 200, what follows
    runs only for a response with status 200. *)
Lemma every_read_validated_call {W B} (P : response -> Prop)
    (serve : W -> request -> W * response) p path query msg (k : response -> M W B) :
  (forall info, status info = Some 200 -> every_read P (k info)) ->
  every_read P (info <- api_call serve p path query ;;
                v <- validate_response info ;;
                fail_if (negb (v =? 200)) msg ;;; k info).
Proof.
  intros Hk w. rewrite bind_api_call, validate_then_compare.
  unfold after. cbn [trace snd reads].
  destruct (status (snd (serve w (request_of p path query)))) as [z|] eqn:Hs;
    cbn [status_is]; [|constructor].
  destruct (Z.eqb_spec z 200) as [->|Hne]; [|constructor].
  now apply Hk.
Qed.

Lemma every_read_validated_call_last {W} (P : response -> Prop)
    (serve : W -> request -> W * response) p path query msg :
  every_read P (info <- api_call serve p path query ;;
                v <- validate_response info ;;
                fail_if (negb (v =? 200)) msg).
Proof.
  intros w. rewrite bind_api_call, validate_then_compare_last.
  destruct (status_is _ 200); constructor.
Qed.

Lemma every_read_when {W} (P : response -> Prop) c (m : M W unit) :
  every_read P m -> every_read P (when c m).
Proof. intros H. destruct c; [exact H | apply every_read_silent, silent_ret]. Qed.

Lemma every_read_and_then {W} (P : response -> Prop) c (m : M W bool) :
  every_read P m -> every_read P (and_then c m).
Proof. intros H. destruct c; [exact H | apply every_read_silent, silent_ret]. Qed.

(** X17.  In every run of [main], a response body is read only when the
    response came with status 200: the body of an answer with any other
    status, or with none, is never read or parsed. *)
Theorem only_bodies_with_status_200_are_read :
  forall (W : Type) (serve : W -> request -> W * response) p check_mode w,
    Forall (fun resp => status resp = Some 200)
      (reads (trace (main serve p check_mode w))).
Proof.
  intros W serve p cm. change (every_read (fun resp => status resp = Some 200)
                                 (main serve p cm)).
  unfold main, check_device, converge, create_device, determine_parent_group,
    pause_device.
  repeat first
    [ apply every_read_validated_call; intros ? ?
    | apply every_read_validated_call_last
    | apply every_read_read; assumption
    | apply every_read_silent;
      first [ apply silent_ret | apply silent_lift | apply silent_for_dev
            | apply silent_json_loads_devices | apply silent_ET_fromstring
            | apply silent_read_var | apply silent_index
            | apply silent_attrib_index | apply silent_fail_if ]
    | apply every_read_when
    | apply every_read_and_then
    | apply every_read_bind; [|intros ?]
    | match goal with
      | |- every_read _ (if ?c then _ else _) => destruct c
      | |- every_read _ (match ?x with _ => _ end) => destruct x
      end ].
Qed.

(* ================================================================= *)
(** ** Check mode and the real run; a device in another state *)

(** X18.  With the same task on the same remote system, the run outside
    check mode begins with exactly what the run in check mode does: the
    trace of the check-mode run is an initial part of the trace of the real
    run, and both leave the existence check with the same result. *)
Theorem real_run_begins_as_check_mode_run :
  forall (W : Type) (serve : W -> request -> W * response) p w,
    trace (main serve p true w) = trace (check_device serve p w)
    /\ exists rest,
        trace (main serve p false w) = (trace (main serve p true w) ++ rest)%list.
Proof.
  intros W serve p w. rewrite !main_run.
  destruct (check_device serve p w) as [[[[id dev]|c|msg|e] w1] t1];
    cbn [trace snd];
    try (split; [reflexivity | exists []; now rewrite app_nil_r]).
  cbv zeta. cbn [fst snd trace].
  destruct (converge_check_mode serve p id dev w1) as [Ht _].
  rewrite Ht, app_nil_r. split; [reflexivity | now eexists].
Qed.

(** X19.  A device that the existence check resolved to (it left [dev]
    bound to the device and [device_id] set to its [objid], which is not 0)
    and whose [active_raw] is neither 0 nor -1 is left alone when the
    desired state is present: whatever [enabled] says, the invocation exits
    with [changed = false] after the listing, without any further call. *)
Theorem device_in_another_state_is_left_alone :
  forall (W : Type) (serve : W -> request -> W * response) p check_mode w d,
    outcome (check_device serve p w) = Ret (PInt (objid d), Some d) ->
    objid d <> 0 ->
    active_raw d <> 0 -> active_raw d <> -1 ->
    state p = present ->
    outcome (main serve p check_mode w) = ExitJson false
    /\ calls (trace (main serve p check_mode w)) = [listing_request p].
Proof.
  intros W serve p cm w d Hcheck Hd H0 H1 Hs.
  rewrite (main_after_check serve p cm w _ _ Hcheck). cbn [outcome trace fst snd].
  assert (Ht : truthy (PInt (objid d)) = true)
    by (cbn; now apply negb_true_iff, Z.eqb_neq).
  rewrite (converge_present_found serve p cm _ d _ Hs Ht).
  apply Z.eqb_neq in H0, H1. rewrite H0, H1, !andb_false_r.
  cbn [fst snd]. rewrite app_nil_r, check_device_calls.
  now rewrite (check_device_bound_by_name serve p w _ _ Hcheck).
Qed.

Lemma device_in_another_state_is_left_alone_witness :
  outcome (check_device (constant_server (ok_response (BJson [starting_device])))
             (by_name "db01") tt)
  = Ret (PInt (objid starting_device), Some starting_device)
  /\ outcome (main (constant_server (ok_response (BJson [starting_device])))
                (by_name "db01") false tt) = ExitJson false
  /\ calls (trace (main (constant_server (ok_response (BJson [starting_device])))
                     (by_name "db01") false tt))
     = [listing_request (by_name "db01")].
Proof.
  split; [reflexivity|].
  apply (device_in_another_state_is_left_alone unit
           (constant_server (ok_response (BJson [starting_device])))
           (by_name "db01") false tt starting_device eq_refl);
    [discriminate | discriminate | discriminate | reflexivity].
Defined.

(* ================================================================= *)
(** ** The transition table, row by row, on a whole invocation *)

(** The search finds the id that the URL carries. *)
Lemma take_digits_run (ds post : string) :
  all_digits ds = true ->
  (forall c r, post = String c r -> is_digit c = false) ->
  take_digits (ds ++ post) = ds.
Proof.
  intros Hds Hpost. induction ds as [|c r IH]; cbn [append].
  - destruct post as [|c r]; [reflexivity|].
    cbn [take_digits]. now rewrite (Hpost c r eq_refl).
  - cbn [all_digits] in Hds. apply andb_true_iff in Hds as [Hc Hr].
    cbn [take_digits]. rewrite Hc. f_equal. now apply IH.
Qed.

Lemma carries_id_search (u nid : string) :
  carries_id u nid -> new_dev_re_search u = Some nid.
Proof.
  intros [pre [post [Hu [Hne [Hds [Hpost Hleft]]]]]].
  assert (Hhere : new_dev_re_match_here ("id%3D" ++ nid ++ post) = Some nid).
  { unfold new_dev_re_match_here.
    assert (E : String.prefix "id%3D" ("id%3D" ++ nid ++ post) = true)
      by (apply prefix_iff; now eexists).
    rewrite E. change (drop 5 ("id%3D" ++ nid ++ post)) with (nid ++ post).
    rewrite (take_digits_run nid post Hds Hpost).
    destruct nid; [now elim Hne | reflexivity]. }
  subst u. induction pre as [|a pre IH].
  - change (EmptyString ++ "id%3D" ++ nid ++ post) with ("id%3D" ++ nid ++ post).
    change (new_dev_re_search ("id%3D" ++ nid ++ post))
      with (match new_dev_re_match_here ("id%3D" ++ nid ++ post) with
            | Some ds => Some ds
            | None => new_dev_re_search ("d%3D" ++ nid ++ post)
            end).
    now rewrite Hhere.
  - change (String a pre ++ "id%3D" ++ nid ++ post)
      with (String a (pre ++ "id%3D" ++ nid ++ post)) in *.
    cbn [new_dev_re_search].
    destruct (new_dev_re_match_here (String a (pre ++ "id%3D" ++ nid ++ post)))
      as [ds|] eqn:E.
    + exfalso. destruct (match_here_some _ _ E) as [post2 [H1 [H2 H3]]].
      destruct ds as [|c ds]; [now elim H2|].
      cbn [all_digits] in H3. apply andb_true_iff in H3 as [Hc _].
      specialize (Hleft EmptyString c (ds ++ post2) H1 Hc). cbn in Hleft. lia.
    + apply IH. intros pre' c post' H Hc.
      assert (H' : String a (pre ++ "id%3D" ++ nid ++ post)
                   = String a pre' ++ "id%3D" ++ String c post')
        by (cbn [append]; now f_equal).
      specialize (Hleft (String a pre') c post' H' Hc). cbn in Hleft. lia.
Qed.

(** A match of the search is the id that the URL carries. *)
Lemma search_carries_id (u nid : string) :
  new_dev_re_search u = Some nid -> carries_id u nid.
Proof.
  revert nid. induction u as [|a r IH]; intros nid; cbn [new_dev_re_search].
  - destruct (new_dev_re_match_here EmptyString) eqn:E; [|discriminate].
    intros [= <-]. destruct (match_here_some _ _ E) as [post [H1 [H2 H3]]].
    destruct post; discriminate H1.
  - destruct (new_dev_re_match_here (String a r)) eqn:E.
    + intros [= <-]. destruct (match_here_some _ _ E) as [post [H1 [H2 H3]]].
      destruct (match_here_maximal _ _ E) as [post' [H1' H2']].
      exists EmptyString, post'. repeat split; try assumption. cbn; lia.
    + intros H. destruct (IH nid H) as [pre [post [H1 [H2 [H3 [H4 H5]]]]]].
      exists (String a pre), post. split; [cbn; now f_equal|].
      repeat split; try assumption.
      intros pre' c post' Hs Hc. destruct pre' as [|a' pre'].
      * rewrite (match_here_none _ E c post' Hs) in Hc. discriminate Hc.
      * injection Hs as _ Hs. specialize (H5 pre' c post' Hs Hc). cbn. lia.
Qed.

(** The parent group lookup finds the destination of the specification. *)
Lemma determine_parent_group_destination {W} (serve : W -> request -> W * response)
    p w dest :
  destination serve p w dest ->
  outcome (determine_parent_group serve p w) = Ret dest
  /\ final_state (determine_parent_group serve p w) = after_group_lookup serve p w.
Proof.
  unfold destination, after_group_lookup, determine_parent_group.
  destruct (truthy (param_val (dest_group p))).
  - intros ->. now split.
  - intros [Hst [thisid [Hg ->]]].
    rewrite bind_api_call. change (request_of p _ _) with (group_request p).
    rewrite validate_then_compare, Hst. cbn [status_is Z.eqb Pos.eqb].
    rewrite bind_read, outcome_after, final_state_after.
    destruct (resp_body (snd (serve w (group_request p)))) as [ds|root|t];
      try discriminate Hg.
    destruct root as [tg at_ [|c0 [|[t1 a1 [|g10 r1]] r0]]]; try discriminate Hg.
    cbn [parent_group_of] in Hg.
    cbn [ET_fromstring]. rewrite bind_ret. unfold index.
    cbn [xml_children nth_error]. rewrite bind_ret. cbn [xml_tag].
    destruct (t1 =? "result")%string; [|discriminate Hg].
    cbn [xml_children nth_error]. rewrite bind_ret. unfold attrib_index.
    rewrite Hg. now rewrite bind_ret.
Qed.

(** X21.  The rows of the transition table for a device that resolves, on a
    whole invocation outside check mode.  When the existence check leaves
    [dev] bound to a device and [device_id] set to its [objid], which is not
    0, the mutating calls of the invocation are those of the row that the
    desired state, [enabled] and the device's [active_raw] select: a
    pause.htm call with action 1 for the device (unpause), one with action 0
    (pause), a deleteobject call for the device (delete), or none.  When
    every call of the invocation is answered with status 200, it exits with
    the [changed] value of that row. *)
Theorem resolved_device_follows_transition_table :
  forall (W : Type) (serve : W -> request -> W * response) p w d,
    outcome (check_device serve p w) = Ret (PInt (objid d), Some d) ->
    objid d <> 0 ->
    mutations (trace (main serve p false w))
    = match table_action (state p) (Some d) (enabled p) with
      | Unpause => [MPause (PInt (objid d)) (PInt 1)]
      | Pause => [MPause (PInt (objid d)) (PInt 0)]
      | Delete => [MDelete (PInt (objid d)) (PStr "1")]
      | CreateByClone => []
      | NoAction => []
      end
    /\ (all_answered_200 (trace (main serve p false w)) ->
        outcome (main serve p false w)
        = ExitJson (table_changed (table_action (state p) (Some d) (enabled p)))).
Proof.
  intros W serve p w d Hcheck Hd.
  assert (Ht : truthy (PInt (objid d)) = true)
    by (cbn; now apply negb_true_iff, Z.eqb_neq).
  rewrite (main_after_check serve p false w _ _ Hcheck).
  cbn [outcome trace fst snd]. rewrite mutations_app, check_device_mutations.
  cbn [app]. unfold all_answered_200.
  set (w1 := final_state (check_device serve p w)).
  destruct (state p) eqn:Hs; cbn [table_action].
  - rewrite (converge_present_found serve p false _ d w1 Hs Ht).
    unfold currently_paused, currently_active. cbn [negb when].
    destruct (enabled p && (active_raw d =? 0))%bool;
      [|destruct (negb (enabled p) && (active_raw d =? -1))%bool].
    + rewrite pause_step_run. cbn [outcome trace fst snd table_changed].
      split; [reflexivity|]. intros Hall.
      rewrite (Hall (pause_request p (PInt (objid d)) false)
                 (snd (serve w1 (pause_request p (PInt (objid d)) false))));
        [reflexivity|]. apply in_or_app. right. now left.
    + rewrite pause_step_run. cbn [outcome trace fst snd table_changed].
      split; [reflexivity|]. intros Hall.
      rewrite (Hall (pause_request p (PInt (objid d)) true)
                 (snd (serve w1 (pause_request p (PInt (objid d)) true))));
        [reflexivity|]. apply in_or_app. right. now left.
    + now split.
  - rewrite (converge_delete serve p false _ (Some d) w1 Hs Ht).
    cbn [negb when]. rewrite delete_run. cbn [outcome trace fst snd table_changed].
    split; [reflexivity|]. intros Hall.
    rewrite (Hall (delete_request p (PInt (objid d)))
               (snd (serve w1 (delete_request p (PInt (objid d))))));
      [reflexivity|]. apply in_or_app. right. now left.
Qed.

Lemma resolved_device_follows_transition_table_witness :
  outcome (check_device prtg_serve pause_params sample_prtg)
  = Ret (PInt (objid web01), Some web01)
  /\ mutations (trace (main prtg_serve pause_params false sample_prtg))
     = [MPause (PInt 2001) (PInt 0)]
  /\ outcome (main prtg_serve pause_params false sample_prtg) = ExitJson true.
Proof.
  split; [reflexivity|].
  assert (Hd : objid web01 <> 0) by discriminate.
  destruct (resolved_device_follows_transition_table prtg prtg_serve pause_params
              sample_prtg web01 eq_refl Hd) as [H1 H2].
  split; [exact H1|]. apply H2.
  intros req resp [E|[E|[E|[]]]]; try discriminate E; now injection E as _ <-.
Defined.

(** X22.  The rows of the transition table for a device that does not
    resolve, on a whole invocation outside check mode.  When the existence
    check ends with a false [device_id]: with the desired state absent the
    invocation exits with [changed = false] and changes nothing; with the
    desired state present and a [clone_from], once the destination is known
    ([dest_group], or else the [thisid] that the document of
    getobjectstatus.htm carries) and the duplicateobject call is answered
    with status 200 and a URL that carries a new id, the mutating calls are
    the duplicateobject call of [clone_from] under that destination, named
    and hosted as [device_name], followed, when [enabled] is set, by the
    pause.htm call with action 1 for the new id, and nothing else; the
    invocation then exits with [changed = true], provided the pause.htm
    call, if there is one, is answered with status 200. *)
Theorem unresolved_device_follows_transition_table :
  forall (W : Type) (serve : W -> request -> W * response) p w id dev,
    outcome (check_device serve p w) = Ret (id, dev) ->
    truthy id = false ->
    (state p = absent ->
     outcome (main serve p false w) = ExitJson false
     /\ mutations (trace (main serve p false w)) = [])
    /\ (forall dest nid,
          state p = present ->
          truthy (param_val (clone_from p)) = true ->
          let w1 := final_state (check_device serve p w) in
          let w2 := after_group_lookup serve p w1 in
          let resp := snd (serve w2 (duplicate_request p dest)) in
          let w3 := fst (serve w2 (duplicate_request p dest)) in
          destination serve p w1 dest ->
          status resp = Some 200 ->
          carries_id (url resp) nid ->
          mutations (trace (main serve p false w))
          = MDuplicate (param_val (clone_from p)) (param_val (device_name p))
              (param_val (device_name p)) dest
            :: (if enabled p then [MPause (PStr nid) (PInt 1)] else [])
          /\ ((enabled p = true ->
               status (snd (serve w3 (pause_request p (PStr nid) false))) = Some 200) ->
              outcome (main serve p false w) = ExitJson true)).
Proof.
  intros W serve p w id dev Hcheck Hid.
  rewrite (main_after_check serve p false w _ _ Hcheck).
  cbn [outcome trace fst snd]. rewrite mutations_app, check_device_mutations.
  cbn [app]. split.
  - intros Hs. rewrite (converge_absent_not_found serve p false _ _ _ Hs Hid).
    now split.
  - intros dest nid Hs Hc. cbv zeta. intros Hdest Hst Hurl.
    rewrite (converge_create serve p false _ _ _ Hs Hid Hc).
    cbn [negb when]. rewrite create_device_run.
    pose proof (determine_parent_group_mutations serve p
                  (final_state (check_device serve p w))) as Hmut.
    destruct (determine_parent_group_destination serve p _ dest Hdest) as [Ho Hf].
    rewrite <- Hf in Hst, Hurl |- *.
    destruct (determine_parent_group serve p (final_state (check_device serve p w)))
      as [[r w2] t2].
    cbn [outcome final_state trace fst snd] in Ho, Hmut, Hst, Hurl |- *. subst r.
    cbv zeta. rewrite Hst, (carries_id_search _ _ Hurl).
    cbn [status_is Z.eqb Pos.eqb].
    cbn [outcome trace fst snd]. rewrite mutations_app, Hmut.
    cbn [app]. rewrite mutations_cons_call, mutation_of_duplicate_request.
    destruct (enabled p).
    + rewrite pause_step_run. cbn [outcome trace fst snd].
      split; [reflexivity|]. intros Hp. now rewrite (Hp eq_refl).
    + now split.
Qed.

Lemma unresolved_device_follows_transition_table_witness :
  mutations (trace (main prtg_serve clone_params false sample_prtg))
  = [MDuplicate (PStr "1234") (PStr "newhost") (PStr "newhost") (PStr "5678");
     MPause (PStr "4321") (PInt 1)]
  /\ outcome (main prtg_serve clone_params false sample_prtg) = ExitJson true.
Proof.
  destruct (proj2 (unresolved_device_follows_transition_table prtg prtg_serve
                     clone_params sample_prtg PNone (Some template)
                     eq_refl eq_refl)
              (PStr "5678") "4321" eq_refl eq_refl
              (conj eq_refl (ex_intro _ "5678" (conj eq_refl eq_refl)))
              eq_refl
              (search_carries_id "/device.htm?id%3D4321" "4321" eq_refl))
    as [H1 H2].
  split; [exact H1|]. apply H2. reflexivity.
Defined.
